(** * Excel DB Diff: a shallow embedding of [main.py]

    The program compares two workbooks sheet by sheet.  Sheets whose
    column labels and row index agree are compared cell by cell
    ([pandas.DataFrame.compare]); all other sheets go through an outer
    merge with an indicator column and only the unmatched rows are kept.

    The embedding follows the source function by function.  The pandas
    and YAML values the source manipulates are modelled as plain data:
    a cell is a missing value, a text or an integer; a column label is a
    text; a frame is a list of column labels, the names of its index
    levels and a list of rows, each row carrying its index entry.

    A text is kept as the sequence of its bytes.  What Python does to the
    characters of a text that is not ASCII ([str.lower], [str.strip],
    [len]) is not fixed here: these three operations are the fields of
    the class [Py.Text], which says what they do to ASCII text and leaves
    the rest open, and everything below holds for every instance.

    Numbers other than integers, and column labels other than texts, are
    outside the model.  The dtype pandas gives a column is read off its
    cells where [pandas.merge] depends on it, and the rows of an outer
    merge come ordered by join key. *)

From Stdlib Require Import String Ascii List ZArith Bool Lia.
From Stdlib Require Import Sorted DecimalString OrderedTypeEx Permutation.
Import ListNotations.
Local Open Scope string_scope.
Local Open Scope list_scope.

(** ** Python built-ins used by the source *)

Module Py.

(** [str.lower] on ASCII text: the letters A to Z. *)
Definition lower_ascii (c : ascii) : ascii :=
  let n := nat_of_ascii c in
  if andb (Nat.leb 65 n) (Nat.leb n 90) then ascii_of_nat (n + 32) else c.

Fixpoint ascii_lower (s : string) : string :=
  match s with
  | EmptyString => EmptyString
  | String c s' => String (lower_ascii c) (ascii_lower s')
  end.

(** [str.isspace] on one ASCII character: tab to carriage return, the four
    separators 28 to 31, and the space. *)
Definition isspace (c : ascii) : bool :=
  let n := nat_of_ascii c in
  orb (andb (Nat.leb 9 n) (Nat.leb n 13)) (andb (Nat.leb 28 n) (Nat.leb n 32)).

(** [s.lstrip()], [s.rstrip()] and [s.strip()] on ASCII text. *)
Fixpoint lstrip (s : string) : string :=
  match s with
  | EmptyString => EmptyString
  | String c s' => if isspace c then lstrip s' else s
  end.

Fixpoint rstrip (s : string) : string :=
  match s with
  | EmptyString => EmptyString
  | String c s' =>
      match rstrip s' with
      | EmptyString => if isspace c then EmptyString else String c EmptyString
      | t => String c t
      end
  end.

Definition ascii_strip (s : string) : string := rstrip (lstrip s).

(** [s.isascii()]: every byte is below 128. *)
Fixpoint isascii (s : string) : bool :=
  match s with
  | EmptyString => true
  | String c s' => andb (Nat.ltb (nat_of_ascii c) 128) (isascii s')
  end.

(** The operations of the source that look at the characters of a text.
    Python lowers every cased letter, strips every Unicode whitespace and
    counts characters, not bytes; on ASCII text that is what the functions
    above compute, and only that much is fixed. *)
Class Text : Type := {
  lower : string -> string;
  strip : string -> string;
  len : string -> nat;
  lower_ascii_text : forall s, isascii s = true -> lower s = ascii_lower s;
  strip_ascii_text : forall s, isascii s = true -> strip s = ascii_strip s;
  len_ascii_text : forall s, isascii s = true -> len s = String.length s
}.

(** The instance that treats every byte as a character of its own; the
    sample runs below, whose texts are all ASCII, are evaluated in it. *)
Definition ascii_text : Text :=
  {| lower := ascii_lower;
     strip := ascii_strip;
     len := String.length;
     lower_ascii_text := fun _ _ => eq_refl;
     strip_ascii_text := fun _ _ => eq_refl;
     len_ascii_text := fun _ _ => eq_refl |}.

(** [s.startswith(p)] *)
Definition startswith (s p : string) : bool := String.prefix p s.

(** Truth value of a text: the empty text is falsy. *)
Definition truthy_str (s : string) : bool :=
  match s with EmptyString => false | _ => true end.

(** [x in l] for a list (or set) of texts. *)
Definition mem (x : string) (l : list string) : bool :=
  existsb (String.eqb x) l.

(** A Python [set] of texts is kept as a list; it is only ever observed
    through [mem] and [sorted]. *)
Definition set_and (a b : list string) : list string :=
  filter (fun x => mem x b) a.

Definition set_sub (a b : list string) : list string :=
  filter (fun x => negb (mem x b)) a.

(** [sorted(s)] for a set [s]: ascending code-point order, and each
    element once since [s] is a set. *)
Fixpoint insert (x : string) (l : list string) : list string :=
  match l with
  | [] => [x]
  | y :: l' =>
      match String.compare x y with
      | Lt => x :: l
      | Eq => l
      | Gt => y :: insert x l'
      end
  end.

Definition sorted (s : list string) : list string :=
  fold_right insert [] s.

(** ["_".join(parts)] *)
Definition join (sep : string) (parts : list string) : string :=
  String.concat sep parts.

(** [str(z)] for an integer. *)
Definition str_int (z : Z) : string := NilZero.string_of_int (Z.to_int z).

End Py.

(** ** The parsed YAML document *)

Module Yaml.

Inductive scalar : Type :=
| YNull
| YStr (s : string)
| YInt (z : Z)
| YBool (b : bool).

(** A value of the mapping: one scalar or a list of scalars. *)
Inductive value : Type :=
| YScalar (x : scalar)
| YList (l : list scalar).

(** Python's [None]. *)
Definition none : value := YScalar YNull.

Definition is_none (v : value) : bool :=
  match v with YScalar YNull => true | _ => false end.

(** [str(x)] *)
Definition str (x : scalar) : string :=
  match x with
  | YNull => "None"
  | YStr s => s
  | YInt z => Py.str_int z
  | YBool true => "True"
  | YBool false => "False"
  end.

(** [bool(v)]: [None], [""], [0], [False] and [[]] are falsy. *)
Definition truthy (v : value) : bool :=
  match v with
  | YScalar YNull => false
  | YScalar (YStr s) => Py.truthy_str s
  | YScalar (YInt z) => negb (Z.eqb z 0)
  | YScalar (YBool b) => b
  | YList [] => false
  | YList (_ :: _) => true
  end.

(** A [dict] in insertion order; keys are pairwise distinct. *)
Definition dict (K : Type) : Type := list (K * value).

(** [d.get(k)] for a text [k] on a dict keyed by YAML scalars: only a
    text key can be equal to [k]; an absent key gives [None]. *)
Fixpoint get_raw (d : dict scalar) (k : string) : value :=
  match d with
  | [] => none
  | (YStr k', v) :: d' => if String.eqb k' k then v else get_raw d' k
  | _ :: d' => get_raw d' k
  end.

(** [d.get(k)] on a dict keyed by texts. *)
Fixpoint get (d : dict string) (k : string) : value :=
  match d with
  | [] => none
  | (k', v) :: d' => if String.eqb k' k then v else get d' k
  end.

(** [d[k] = v]: an existing key keeps its place and takes the new
    value, a new key goes last. *)
Fixpoint set (d : dict string) (k : string) (v : value) : dict string :=
  match d with
  | [] => [(k, v)]
  | (k', v') :: d' =>
      if String.eqb k' k then (k', v) :: d' else (k', v') :: set d' k v
  end.

End Yaml.

(** ** The part of pandas the source relies on *)

Module Pandas.

(** A cell: missing ([NaN]), a text or an integer. *)
Inductive value : Type :=
| NaN
| VStr (s : string)
| VNum (z : Z).

(** Equality of two cells where two missing values count as equal, as
    [Index.equals], [DataFrame.compare] and the join keys of
    [pandas.merge] have it. *)
Definition value_eqb (a b : value) : bool :=
  match a, b with
  | NaN, NaN => true
  | VStr s, VStr t => String.eqb s t
  | VNum x, VNum y => Z.eqb x y
  | _, _ => false
  end.

Fixpoint list_eqb {A : Type} (eqb : A -> A -> bool) (l1 l2 : list A) : bool :=
  match l1, l2 with
  | [], [] => true
  | x :: l1', y :: l2' => andb (eqb x y) (list_eqb eqb l1' l2')
  | _, _ => false
  end.

Definition memb {A : Type} (eqb : A -> A -> bool) (x : A) (l : list A) : bool :=
  existsb (eqb x) l.

Fixpoint distinctb {A : Type} (eqb : A -> A -> bool) (l : list A) : bool :=
  match l with
  | [] => true
  | x :: l' => andb (negb (memb eqb x l')) (distinctb eqb l')
  end.

Definition pair_eqb (a b : string * string) : bool :=
  andb (String.eqb (fst a) (fst b)) (String.eqb (snd a) (snd b)).

(** Exceptions raised by the library calls the source makes; the last two
    are those of the xlsxwriter engine. *)
Inductive exn : Type :=
| KeyError
| ValueError
| MergeError
| InvalidWorksheetName
| DuplicateWorksheetName.

Inductive result (A : Type) : Type :=
| Ok (a : A)
| Raise (e : exn).
Arguments Ok {A} a.
Arguments Raise {A} e.

Definition bind {A B : Type} (m : result A) (k : A -> result B) : result B :=
  match m with
  | Ok a => k a
  | Raise e => Raise e
  end.

(** A frame: the names of the index levels ([None] for the unnamed
    default index), the column labels, and the rows, each with its index
    entry (one cell per level) and its cells (one per column). *)
Record Frame (L : Type) : Type := mkFrame {
  index_names : option (list string);
  columns : list L;
  rows : list (list value * list value)
}.
Arguments mkFrame {L} _ _ _.
Arguments index_names {L} _.
Arguments columns {L} _.
Arguments rows {L} _.

Definition DataFrame : Type := Frame string.

Definition index {L : Type} (df : Frame L) : list (list value) := map fst (rows df).
Definition data {L : Type} (df : Frame L) : list (list value) := map snd (rows df).

(** What [read_excel] parsed: the header row and the rows under it. *)
Record Table : Type := mkTable {
  header : list string;
  body : list (list value)
}.

(** The default index 0, 1, ..., n-1. *)
Definition range_index (n : nat) : list (list value) :=
  map (fun i => [VNum (Z.of_nat i)]) (seq 0 n).

Definition frame_of_table (t : Table) : DataFrame :=
  mkFrame None (header t) (combine (range_index (length (body t))) (body t)).

(** [df.empty]: no column or no row. *)
Definition empty {L : Type} (df : Frame L) : bool :=
  match columns df, rows df with
  | [], _ => true
  | _, [] => true
  | _, _ => false
  end.

(** Selection by a boolean mask. *)
Definition select {A : Type} (mask : list bool) (l : list A) : list A :=
  map snd (filter fst (combine mask l)).

(** [df.loc[:, mask]] *)
Definition loc_columns {L : Type} (mask : list bool) (df : Frame L) : Frame L :=
  mkFrame (index_names df) (select mask (columns df))
          (map (fun r => (fst r, select mask (snd r))) (rows df)).

(** [df.columns.str.contains(r"^Unnamed")] *)
Definition str_contains_unnamed (df : DataFrame) : list bool :=
  map (fun c => Py.startswith c "Unnamed") (columns df).

(** [df.fillna("")]: the cells of the columns; the index is not touched. *)
Definition fill (v : value) : value :=
  match v with NaN => VStr "" | _ => v end.

Definition fillna {L : Type} (df : Frame L) : Frame L :=
  mkFrame (index_names df) (columns df)
          (map (fun r => (fst r, map fill (snd r))) (rows df)).

(** The cell of a row under a column label (first occurrence). *)
Fixpoint cell (cols : list string) (row : list value) (c : string) : value :=
  match cols, row with
  | k :: cols', v :: row' => if String.eqb k c then v else cell cols' row' c
  | _, _ => NaN
  end.

Definition labels_of (v : Yaml.value) : list Yaml.scalar :=
  match v with
  | Yaml.YScalar x => [x]
  | Yaml.YList l => l
  end.

(** Column labels are texts, so a label that is not a text names no
    column. *)
Fixpoint text_labels (l : list Yaml.scalar) : option (list string) :=
  match l with
  | [] => Some []
  | Yaml.YStr s :: l' =>
      match text_labels l' with
      | Some ks => Some (s :: ks)
      | None => None
      end
  | _ :: _ => None
  end.

(** [df.set_index(keys)]: the key columns leave the columns and become
    the levels of the index; a label that is no column is a KeyError. *)
Definition set_index (keys : Yaml.value) (df : DataFrame) : result DataFrame :=
  match text_labels (labels_of keys) with
  | None => Raise KeyError
  | Some ks =>
      if forallb (fun k => Py.mem k (columns df)) ks
      then
        let keep := map (fun c => negb (Py.mem c ks)) (columns df) in
        Ok (mkFrame (Some ks) (select keep (columns df))
                    (map (fun r => (map (cell (columns df) (snd r)) ks,
                                    select keep (snd r)))
                         (rows df)))
      else Raise KeyError
  end.

(** The names [reset_index] gives to the re-inserted levels. *)
Definition default_index_names (names : option (list string))
           (first_level : list string) : list string :=
  match names with
  | Some ns => ns
  | None => [if Py.mem "index" first_level then "level_0" else "index"]
  end.

(** [df.reset_index()]: the index levels come back as the first columns
    and the index is the default one again; a level whose name is
    already a column cannot be inserted (ValueError). *)
Definition reset_index (df : DataFrame) : result DataFrame :=
  let names := default_index_names (index_names df) (columns df) in
  if andb (distinctb String.eqb names)
          (forallb (fun n => negb (Py.mem n (columns df))) names)
  then Ok (mkFrame None (names ++ columns df)
                   (combine (range_index (length (rows df)))
                            (map (fun r => fst r ++ snd r) (rows df))))
  else Raise ValueError.

(** The same on a frame whose columns have two levels: the inserted
    labels are padded with the empty text. *)
Definition reset_index_multi (df : Frame (string * string))
  : result (Frame (string * string)) :=
  let names :=
    map (fun n => (n, "")) (default_index_names (index_names df) (map fst (columns df))) in
  if andb (distinctb pair_eqb names)
          (forallb (fun n => negb (memb pair_eqb n (columns df))) names)
  then Ok (mkFrame None (names ++ columns df)
                   (combine (range_index (length (rows df)))
                            (map (fun r => fst r ++ snd r) (rows df))))
  else Raise ValueError.

(** [df1.columns.equals(df2.columns)] and [df1.index.equals(df2.index)]:
    the same entries in the same order. *)
Definition columns_equals (df1 df2 : DataFrame) : bool :=
  list_eqb String.eqb (columns df1) (columns df2).

Definition index_equals (df1 df2 : DataFrame) : bool :=
  list_eqb (list_eqb value_eqb) (index df1) (index df2).

(** *** [DataFrame.compare] *)

(** [~((self == other) | (self.isna() & other.isna()))] *)
Definition ne_mask (df1 df2 : DataFrame) : list (list bool) :=
  map (fun p => map (fun vv => negb (value_eqb (fst vv) (snd vv)))
                    (combine (snd (fst p)) (snd (snd p))))
      (combine (rows df1) (rows df2)).

(** [self.where(mask)] *)
Definition where_row (m : list bool) (r : list value) : list value :=
  map (fun mv : bool * value => if fst mv then snd mv else NaN) (combine m r).

Definition frame_where (mask : list (list bool)) (df : DataFrame) : DataFrame :=
  mkFrame (index_names df) (columns df)
          (map (fun mr => (fst (snd mr), where_row (fst mr) (snd (snd mr))))
               (combine mask (rows df))).

(** [mask.any()] and [mask.any(axis=1)] *)
Definition cmask (mask : list (list bool)) (ncols : nat) : list bool :=
  map (fun j => existsb (fun r => nth j r false) mask) (seq 0 ncols).

Definition rmask (mask : list (list bool)) : list bool :=
  map (existsb (fun b => b)) mask.

(** [df.loc[rmask, cmask]] *)
Definition loc (rm cm : list bool) (df : DataFrame) : DataFrame :=
  mkFrame (index_names df) (select cm (columns df))
          (map (fun r => (fst r, select cm (snd r))) (select rm (rows df))).

Definition interleave {A : Type} (l1 l2 : list A) : list A :=
  flat_map (fun p => [fst p; snd p]) (combine l1 l2).

(** [df1.compare(df2, result_names=(name1, name2), keep_shape=False)]:
    frames that are not identically labelled cannot be compared. *)
Definition compare (name1 name2 : string) (df1 df2 : DataFrame)
  : result (Frame (string * string)) :=
  if andb (columns_equals df1 df2) (index_equals df1 df2)
  then
    let mask := ne_mask df1 df2 in
    let cm := cmask mask (length (columns df1)) in
    let rm := rmask mask in
    let self := loc rm cm (frame_where mask df1) in
    let other := loc rm cm (frame_where mask df2) in
    Ok (mkFrame (index_names self)
                (flat_map (fun c => [(c, name1); (c, name2)]) (columns self))
                (map (fun so => (fst (fst so),
                                 interleave (snd (fst so)) (snd (snd so))))
                     (combine (rows self) (rows other))))
  else Raise ValueError.

(** *** [pandas.merge(left, right, on=keys, how="outer", indicator=True)] *)

Definition key_of (cols on : list string) (row : list value) : list value :=
  map (cell cols row) on.

Definition key_match (lcols rcols on : list string) (l r : list value) : bool :=
  list_eqb value_eqb (key_of lcols on l) (key_of rcols on r).

(** The cells of one column. *)
Definition column_cells (cols : list string) (c : string) (data : list (list value))
  : list value :=
  map (fun row => cell cols row c) data.

Definition is_text (v : value) : bool :=
  match v with VStr _ => true | _ => false end.

Definition is_number (v : value) : bool :=
  match v with VNum _ => true | _ => false end.

Definition is_word (v : value) : bool :=
  match v with VStr s => Py.truthy_str s | _ => false end.

(** What [pandas.merge] makes of the dtype of a key column.  A column
    without a text is numeric (int64, or float64 when a value is missing).
    A column with a text is an object column.  [read_excel] reads no cell
    as the empty text, so an object column whose only texts are empty was
    numeric with missing values until [fillna] filled it, and its numbers
    are floats: pandas infers it as mixed, as it infers an object column
    without a number as string.  An object column with a number and a
    text of its own holds the integers as read and is inferred as
    mixed-integer. *)
Inductive kind : Type := Numeric | Textual | MixedInteger.

Definition kind_of (cells : list value) : kind :=
  if negb (existsb is_text cells) then Numeric
  else if andb (existsb is_number cells) (existsb is_word cells) then MixedInteger
  else Textual.

(** The test of the key dtypes: a numeric key column cannot be merged
    with an object column inferred as string or mixed.  An empty column is
    merged with any column. *)
Definition compatible (lk rk : list value) : bool :=
  match lk, rk with
  | [], _ => true
  | _, [] => true
  | _, _ =>
      match kind_of lk, kind_of rk with
      | Numeric, Textual => false
      | Textual, Numeric => false
      | _, _ => true
      end
  end.

(** A column that is no key and occurs on both sides takes a suffix. *)
Definition rename (on other : list string) (suffix c : string) : string :=
  if andb (negb (Py.mem c on)) (Py.mem c other) then c ++ suffix else c.

Definition left_only_row (rextra : nat) (l : list value) : list value :=
  l ++ repeat NaN rextra ++ [VStr "left_only"].

Definition right_only_row (lcols rcols on : list string) (rkeep : list bool)
           (r : list value) : list value :=
  map (fun c => if Py.mem c on then cell rcols r c else NaN) lcols
      ++ select rkeep r ++ [VStr "right_only"].

Definition both_row (rkeep : list bool) (l r : list value) : list value :=
  l ++ select rkeep r ++ [VStr "both"].

(** The rows of the outer join, each with its join key: the rows of the
    left frame with their matches, then the rows of the right frame that
    have no match. *)
Definition joined_rows (lcols rcols on : list string)
           (ldata rdata : list (list value)) : list (list value * list value) :=
  let rkeep := map (fun c => negb (Py.mem c on)) rcols in
  let rextra := length (select rkeep rcols) in
  flat_map (fun l =>
              map (fun row => (key_of lcols on l, row))
                  match filter (key_match lcols rcols on l) rdata with
                  | [] => [left_only_row rextra l]
                  | ms => map (both_row rkeep l) ms
                  end) ldata
  ++ map (fun r => (key_of rcols on r, right_only_row lcols rcols on rkeep r))
         (filter (fun r => negb (existsb (fun l => key_match lcols rcols on l r) ldata))
                 rdata).

(** The order of the join keys: numbers before texts before missing
    values, numbers by size, texts by code point, and key by key from the
    first. *)
Definition value_leb (a b : value) : bool :=
  match a, b with
  | VNum x, VNum y => Z.leb x y
  | VNum _, _ => true
  | VStr _, VNum _ => false
  | VStr s, VStr t => match String.compare s t with Gt => false | _ => true end
  | VStr _, NaN => true
  | NaN, NaN => true
  | NaN, _ => false
  end.

Fixpoint key_leb (k1 k2 : list value) : bool :=
  match k1, k2 with
  | [], _ => true
  | _ :: _, [] => false
  | a :: k1', b :: k2' =>
      if value_eqb a b then key_leb k1' k2' else value_leb a b
  end.

(** Sorting by key; rows of the same key keep their order. *)
Fixpoint insert_keyed (x : list value * list value)
         (l : list (list value * list value)) : list (list value * list value) :=
  match l with
  | [] => [x]
  | y :: l' => if key_leb (fst y) (fst x) then y :: insert_keyed x l' else x :: l
  end.

Definition sort_keyed (l : list (list value * list value))
  : list (list value * list value) :=
  fold_left (fun acc x => insert_keyed x acc) l [].

(** The rows of the merged frame: an outer merge returns them ordered by
    join key. *)
Definition merge_rows (lcols rcols on : list string)
           (ldata rdata : list (list value)) : list (list value) :=
  map snd (sort_keyed (joined_rows lcols rcols on ldata rdata)).

Definition merge (left right : DataFrame) (on : list Yaml.scalar)
  : result DataFrame :=
  match text_labels on with
  | None => Raise KeyError
  | Some [] => Raise MergeError
  | Some ks =>
      if negb (forallb (fun k => andb (Py.mem k (columns left))
                                      (Py.mem k (columns right))) ks)
      then Raise KeyError
      else if negb (forallb (fun k => compatible
                                        (column_cells (columns left) k (data left))
                                        (column_cells (columns right) k (data right)))
                            ks)
      then Raise ValueError
      else if orb (Py.mem "_merge" (columns left)) (Py.mem "_merge" (columns right))
      then Raise ValueError
      else
        let lcols := map (rename ks (columns right) "_x") (columns left) in
        let rkeep := map (fun c => negb (Py.mem c ks)) (columns right) in
        let rcols := map (rename ks (columns left) "_y") (select rkeep (columns right)) in
        if negb (andb (distinctb String.eqb lcols)
                      (distinctb String.eqb (ks ++ rcols)))
        then Raise MergeError
        else
          let mrows := merge_rows (columns left) (columns right) ks
                                  (data left) (data right) in
          Ok (mkFrame None (lcols ++ rcols ++ ["_merge"])
                      (combine (range_index (length mrows)) mrows))
  end.

(** [df[df[c] != v]] *)
Definition rows_where_ne (c : string) (v : value) (df : DataFrame) : DataFrame :=
  mkFrame (index_names df) (columns df)
          (filter (fun r => negb (value_eqb (cell (columns df) (snd r) c) v)) (rows df)).

(** [row[c] = v] inside [df[c] = ...]: an existing column keeps its
    place, a new one goes last. *)
Fixpoint set_cell (cols : list string) (row : list value) (c : string) (v : value)
  : list value :=
  match cols, row with
  | k :: cols', x :: row' =>
      if String.eqb k c then v :: row' else x :: set_cell cols' row' c v
  | _, _ => row ++ [v]
  end.

(** [df[c] = df[src].map(f)] *)
Definition assign_mapped (c src : string) (f : value -> value) (df : DataFrame)
  : DataFrame :=
  mkFrame (index_names df)
          (if Py.mem c (columns df) then columns df else columns df ++ [c])
          (map (fun r => (fst r,
                          set_cell (columns df) (snd r) c
                                   (f (cell (columns df) (snd r) src))))
               (rows df)).

(** [df.drop(columns=[c])] *)
Definition drop_column (c : string) (df : DataFrame) : DataFrame :=
  loc_columns (map (fun k => negb (String.eqb k c)) (columns df)) df.

End Pandas.

(** ** [load_index_map] and the key lookup of [compare_excels] *)

(** The mapping returned by [load_index_map]; [compare_excels] reads both
    entries with [index_map.get(name, {})], so either may be absent. *)
Record index_map : Type := mk_index_map {
  _raw : option (Yaml.dict Yaml.scalar);
  _lower : option (Yaml.dict string)
}.

(** [{str(k).lower(): v for k, v in data.items()}] *)
Definition lowered {T : Py.Text} (data : Yaml.dict Yaml.scalar) : Yaml.dict string :=
  fold_left (fun acc kv => Yaml.set acc (Py.lower (Yaml.str (fst kv))) (snd kv))
            data [].

(** [load_index_map]: [doc] is what [yaml.safe_load] returned, [None] for
    an empty document ([yaml.safe_load(f) or {}]). *)
Definition load_index_map {T : Py.Text} (doc : option (Yaml.dict Yaml.scalar))
  : index_map :=
  let data := match doc with Some d => d | None => [] end in
  {| _raw := Some data; _lower := Some (lowered data) |}.

Definition raw_map (im : index_map) : Yaml.dict Yaml.scalar :=
  match _raw im with Some d => d | None => [] end.

Definition lower_map (im : index_map) : Yaml.dict string :=
  match _lower im with Some d => d | None => [] end.

(** Lines 82-84: the exact name first, then the lower-cased name. *)
Definition index_col_of {T : Py.Text} (im : index_map) (sheet : string) : Yaml.value :=
  let index_col := Yaml.get_raw (raw_map im) sheet in
  if Yaml.is_none index_col
  then Yaml.get (lower_map im) (Py.lower sheet)
  else index_col.

(** ** [_is_missing] *)

(** Lines 24-25: [None], or a text that is blank once stripped. *)
Definition _is_missing {T : Py.Text} (col : Yaml.scalar) : bool :=
  match col with
  | Yaml.YNull => true
  | Yaml.YStr s => String.eqb (Py.strip s) ""
  | _ => false
  end.

(** ** [filter_sheets] and the three sheet lists *)

(** [doc_prefix] is [None] when no prefix is given. *)
Definition excluded (doc_prefix : option string) (s : string) : bool :=
  match doc_prefix with
  | None => false
  | Some p => andb (Py.truthy_str p) (Py.startswith s p)
  end.

Definition filter_sheets (doc_prefix : option string)
           (sheet_names : list string) : list string :=
  filter (fun s => negb (excluded doc_prefix s)) sheet_names.

Definition common_sheets (doc_prefix : option string) (n1 n2 : list string) :=
  Py.sorted (Py.set_and (filter_sheets doc_prefix n1) (filter_sheets doc_prefix n2)).

Definition only1_sheets (doc_prefix : option string) (n1 n2 : list string) :=
  Py.sorted (Py.set_sub (filter_sheets doc_prefix n1) (filter_sheets doc_prefix n2)).

Definition only2_sheets (doc_prefix : option string) (n1 n2 : list string) :=
  Py.sorted (Py.set_sub (filter_sheets doc_prefix n2) (filter_sheets doc_prefix n1)).


(** ** [_drop_unnamed] *)

Import Pandas.

Definition _drop_unnamed (df : DataFrame) : DataFrame :=
  if empty df then df
  else loc_columns (map negb (str_contains_unnamed df)) df.

(** Lines 78 and 107-108 together: what the source calls normalising. *)
Definition normalize (df : DataFrame) : DataFrame := fillna (_drop_unnamed df).

(** ** The workbooks *)

(** An opened workbook: its sheet names and [pd.read_excel], which gives
    [None] when reading the sheet raises. *)
Record ExcelFile : Type := mkExcelFile {
  sheet_names : list string;
  read_excel : string -> Z -> option Table
}.

(** A sheet of the output workbook as [to_excel(..., index=False)] writes
    it: the header and the rows, without the index. *)
Record out_sheet : Type := mk_out_sheet {
  out_name : string;
  out_columns : list string;
  out_rows : list (list value)
}.

(** The characters xlsxwriter refuses in a sheet name: the square
    brackets, the colon, the star, the question mark, the slash and the
    backslash. *)
Definition invalid_char (c : ascii) : bool :=
  existsb (Nat.eqb (nat_of_ascii c)) [42; 47; 58; 63; 91; 92; 93].

Fixpoint any_char (p : ascii -> bool) (s : string) : bool :=
  match s with
  | EmptyString => false
  | String c s' => orb (p c) (any_char p s')
  end.

Definition apostrophe (c : ascii) : bool := Nat.eqb (nat_of_ascii c) 39.

Definition first_is (p : ascii -> bool) (s : string) : bool :=
  match s with
  | EmptyString => false
  | String c _ => p c
  end.

Fixpoint last_is (p : ascii -> bool) (s : string) : bool :=
  match s with
  | EmptyString => false
  | String c EmptyString => p c
  | String _ s' => last_is p s'
  end.

(** The name test of [Workbook.add_worksheet]: at most 31 characters,
    none of the refused ones, no apostrophe at either end. *)
Definition valid_sheet_name {T : Py.Text} (name : string) : bool :=
  andb (Nat.leb (Py.len name) 31)
       (andb (negb (any_char invalid_char name))
             (negb (orb (first_is apostrophe name) (last_is apostrophe name)))).

(** Whether the writer holds a sheet whose name differs from [name] by
    case only. *)
Definition name_taken {T : Py.Text} (book : list out_sheet) (name : string) : bool :=
  existsb (fun s => andb (negb (String.eqb (out_name s) name))
                         (String.eqb (Py.lower (out_name s)) (Py.lower name)))
          book.

(** [df.to_excel(writer, sheet_name=name, index=False)] with the
    xlsxwriter engine; [book] is what the writer holds.  pandas refuses a
    frame beyond the limits of a sheet (ValueError); the writer then
    fetches the sheet of that name or adds one, and xlsxwriter refuses to
    add a name that fails the name test (InvalidWorksheetName) or is taken
    but for the case (DuplicateWorksheetName).  None of these is raised
    inside a handler of the source. *)
Definition to_excel {T : Py.Text} (book : list out_sheet) (sheet_name : string)
           (df : DataFrame) : result out_sheet :=
  if orb (Z.ltb 1048576 (Z.of_nat (length (rows df))))
         (Z.ltb 16384 (Z.of_nat (length (columns df))))
  then Raise ValueError
  else if existsb (fun s => String.eqb (out_name s) sheet_name) book
  then Ok (mk_out_sheet sheet_name (columns df) (data df))
  else if negb (valid_sheet_name sheet_name) then Raise InvalidWorksheetName
  else if name_taken book sheet_name then Raise DuplicateWorksheetName
  else Ok (mk_out_sheet sheet_name (columns df) (data df)).

(** How the loop body ends for one sheet, with the line it prints. *)
Inductive outcome : Type :=
| ReadError                                        (* "! read error" *)
| SkipMissingIndexCols (missing : list Yaml.scalar) (* "! skip (missing index cols)" *)
| NoDifferencesSameShape                           (* "= no differences (same shape)" *)
| WroteSame (s : out_sheet)                        (* "-> wrote sheet" *)
| MergeFailed                                      (* "! merge error" *)
| NoDifferencesShapeMismatch                       (* "= no differences (shape mismatch)" *)
| WroteDiff (s : out_sheet).                       (* "-> wrote sheet" *)

Definition written_by (o : outcome) : list out_sheet :=
  match o with
  | WroteSame s | WroteDiff s => [s]
  | _ => []
  end.

(** ** The body of the loop in [compare_excels] *)

(** Lines 88-97: the configured labels that are not a column of both
    frames. *)
Definition missing_cols (index_col : Yaml.value) (df1 df2 : DataFrame)
  : list Yaml.scalar :=
  filter (fun col =>
            let c := Yaml.str col in
            orb (negb (Py.mem c (columns df1))) (negb (Py.mem c (columns df2))))
         (labels_of index_col).

(** Lines 87-104: [inl] is the skip with the missing labels, [inr] the
    two frames the comparison goes on with. *)
Definition install_index (index_col : Yaml.value) (df1 df2 : DataFrame)
  : result (list Yaml.scalar + DataFrame * DataFrame) :=
  if Yaml.truthy index_col then
    match missing_cols index_col df1 df2 with
    | [] =>
        bind (set_index index_col df1) (fun df1' =>
        bind (set_index index_col df2) (fun df2' =>
        Ok (inr (df1', df2'))))
    | missing => Ok (inl missing)
    end
  else Ok (inr (df1, df2)).

(** Line 111. *)
Definition same_shape (df1 df2 : DataFrame) : bool :=
  andb (columns_equals df1 df2) (index_equals df1 df2).

(** Line 118: the two levels of a column label joined by an underscore,
    empty parts left out. *)
Definition flatten_label (c : string * string) : string :=
  Py.join "_" (filter Py.truthy_str [fst c; snd c]).

(** Lines 112-121.  [book] is what the writer holds when the body
    starts. *)
Definition cell_diff {T : Py.Text} (book : list out_sheet)
           (name1 name2 sheet : string) (df1 df2 : DataFrame) : result outcome :=
  bind (compare name1 name2 df1 df2) (fun diff =>
  if empty diff then Ok NoDifferencesSameShape
  else
    bind (reset_index_multi diff) (fun diff =>
    let diff := mkFrame (index_names diff) (map flatten_label (columns diff))
                        (rows diff) in
    bind (to_excel book (sheet ++ "_same") diff) (fun s =>
    Ok (WroteSame s)))).

(** Line 127. *)
Definition on_keys (index_col : Yaml.value) (df1r df2r : DataFrame)
  : list Yaml.scalar :=
  if Yaml.truthy index_col then labels_of index_col
  else map Yaml.YStr (Py.sorted (Py.set_and (columns df1r) (columns df2r))).

(** Lines 138-141: the mapping applied to the indicator column. *)
Definition different (name1 name2 : string) (v : value) : value :=
  if value_eqb v (VStr "left_only") then VStr (name1 ++ " only")
  else if value_eqb v (VStr "right_only") then VStr (name2 ++ " only")
  else NaN.

(** Lines 134-145, once the merge has returned. *)
Definition report_unmatched {T : Py.Text} (book : list out_sheet)
           (name1 name2 sheet : string) (merged : DataFrame) : result outcome :=
  let merged := rows_where_ne "_merge" (VStr "both") merged in
  if empty merged then Ok NoDifferencesShapeMismatch
  else
    let merged := assign_mapped "Different" "_merge" (different name1 name2) merged in
    let merged := drop_column "_merge" merged in
    bind (to_excel book (sheet ++ "_diff") merged) (fun s =>
    Ok (WroteDiff s)).

(** Lines 124-145. *)
Definition row_alignment {T : Py.Text} (book : list out_sheet)
           (name1 name2 sheet : string) (index_col : Yaml.value)
           (df1 df2 : DataFrame) : result outcome :=
  bind (reset_index df1) (fun df1r =>
  bind (reset_index df2) (fun df2r =>
  match merge df1r df2r (on_keys index_col df1r df2r) with
  | Raise _ => Ok MergeFailed
  | Ok merged => report_unmatched book name1 name2 sheet merged
  end)).

(** Lines 86-145. *)
Definition compare_frames {T : Py.Text} (book : list out_sheet)
           (name1 name2 sheet : string) (index_col : Yaml.value)
           (df1 df2 : DataFrame) : result outcome :=
  bind (install_index index_col df1 df2) (fun r =>
  match r with
  | inl missing => Ok (SkipMissingIndexCols missing)
  | inr (df1, df2) =>
      let df1 := fillna df1 in
      let df2 := fillna df2 in
      if same_shape df1 df2
      then cell_diff book name1 name2 sheet df1 df2
      else row_alignment book name1 name2 sheet index_col df1 df2
  end).

(** Lines 70-145.  [Raise] is an exception that no handler of the loop
    body catches. *)
Definition process_sheet {T : Py.Text} (book : list out_sheet)
           (xls1 xls2 : ExcelFile) (name1 name2 : string)
           (skiprows : Z) (im : index_map) (sheet : string) : result outcome :=
  match read_excel xls1 sheet skiprows, read_excel xls2 sheet skiprows with
  | Some t1, Some t2 =>
      let df1 := _drop_unnamed (frame_of_table t1) in
      let df2 := _drop_unnamed (frame_of_table t2) in
      compare_frames book name1 name2 sheet (index_col_of im sheet) df1 df2
  | _, _ => Ok ReadError
  end.

(** ** [compare_excels] *)

(** What a run leaves behind: the two lists of unpaired sheets it prints,
    the outcome printed for each compared sheet, and the sheets written
    to the output workbook, all in order. *)
Record run : Type := mk_run {
  only1 : list string;
  only2 : list string;
  console : list (string * outcome);
  written : list out_sheet
}.

Definition record_outcome (st : run) (sheet : string) (o : outcome) : run :=
  mk_run (only1 st) (only2 st) (console st ++ [(sheet, o)])
         (written st ++ written_by o).

(** The [for sheet in common] loop: the body runs on what the writer
    holds so far, and an uncaught exception ends the run. *)
Fixpoint sheet_loop {T : Py.Text} (xls1 xls2 : ExcelFile) (name1 name2 : string)
         (skiprows : Z) (im : index_map) (sheets : list string) (st : run)
  : result run :=
  match sheets with
  | [] => Ok st
  | sheet :: rest =>
      match process_sheet (written st) xls1 xls2 name1 name2 skiprows im sheet with
      | Raise e => Raise e
      | Ok o => sheet_loop xls1 xls2 name1 name2 skiprows im rest
                           (record_outcome st sheet o)
      end
  end.

Definition compare_excels {T : Py.Text} (xls1 xls2 : ExcelFile) (name1 name2 : string)
           (skiprows : Z) (doc_prefix : option string) (im : index_map)
  : result run :=
  let common := common_sheets doc_prefix (sheet_names xls1) (sheet_names xls2) in
  let o1 := only1_sheets doc_prefix (sheet_names xls1) (sheet_names xls2) in
  let o2 := only2_sheets doc_prefix (sheet_names xls1) (sheet_names xls2) in
  sheet_loop xls1 xls2 name1 name2 skiprows im common (mk_run o1 o2 [] []).

(** ** Notions used in the statements, and sample inputs *)

(** Code-point order on texts. *)
Definition str_lt (a b : string) : Prop := String.compare a b = Lt.

(** Same shape as the specification words it: the two sets of column names
    are the same and the two sets of row identities are the same, in any
    order. *)
Definition same_set {A : Type} (l1 l2 : list A) : Prop :=
  incl l1 l2 /\ incl l2 l1.

Definition spec_same_shape (df1 df2 : DataFrame) : Prop :=
  same_set (columns df1) (columns df2) /\ same_set (index df1) (index df2).

(** Two tables with the same columns in another order, and two keyed
    tables with the same row identities in another order. *)
Definition table_ab : DataFrame :=
  frame_of_table (mkTable ["a"; "b"] [[VNum 1; VNum 2]]).
Definition table_ba : DataFrame :=
  frame_of_table (mkTable ["b"; "a"] [[VNum 2; VNum 1]]).
Definition keyed_12 : DataFrame :=
  mkFrame (Some ["id"]) ["qty"] [([VNum 1], [VNum 5]); ([VNum 2], [VNum 3])].
Definition keyed_21 : DataFrame :=
  mkFrame (Some ["id"]) ["qty"] [([VNum 2], [VNum 3]); ([VNum 1], [VNum 5])].




(** Every row of a frame has one cell per column. *)
Definition well_formed {L : Type} (df : Frame L) : Prop :=
  Forall (fun r => length (snd r) = length (columns df)) (rows df).






(** A workbook given by its sheets. *)
Definition workbook (sheets : list (string * Table)) : ExcelFile :=
  mkExcelFile (map fst sheets)
              (fun sheet _ =>
                 match find (fun p => String.eqb (fst p) sheet) sheets with
                 | Some p => Some (snd p)
                 | None => None
                 end).

(** The scenario of the specification: sheet [Items], key [id]. *)
Definition items_v1 : Table :=
  mkTable ["id"; "qty"] [[VNum 1; VNum 5]; [VNum 2; VNum 3]].
Definition items_v2 : Table :=
  mkTable ["id"; "qty"] [[VNum 1; VNum 5]; [VNum 2; VNum 4]].
Definition items_key {T : Py.Text} : index_map :=
  load_index_map (Some [(Yaml.YStr "Items", Yaml.YScalar (Yaml.YStr "id"))]).


(** The mask of one pair of rows: where the two cells differ. *)
Definition row_mask (p : (list value * list value) * (list value * list value))
  : list bool :=
  map (fun vv => negb (value_eqb (fst vv) (snd vv)))
      (combine (snd (fst p)) (snd (snd p))).

(** The scenario after the key has become the index. *)
Definition keyed_12_changed : DataFrame :=
  mkFrame (Some ["id"]) ["qty"] [([VNum 1], [VNum 5]); ([VNum 2], [VNum 4])].


(** The rows of one frame whose join key is the key of no row of the
    other frame. *)
Definition unmatched_left (left right : DataFrame) (on : list string)
  : list (list value) :=
  filter (fun l => negb (existsb (key_match (columns left) (columns right) on l)
                                 (data right)))
         (data left).

Definition unmatched_right (left right : DataFrame) (on : list string)
  : list (list value) :=
  filter (fun r => negb (existsb (fun l => key_match (columns left) (columns right) on l r)
                                 (data left)))
         (data right).

(** The columns of the right frame that are no join key. *)
Definition non_key (right : DataFrame) (on : list string) : list bool :=
  map (fun c => negb (Py.mem c on)) (columns right).

(** The columns of the merged frame before the indicator. *)
Definition merged_labels (left right : DataFrame) (on : list string) : list string :=
  map (rename on (columns right) "_x") (columns left)
      ++ map (rename on (columns left) "_y") (select (non_key right on) (columns right)).

(** A row of the left frame as it is reported: its cells, no value for
    the further columns of the right frame, and the label. *)
Definition left_reported (name : string) (right : DataFrame) (on : list string)
           (l : list value) : list value :=
  l ++ repeat NaN (length (select (non_key right on) (columns right)))
    ++ [VStr (name ++ " only")].

(** A row of the right frame as it is reported: its key cells under the
    key columns, no value for the other columns of the left frame, its
    other cells, and the label. *)
Definition right_reported (name : string) (left right : DataFrame) (on : list string)
           (r : list value) : list value :=
  map (fun c => if Py.mem c on then cell (columns right) r c else NaN) (columns left)
      ++ select (non_key right on) r
      ++ [VStr (name ++ " only")].

(** What the row alignment does with the rows it is left with: nothing
    when there is none, else they go to the writer under the columns
    [cols]. *)
Definition reported {T : Py.Text} (book : list out_sheet) (sheet : string)
           (cols : list string) (out : list (list value)) : result outcome :=
  match out with
  | [] => Ok NoDifferencesShapeMismatch
  | _ =>
      bind (to_excel book (sheet ++ "_diff")
                     (mkFrame None cols (combine (range_index (length out)) out)))
           (fun s => Ok (WroteDiff s))
  end.

(** A table and the same table with one more row, once in front and once
    at the end. *)
Definition two_rows : Table := mkTable ["a"] [[VNum 1]; [VNum 2]].
Definition row_in_front : Table := mkTable ["a"] [[VNum 0]; [VNum 1]; [VNum 2]].
Definition row_at_end : Table := mkTable ["a"] [[VNum 1]; [VNum 2]; [VNum 0]].

(** A keyed table and the same table with one more row under a key that
    is already there. *)
Definition keyed_once : Table := mkTable ["id"; "qty"] [[VNum 1; VNum 5]].
Definition keyed_twice : Table :=
  mkTable ["id"; "qty"] [[VNum 1; VNum 5]; [VNum 1; VNum 5]].

(** The column under which [reset_index] puts the default index back. *)
Definition position_label (hdr : list string) : string :=
  if Py.mem "index" hdr then "level_0" else "index".

(** The rows of a table with their position in front, as [reset_index]
    makes them from the default index. *)
Definition numbered (body : list (list value)) : list (list value) :=
  map (fun p => VNum (Z.of_nat (fst p)) :: snd p)
      (combine (seq 0 (length body)) body).

(** ** Blank texts and the output name *)

(** A text made of ASCII whitespace only. *)
Fixpoint all_space (s : string) : bool :=
  match s with
  | EmptyString => true
  | String c s' => andb (Py.isspace c) (all_space s')
  end.

(** [date.today()], as far as line 55 reads it. *)
Record date : Type := mk_date {
  year : nat;
  month : nat;
  day : nat
}.

(** A number below 100 in two digits, as [%y], [%m] and [%d] print it. *)
Definition two_digits (n : nat) : string :=
  if Nat.ltb n 10 then "0" ++ Py.str_int (Z.of_nat n) else Py.str_int (Z.of_nat n).

(** [f"{today:%y%m%d}"] *)
Definition yymmdd (today : date) : string :=
  two_digits (year today mod 100) ++ two_digits (month today) ++ two_digits (day today).

(** Line 55. *)
Definition outname (today : date) (name1 name2 : string) : string :=
  yymmdd today ++ "_" ++ name1 ++ "_" ++ name2 ++ "_db_differences.xlsx".

Definition is_digit (c : ascii) : bool :=
  let n := nat_of_ascii c in andb (Nat.leb 48 n) (Nat.leb n 57).

Fixpoint all_digits (s : string) : bool :=
  match s with
  | EmptyString => true
  | String c s' => andb (is_digit c) (all_digits s')
  end.

(** Further sample inputs. *)
Definition padded : DataFrame :=
  frame_of_table (mkTable ["id"; "Unnamed: 1"; "qty"] [[VNum 1; NaN; VNum 5]]).
Definition keyed_21_changed : DataFrame :=
  mkFrame (Some ["id"]) ["qty"] [([VNum 2], [VNum 3]); ([VNum 1], [VNum 9])].

(** A table as [read_excel] returns it: every row has one cell per header
    cell. *)
Definition rectangular (t : Table) : Prop :=
  Forall (fun r => length r = length (header t)) (body t).

(** Every index entry of a frame has one cell per index level. *)
Definition index_well_formed (df : DataFrame) : Prop :=
  Forall (fun r => length (fst r)
                   = length (default_index_names (index_names df) (columns df)))
         (rows df).

(** Whether some row of two frames differs in its cell number [j]. *)
Definition differs_in (df1 df2 : DataFrame) (j : nat) : bool :=
  existsb (fun p => negb (value_eqb (nth j (snd (fst p)) NaN)
                                    (nth j (snd (snd p)) NaN)))
          (combine (rows df1) (rows df2)).

(** The columns in which some row of two frames differs, in the order of
    the first frame. *)
Definition changed_columns (df1 df2 : DataFrame) : list string :=
  select (map (differs_in df1 df2) (seq 0 (length (columns df1)))) (columns df1).

(** The sheet name fits the writer that holds [book]: it passes the name
    test and no sheet of [book] has that name but for the case. *)
Definition name_free {T : Py.Text} (book : list out_sheet) (name : string) : Prop :=
  valid_sheet_name name = true /\ name_taken book name = false.

(** The frame is within the limits of a sheet. *)
Definition fits_sheet (nrows ncols : nat) : Prop :=
  (Z.of_nat nrows <= 1048576)%Z /\ (Z.of_nat ncols <= 16384)%Z.

(** The table [two_rows] with one more row whose cell is blank. *)
Definition blank_at_end : Table := mkTable ["a"] [[VNum 1]; [VNum 2]; [NaN]].

(** A sheet name of 27 characters. *)
Definition long_name : string := "Inventory of the warehouses".

(** * Properties *)

(** ** Lists, masks and equality tests *)

Section ListFacts.

Context {A B : Type}.

Lemma select_map_filter (p : A -> bool) (l : list A) :
  select (map p l) l = filter p l.
Proof.
  unfold select. induction l as [|x l IH]; simpl; [reflexivity|].
  destruct (p x); simpl; rewrite IH; reflexivity.
Qed.

Lemma select_map (f : A -> B) (mask : list bool) (l : list A) :
  select mask (map f l) = map f (select mask l).
Proof.
  unfold select. revert l.
  induction mask as [|b mask IH]; intros [|x l]; simpl; try reflexivity.
  destruct b; simpl; rewrite IH; reflexivity.
Qed.

Lemma select_nil (mask : list bool) : select mask (@nil A) = [].
Proof. unfold select. destruct mask; reflexivity. Qed.

Lemma select_cons (b : bool) (mask : list bool) (x : A) (l : list A) :
  select (b :: mask) (x :: l) = if b then x :: select mask l else select mask l.
Proof. unfold select. simpl. destruct b; reflexivity. Qed.

Lemma select_length_le (mask : list bool) (l : list A) :
  length (select mask l) <= length (filter (fun b => b) mask).
Proof.
  revert l. induction mask as [|b mask IH]; intros [|x l];
    try (rewrite select_nil; simpl; lia); [reflexivity|].
  rewrite select_cons. specialize (IH l). destruct b; simpl; lia.
Qed.

Lemma select_all (mask : list bool) (l : list A) :
  Forall (fun b => b = true) mask -> length l <= length mask ->
  select mask l = l.
Proof.
  revert l. induction mask as [|b mask IH]; intros [|x l] Hall Hlen;
    try reflexivity; simpl in Hlen; [lia|].
  inversion Hall; subst. rewrite select_cons, IH; auto with arith.
Qed.

Lemma select_mapped (h : A -> bool) (g : A -> B) (l : list A) :
  select (map h l) (map g l) = map g (filter h l).
Proof. rewrite select_map, select_map_filter. reflexivity. Qed.

Lemma combine_mapped {C : Type} (f : A -> B) (g : A -> C) (l : list A) :
  combine (map f l) (map g l) = map (fun x => (f x, g x)) l.
Proof. induction l; simpl; congruence. Qed.

Lemma combine_fst (l1 : list A) (l2 : list B) :
  length l1 = length l2 -> map fst (combine l1 l2) = l1.
Proof.
  revert l2. induction l1; intros [|y l2] H; simpl in *; try congruence.
  f_equal. auto.
Qed.

Lemma combine_snd (l1 : list A) (l2 : list B) :
  length l1 = length l2 -> map snd (combine l1 l2) = l2.
Proof.
  revert l2. induction l1; intros [|y l2] H; simpl in *; try congruence.
  f_equal. auto.
Qed.

End ListFacts.

Lemma value_eqb_eq (a b : value) : value_eqb a b = true <-> a = b.
Proof.
  destruct a, b; simpl; split; intros H; try discriminate; try reflexivity.
  - apply String.eqb_eq in H. congruence.
  - inversion H. apply String.eqb_refl.
  - apply Z.eqb_eq in H. congruence.
  - inversion H. apply Z.eqb_refl.
Qed.

Lemma value_eqb_refl (a : value) : value_eqb a a = true.
Proof. apply value_eqb_eq. reflexivity. Qed.

Lemma list_eqb_eq {A : Type} (eqb : A -> A -> bool) :
  (forall a b, eqb a b = true <-> a = b) ->
  forall l1 l2, list_eqb eqb l1 l2 = true <-> l1 = l2.
Proof.
  intros Heq. induction l1 as [|x l1 IH]; intros [|y l2]; simpl;
    split; intros H; try discriminate; try reflexivity.
  - apply andb_true_iff in H. destruct H as [Hx Hl].
    apply Heq in Hx. apply IH in Hl. congruence.
  - inversion H; subst. apply andb_true_iff. split; [apply Heq | apply IH]; reflexivity.
Qed.

Lemma list_eqb_length {A : Type} (eqb : A -> A -> bool) (l1 l2 : list A) :
  list_eqb eqb l1 l2 = true -> length l1 = length l2.
Proof.
  revert l2. induction l1 as [|x l1 IH]; intros [|y l2] H; simpl in *;
    try discriminate; [reflexivity|].
  apply andb_true_iff in H. f_equal. apply IH. tauto.
Qed.

Lemma mem_In (x : string) (l : list string) : Py.mem x l = true <-> In x l.
Proof.
  unfold Py.mem. rewrite existsb_exists. split.
  - intros [y [Hy He]]. apply String.eqb_eq in He. congruence.
  - intros H. exists x. split; [assumption | apply String.eqb_refl].
Qed.

Lemma mem_false (x : string) (l : list string) : Py.mem x l = false <-> ~ In x l.
Proof.
  rewrite <- mem_In. destruct (Py.mem x l); split; intros H; congruence.
Qed.

(** ** Normalising twice *)

Lemma fill_fill (v : value) : fill (fill v) = fill v.
Proof. destruct v; reflexivity. Qed.

Lemma fillna_fillna {L : Type} (df : Frame L) : fillna (fillna df) = fillna df.
Proof.
  unfold fillna. simpl. f_equal. rewrite map_map. apply map_ext.
  intros [k r]. simpl. f_equal. rewrite map_map. apply map_ext, fill_fill.
Qed.

Lemma empty_fillna {L : Type} (df : Frame L) : empty (fillna df) = empty df.
Proof.
  unfold empty, fillna. simpl.
  destruct (columns df); [reflexivity|]. destruct (rows df); reflexivity.
Qed.

Lemma loc_columns_fillna {L : Type} (mask : list bool) (df : Frame L) :
  loc_columns mask (fillna df) = fillna (loc_columns mask df).
Proof.
  unfold loc_columns, fillna. simpl. f_equal. rewrite !map_map.
  apply map_ext. intros [k r]. simpl. f_equal. apply select_map.
Qed.

Lemma drop_unnamed_fillna (df : DataFrame) :
  _drop_unnamed (fillna df) = fillna (_drop_unnamed df).
Proof.
  unfold _drop_unnamed. rewrite empty_fillna.
  destruct (empty df); [reflexivity|]. apply loc_columns_fillna.
Qed.

Lemma drop_unnamed_idem (df : DataFrame) :
  _drop_unnamed (_drop_unnamed df) = _drop_unnamed df.
Proof.
  unfold _drop_unnamed. destruct (empty df) eqn:He.
  - rewrite He. reflexivity.
  - destruct (empty (loc_columns _ df)); [reflexivity|].
    set (p := fun c : string => negb (Py.startswith c "Unnamed")).
    assert (Hm : map negb (str_contains_unnamed df) = map p (columns df)).
    { unfold str_contains_unnamed. rewrite map_map. reflexivity. }
    rewrite Hm.
    assert (Hc : columns (loc_columns (map p (columns df)) df) = filter p (columns df)).
    { unfold loc_columns. simpl. apply select_map_filter. }
    assert (Hm' : map negb (str_contains_unnamed (loc_columns (map p (columns df)) df))
                  = map p (filter p (columns df))).
    { unfold str_contains_unnamed. rewrite Hc, map_map. reflexivity. }
    rewrite Hm'.
    assert (Hall : Forall (fun b => b = true) (map p (filter p (columns df)))).
    { apply Forall_forall. intros b Hb. apply in_map_iff in Hb.
      destruct Hb as [c [Hb Hin]]. apply filter_In in Hin. destruct Hin. congruence. }
    assert (Hlen : length (filter (fun b : bool => b) (map p (columns df)))
                   = length (map p (filter p (columns df)))).
    { clear. induction (columns df) as [|c l IH]; simpl; [reflexivity|].
      destruct (p c); simpl; rewrite IH; reflexivity. }
    unfold loc_columns. simpl. f_equal.
    + rewrite select_map_filter. apply select_all; [assumption|].
      rewrite length_map. reflexivity.
    + rewrite map_map. apply map_ext. intros [k r]. simpl. f_equal.
      apply select_all; [assumption|]. rewrite <- Hlen. apply select_length_le.
Qed.

(** C9.  Normalising is idempotent: stripping the placeholder columns and
    replacing the missing values a second time leaves the table as the
    first pass made it. *)
Theorem normalize_idempotent :
  forall df : DataFrame, normalize (normalize df) = normalize df.
Proof.
  intros df. unfold normalize.
  rewrite drop_unnamed_fillna, fillna_fillna, drop_unnamed_idem. reflexivity.
Qed.

(** ** The sheet lists *)

Lemma str_lt_trans (a b c : string) : str_lt a b -> str_lt b c -> str_lt a c.
Proof.
  unfold str_lt. intros Hab Hbc.
  apply String_as_OT.cmp_lt in Hab. apply String_as_OT.cmp_lt in Hbc.
  apply String_as_OT.cmp_lt. eapply String_as_OT.lt_trans; eassumption.
Qed.

Lemma compare_Gt_lt (a b : string) : String.compare a b = Gt -> str_lt b a.
Proof.
  unfold str_lt. intros H. rewrite String.compare_antisym, H. reflexivity.
Qed.

Lemma In_insert (x y : string) (l : list string) :
  In x (Py.insert y l) <-> x = y \/ In x l.
Proof.
  induction l as [|z l IH]; simpl.
  - intuition.
  - destruct (String.compare y z) eqn:Hc; simpl.
    + apply String.compare_eq_iff in Hc. subst. intuition.
    + intuition.
    + rewrite IH. intuition.
Qed.

Lemma insert_sorted (x : string) (l : list string) :
  StronglySorted str_lt l -> StronglySorted str_lt (Py.insert x l).
Proof.
  induction 1 as [|y l Hs IH Hall]; simpl.
  - repeat constructor.
  - destruct (String.compare x y) eqn:Hc.
    + constructor; assumption.
    + constructor; [constructor; assumption|].
      constructor; [exact Hc|].
      eapply Forall_impl; [|exact Hall]. intros z Hz.
      eapply str_lt_trans; [exact Hc | exact Hz].
    + constructor; [exact IH|].
      apply Forall_forall. intros z Hz. apply In_insert in Hz.
      destruct Hz as [->|Hz]; [apply compare_Gt_lt; exact Hc|].
      rewrite Forall_forall in Hall. auto.
Qed.

Lemma In_sorted (x : string) (s : list string) : In x (Py.sorted s) <-> In x s.
Proof.
  unfold Py.sorted. induction s as [|y s IH]; simpl; [tauto|].
  rewrite In_insert, IH. intuition.
Qed.

Lemma sorted_sorted (s : list string) : StronglySorted str_lt (Py.sorted s).
Proof.
  unfold Py.sorted. induction s; simpl; [constructor | apply insert_sorted; assumption].
Qed.

Lemma In_filter_sheets (p : option string) (l : list string) (s : string) :
  In s (filter_sheets p l) <-> In s l /\ excluded p s = false.
Proof.
  unfold filter_sheets. rewrite filter_In, negb_true_iff. tauto.
Qed.

Lemma excluded_spec (doc_prefix : option string) (s : string) :
  excluded doc_prefix s = true <->
  exists p, doc_prefix = Some p /\ p <> "" /\ Py.startswith s p = true.
Proof.
  unfold excluded. destruct doc_prefix as [p|].
  - rewrite andb_true_iff. split.
    + intros [Ht Hs]. exists p. repeat split; [|assumption].
      intros ->. discriminate.
    + intros [q [Hq [Hne Hs]]]. inversion Hq; subst. split; [|assumption].
      destruct q; [congruence | reflexivity].
  - split; [discriminate|]. intros [q [Hq _]]. discriminate.
Qed.

(** ** The writer *)

(** A sheet that was written has the name it was written under, the
    columns of the frame and its rows. *)
Lemma to_excel_sheet {T : Py.Text} (book : list out_sheet) (name : string)
      (df : DataFrame) (s : out_sheet) :
  to_excel book name df = Ok s ->
  s = mk_out_sheet name (columns df) (data df).
Proof.
  unfold to_excel. destruct (orb _ _); [discriminate|].
  destruct (existsb _ book); [intros H; inversion H; reflexivity|].
  destruct (negb _); [discriminate|].
  destruct (name_taken book name); [discriminate|].
  intros H. inversion H. reflexivity.
Qed.

(** The writer looks at the columns and the rows of a frame only. *)
Lemma to_excel_data {T : Py.Text} (book : list out_sheet) (name : string)
      (df df' : DataFrame) :
  columns df = columns df' -> data df = data df' ->
  to_excel book name df = to_excel book name df'.
Proof.
  intros Hc Hd. unfold to_excel. rewrite Hc, Hd.
  assert (Hl : length (rows df) = length (rows df')).
  { rewrite <- (length_map snd (rows df)), <- (length_map snd (rows df')).
    unfold data in Hd. rewrite Hd. reflexivity. }
  rewrite Hl. reflexivity.
Qed.

(** A frame within the limits of a sheet is written under a name that
    fits the writer. *)
Lemma to_excel_ok {T : Py.Text} (book : list out_sheet) (name : string)
      (df : DataFrame) :
  fits_sheet (length (rows df)) (length (columns df)) ->
  name_free book name ->
  to_excel book name df = Ok (mk_out_sheet name (columns df) (data df)).
Proof.
  intros [Hr Hc] [Hv Ht]. unfold to_excel.
  rewrite (proj2 (Z.ltb_ge _ _) Hr), (proj2 (Z.ltb_ge _ _) Hc). cbn [orb].
  destruct (existsb _ book); [reflexivity|].
  rewrite Hv, Ht. reflexivity.
Qed.

(** ** The loop over the common sheets *)

Section Loop.

Context {T : Py.Text}.
Variables (xls1 xls2 : ExcelFile) (name1 name2 : string).
Variables (skiprows : Z) (im : index_map).

Let body (book : list out_sheet) :=
  process_sheet book xls1 xls2 name1 name2 skiprows im.
Let loop := sheet_loop xls1 xls2 name1 name2 skiprows im.


(** An uncaught exception in the body ends the run. *)
Lemma sheet_loop_raise (sheet : string) (rest : list string) (st : run) (e : exn) :
  body (written st) sheet = Raise e -> loop (sheet :: rest) st = Raise e.
Proof. unfold body, loop. intros H. simpl. rewrite H. reflexivity. Qed.

Lemma sheet_loop_log (sheets : list string) (st st' : run) :
  loop sheets st = Ok st' ->
  only1 st' = only1 st /\ only2 st' = only2 st /\
  map fst (console st') = map fst (console st) ++ sheets /\
  exists os, length os = length sheets /\
             Forall2 (fun s o => exists book, body book s = Ok o) sheets os /\
             console st' = console st ++ combine sheets os /\
             written st' = written st ++ flat_map written_by os.
Proof.
  unfold loop, body. revert st.
  induction sheets as [|s sheets IH]; intros st H; simpl in H.
  - inversion H; subst. rewrite !app_nil_r. repeat split.
    exists []. simpl. rewrite !app_nil_r. repeat split. constructor.
  - destruct (process_sheet (written st) xls1 xls2 name1 name2 skiprows im s)
      as [o|e] eqn:Ho; [|discriminate].
    apply IH in H. destruct H as (H1 & H2 & H3 & os & Hl & Hf & Hc & Hw).
    simpl in *. rewrite H1, H2, H3. repeat split.
    + rewrite map_app, <- app_assoc. reflexivity.
    + exists (o :: os). simpl. repeat split.
      * congruence.
      * constructor; [exists (written st); exact Ho | assumption].
      * rewrite Hc, <- app_assoc. reflexivity.
      * rewrite Hw, <- app_assoc. reflexivity.
Qed.

End Loop.

(** The sheet a body writes is named after the sheet it compared. *)
Lemma written_by_name {T : Py.Text} (book : list out_sheet) (xls1 xls2 : ExcelFile)
      (name1 name2 : string) (skiprows : Z) (im : index_map) (sheet : string)
      (o : outcome) (w : out_sheet) :
  process_sheet book xls1 xls2 name1 name2 skiprows im sheet = Ok o ->
  In w (written_by o) ->
  out_name w = (sheet ++ "_same")%string \/ out_name w = (sheet ++ "_diff")%string.
Proof.
  unfold process_sheet, compare_frames, cell_diff, row_alignment, report_unmatched, bind.
  intros H Hw.
  repeat match type of H with
         | context [match ?x with _ => _ end] =>
             let E := fresh "E" in destruct x eqn:E; try discriminate
         end;
    inversion H; subst; simpl in Hw; try contradiction;
    destruct Hw as [<-|[]];
    match goal with
    | E : to_excel _ _ _ = Ok _ |- _ => apply to_excel_sheet in E; subst; simpl; auto
    end.
Qed.

(** C6.  Sheet names that start with a non-empty exclusion prefix are
    removed from both workbooks (no prefix, or the empty one, removes
    nothing); the sheets to compare are the sorted intersection of what is
    left, the sheets of one workbook only are the two sorted differences;
    a run reports the latter and runs the loop body on the former only;
    [(DOC)Notes] is never compared under the prefix [(DOC)]; with no
    common sheet the run ends normally with nothing written. *)
Theorem sheet_set_reconciler {T : Py.Text} :
  forall (doc_prefix : option string) (xls1 xls2 : ExcelFile),
    let n1 := sheet_names xls1 in
    let n2 := sheet_names xls2 in
    let common := common_sheets doc_prefix n1 n2 in
    let o1 := only1_sheets doc_prefix n1 n2 in
    let o2 := only2_sheets doc_prefix n1 n2 in
    (forall s, excluded doc_prefix s = true <->
               exists p, doc_prefix = Some p /\ p <> "" /\ Py.startswith s p = true) /\
    (forall s, In s common <-> In s n1 /\ In s n2 /\ excluded doc_prefix s = false) /\
    (forall s, In s o1 <-> In s n1 /\ ~ In s n2 /\ excluded doc_prefix s = false) /\
    (forall s, In s o2 <-> In s n2 /\ ~ In s n1 /\ excluded doc_prefix s = false) /\
    StronglySorted str_lt common /\
    StronglySorted str_lt o1 /\
    StronglySorted str_lt o2 /\
    (forall name1 name2 skiprows im r,
        compare_excels xls1 xls2 name1 name2 skiprows doc_prefix im = Ok r ->
        only1 r = o1 /\ only2 r = o2 /\ map fst (console r) = common /\
        forall w, In w (written r) ->
                  exists s, In s common /\
                            (out_name w = (s ++ "_same")%string \/ out_name w = (s ++ "_diff")%string)) /\
    (common = [] ->
     forall name1 name2 skiprows im,
       compare_excels xls1 xls2 name1 name2 skiprows doc_prefix im
       = Ok (mk_run o1 o2 [] [])) /\
    ~ In "(DOC)Notes" (common_sheets (Some "(DOC)") n1 n2).
Proof.
  intros doc_prefix xls1 xls2 n1 n2 common o1 o2.
  assert (Hcommon : forall p s, In s (common_sheets p n1 n2) <->
                                In s n1 /\ In s n2 /\ excluded p s = false).
  { intros p s. unfold common_sheets, Py.set_and.
    rewrite In_sorted, filter_In, mem_In, !In_filter_sheets. tauto. }
  assert (Hsub : forall a b s, In s (Py.sorted (Py.set_sub (filter_sheets doc_prefix a)
                                                           (filter_sheets doc_prefix b))) <->
                               In s a /\ ~ In s b /\ excluded doc_prefix s = false).
  { intros a b s. unfold Py.set_sub.
    rewrite In_sorted, filter_In, negb_true_iff, mem_false, !In_filter_sheets. tauto. }
  split; [apply excluded_spec|].
  split; [apply Hcommon|].
  split; [apply Hsub|].
  split; [apply Hsub|].
  split; [apply sorted_sorted|].
  split; [apply sorted_sorted|].
  split; [apply sorted_sorted|].
  split; [|split].
  - intros name1 name2 skiprows im r Hr. unfold compare_excels in Hr.
    apply sheet_loop_log in Hr. simpl in Hr.
    destruct Hr as (H1 & H2 & H3 & os & Hl & Hf & Hc & Hw).
    repeat split; try assumption.
    intros w Hin. rewrite Hw in Hin. apply in_flat_map in Hin.
    destruct Hin as [o [Ho Hwo]].
    assert (Hsrc : exists s book, In s common /\
                   process_sheet book xls1 xls2 name1 name2 skiprows im s = Ok o).
    { clear - Hf Ho. unfold common, n1, n2.
      revert Ho. generalize dependent os.
      generalize (common_sheets doc_prefix (sheet_names xls1) (sheet_names xls2)).
      intros ss os Hf. induction Hf as [|s o' ss os' Hb Hf IH]; intros Ho;
        [contradiction|].
      destruct Ho as [->|Ho].
      - destruct Hb as [book Hb]. exists s, book.
        split; [left; reflexivity | assumption].
      - destruct (IH Ho) as (s' & book & Hs' & Hb').
        exists s', book. split; [right|]; assumption. }
    destruct Hsrc as (s & book & Hs & Hb). exists s. split; [assumption|].
    eapply written_by_name; eassumption.
  - intros Hnil name1 name2 skiprows im. unfold common, n1, n2 in Hnil.
    unfold compare_excels. rewrite Hnil. reflexivity.
  - rewrite Hcommon. intros (_ & _ & He). vm_compute in He. discriminate.
Qed.

(** ** The key lookup *)

Lemma get_set (d : Yaml.dict string) (k k' : string) (v : Yaml.value) :
  Yaml.get (Yaml.set d k v) k' = if String.eqb k k' then v else Yaml.get d k'.
Proof.
  induction d as [|[k0 v0] d IH]; simpl; [reflexivity|].
  destruct (String.eqb_spec k0 k) as [->|Hne]; simpl.
  - destruct (String.eqb k k'); reflexivity.
  - rewrite IH. destruct (String.eqb_spec k0 k') as [->|Hne'].
    + destruct (String.eqb_spec k k'); [congruence | reflexivity].
    + reflexivity.
Qed.

Section Lowered.

Context {T : Py.Text}.
Variable k : string.

Let step (acc : Yaml.dict string) (kv : Yaml.scalar * Yaml.value) :=
  Yaml.set acc (Py.lower (Yaml.str (fst kv))) (snd kv).

Lemma lowered_source (data : Yaml.dict Yaml.scalar) (acc : Yaml.dict string) :
  Yaml.get (fold_left step data acc) k = Yaml.get acc k \/
  exists k', In (k', Yaml.get (fold_left step data acc) k) data /\
             Py.lower (Yaml.str k') = k.
Proof.
  revert acc. induction data as [|[k0 v0] data IH]; intros acc; simpl.
  - left. reflexivity.
  - destruct (IH (step acc (k0, v0))) as [He|[k' [Hin Hk']]].
    + rewrite He.
      assert (Hs : Yaml.get (step acc (k0, v0)) k
                   = if String.eqb (Py.lower (Yaml.str k0)) k then v0
                     else Yaml.get acc k)
        by (unfold step; simpl; apply get_set).
      rewrite Hs.
      destruct (String.eqb_spec (Py.lower (Yaml.str k0)) k) as [Hk|Hk].
      * right. exists k0. split; [left; reflexivity | assumption].
      * left. reflexivity.
    + right. exists k'. split; [right|]; assumption.
Qed.

Lemma lowered_unique (data : Yaml.dict Yaml.scalar) (acc : Yaml.dict string)
      (k' : Yaml.scalar) (v : Yaml.value) :
  In (k', v) data -> Py.lower (Yaml.str k') = k ->
  (forall k'' v'', In (k'', v'') data -> Py.lower (Yaml.str k'') = k -> v'' = v) ->
  Yaml.get (fold_left step data acc) k = v.
Proof.
  revert acc. induction data as [|[k0 v0] data IH]; intros acc Hin Hk Huniq;
    [contradiction|]. simpl.
  destruct Hin as [Heq|Hin].
  - inversion Heq; subst k0 v0.
    destruct (lowered_source data (step acc (k', v))) as [He|[k2 [Hin2 Hk2]]].
    + rewrite He. unfold step. simpl. rewrite get_set, Hk, String.eqb_refl.
      reflexivity.
    + eapply Huniq; [right; exact Hin2 | exact Hk2].
  - apply IH; [assumption | assumption |].
    intros k2 v2 Hin2. apply Huniq. right. assumption.
Qed.

End Lowered.

Lemma get_raw_In (data : Yaml.dict Yaml.scalar) (sheet : string) :
  Yaml.is_none (Yaml.get_raw data sheet) = false ->
  In (Yaml.YStr sheet, Yaml.get_raw data sheet) data.
Proof.
  induction data as [|[k0 v0] data IH]; simpl; [discriminate|].
  destruct k0 as [|s|z|b]; try (intros H; right; auto; fail).
  destruct (String.eqb_spec s sheet) as [->|Hne]; intros H.
  - left. reflexivity.
  - right. auto.
Qed.

Lemma get_raw_first (data : Yaml.dict Yaml.scalar) (sheet : string) (v : Yaml.value) :
  NoDup (map fst data) -> In (Yaml.YStr sheet, v) data ->
  Yaml.get_raw data sheet = v.
Proof.
  induction data as [|[k0 v0] data IH]; simpl; intros Hnd Hin; [contradiction|].
  inversion Hnd as [|? ? Hnotin Hnd']; subst.
  destruct Hin as [Heq|Hin].
  - inversion Heq; subst. rewrite String.eqb_refl. reflexivity.
  - destruct k0 as [|s|z|b]; auto.
    destruct (String.eqb_spec s sheet) as [->|Hne]; auto.
    exfalso. apply Hnotin. apply in_map_iff. exists (Yaml.YStr sheet, v). auto.
Qed.

(** C7.  The key of a sheet is the configured value under the exact sheet
    name; only when that lookup gives nothing is the lower-cased sheet
    name looked up among the lower-cased configured names.  An entry
    [Orders] therefore resolves for the sheet [orders], and with an empty
    configuration every sheet has no key and is compared by position. *)
Theorem key_resolver_lookup_order {T : Py.Text} :
  forall (doc : option (Yaml.dict Yaml.scalar)) (sheet : string),
    let data := match doc with Some d => d | None => [] end in
    let im := load_index_map doc in
    (forall v, NoDup (map fst data) -> In (Yaml.YStr sheet, v) data ->
               Yaml.is_none v = false -> index_col_of im sheet = v) /\
    (Yaml.is_none (Yaml.get_raw data sheet) = false ->
     index_col_of im sheet = Yaml.get_raw data sheet /\
     In (Yaml.YStr sheet, index_col_of im sheet) data) /\
    (Yaml.is_none (Yaml.get_raw data sheet) = true ->
     index_col_of im sheet = Yaml.get (lowered data) (Py.lower sheet)) /\
    (Yaml.is_none (index_col_of im sheet) = false ->
     exists k, In (k, index_col_of im sheet) data /\
               Py.lower (Yaml.str k) = Py.lower sheet) /\
    (forall k v, Yaml.is_none (Yaml.get_raw data sheet) = true ->
                 In (k, v) data -> Py.lower (Yaml.str k) = Py.lower sheet ->
                 (forall k' v', In (k', v') data ->
                                Py.lower (Yaml.str k') = Py.lower sheet -> v' = v) ->
                 index_col_of im sheet = v) /\
    ((forall k v, In (k, v) data -> Py.lower (Yaml.str k) <> Py.lower sheet) ->
     index_col_of im sheet = Yaml.none) /\
    (forall v, index_col_of (load_index_map (Some [(Yaml.YStr "Orders", v)])) "orders" = v) /\
    index_col_of (load_index_map None) sheet = Yaml.none /\
    index_col_of (load_index_map (Some [])) sheet = Yaml.none /\
    (forall df1 df2 df1r df2r,
        install_index (index_col_of (load_index_map None) sheet) df1 df2
        = Ok (inr (df1, df2)) /\
        on_keys (index_col_of (load_index_map None) sheet) df1r df2r
        = map Yaml.YStr (Py.sorted (Py.set_and (columns df1r) (columns df2r)))).
Proof.
  intros doc sheet data im.
  assert (Him : index_col_of im sheet
                = if Yaml.is_none (Yaml.get_raw data sheet)
                  then Yaml.get (lowered data) (Py.lower sheet)
                  else Yaml.get_raw data sheet).
  { unfold im, index_col_of, load_index_map, raw_map, lower_map. simpl.
    fold data. reflexivity. }
  assert (Hlow : Yaml.is_none (Yaml.get (lowered data) (Py.lower sheet)) = false ->
                 exists k, In (k, Yaml.get (lowered data) (Py.lower sheet)) data /\
                           Py.lower (Yaml.str k) = Py.lower sheet).
  { intros Hn. unfold lowered in *.
    destruct (lowered_source (Py.lower sheet) data []) as [He|Hex]; [|exact Hex].
    rewrite He in Hn. discriminate. }
  repeat split.
  - intros v Hnd Hin Hv. rewrite Him.
    rewrite (get_raw_first data sheet v Hnd Hin), Hv. reflexivity.
  - rewrite Him, H. reflexivity.
  - rewrite Him, H. apply get_raw_In. assumption.
  - intros Hn. rewrite Him, Hn. reflexivity.
  - rewrite Him. destruct (Yaml.is_none (Yaml.get_raw data sheet)) eqn:Hn; intros Hr.
    + apply Hlow. assumption.
    + exists (Yaml.YStr sheet). split; [apply get_raw_In; assumption | reflexivity].
  - intros k v Hn Hin Hk Huniq. rewrite Him, Hn. unfold lowered.
    eapply lowered_unique; eassumption.
  - intros Hno. rewrite Him.
    destruct (Yaml.is_none (Yaml.get_raw data sheet)) eqn:Hn.
    + destruct (Yaml.is_none (Yaml.get (lowered data) (Py.lower sheet))) eqn:Hl.
      * destruct (Yaml.get (lowered data) (Py.lower sheet)) as [[| | |]|];
          try discriminate. reflexivity.
      * destruct (Hlow eq_refl) as [k [Hin Hk]]. exfalso. eapply Hno; eassumption.
    + exfalso. eapply (Hno (Yaml.YStr sheet)); [apply get_raw_In; exact Hn | reflexivity].
  - intros v. unfold index_col_of, load_index_map, raw_map, lower_map, lowered.
    cbn [_raw _lower Yaml.get_raw fold_left Yaml.set Yaml.get Yaml.str fst snd].
    change (String.eqb "Orders" "orders") with false.
    cbn [Yaml.is_none Yaml.none].
    rewrite (Py.lower_ascii_text "Orders" eq_refl), (Py.lower_ascii_text "orders" eq_refl).
    reflexivity.
Qed.

(** ** Installing the key *)

Lemma text_labels_str (l : list Yaml.scalar) (ks : list string) :
  text_labels l = Some ks -> ks = map Yaml.str l.
Proof.
  revert ks. induction l as [|x l IH]; simpl; intros ks H.
  - inversion H. reflexivity.
  - destruct x; try discriminate.
    destruct (text_labels l) as [ks'|]; [|discriminate].
    inversion H; subst. simpl. f_equal. apply IH. reflexivity.
Qed.




(** C10.  A key that is falsy ([[]], [""], [None], and likewise [0] and
    [False]) is treated as no key: no index is set and the sheet is
    compared exactly as a sheet without a configured key. *)
Theorem falsy_key_is_absent {T : Py.Text} :
  forall index_col : Yaml.value,
    Yaml.truthy index_col = false ->
    (forall df1 df2, install_index index_col df1 df2 = Ok (inr (df1, df2))) /\
    (forall df1r df2r,
        on_keys index_col df1r df2r
        = map Yaml.YStr (Py.sorted (Py.set_and (columns df1r) (columns df2r)))) /\
    (forall book name1 name2 sheet df1 df2,
        compare_frames book name1 name2 sheet index_col df1 df2
        = compare_frames book name1 name2 sheet Yaml.none df1 df2) /\
    (forall book xls1 xls2 name1 name2 skiprows im im' sheet,
        index_col_of im sheet = index_col ->
        index_col_of im' sheet = Yaml.none ->
        process_sheet book xls1 xls2 name1 name2 skiprows im sheet
        = process_sheet book xls1 xls2 name1 name2 skiprows im' sheet).
Proof.
  intros index_col Hf.
  assert (Hcf : forall book name1 name2 sheet df1 df2,
             compare_frames book name1 name2 sheet index_col df1 df2
             = compare_frames book name1 name2 sheet Yaml.none df1 df2).
  { intros. unfold compare_frames, install_index, row_alignment, on_keys.
    rewrite Hf. reflexivity. }
  repeat split.
  - intros. unfold install_index. rewrite Hf. reflexivity.
  - intros. unfold on_keys. rewrite Hf. reflexivity.
  - exact Hcf.
  - intros book xls1 xls2 name1 name2 skiprows im im' sheet Him Him'.
    unfold process_sheet. rewrite Him, Him'.
    destruct (read_excel xls1 sheet skiprows); [|reflexivity].
    destruct (read_excel xls2 sheet skiprows); [|reflexivity].
    apply Hcf.
Qed.

(** The empty list of key columns is such a key. *)
Lemma falsy_key_is_absent_witness :
  Yaml.truthy (Yaml.YList []) = false /\
  forall df1 df2, install_index (Yaml.YList []) df1 df2 = Ok (inr (df1, df2)).
Proof.
  split; [reflexivity|].
  apply (falsy_key_is_absent (T := Py.ascii_text) (Yaml.YList [])). reflexivity.
Defined.



(** ** Same shape or not *)

Lemma same_set_refl {A : Type} (l : list A) : same_set l l.
Proof. split; apply incl_refl. Qed.

Lemma index_fillna {L : Type} (df : Frame L) : index (fillna df) = index df.
Proof.
  unfold index, fillna. simpl. rewrite map_map. apply map_ext. intros []. reflexivity.
Qed.

Lemma same_shape_eq (df1 df2 : DataFrame) :
  same_shape df1 df2 = true <-> columns df1 = columns df2 /\ index df1 = index df2.
Proof.
  unfold same_shape, columns_equals, index_equals.
  rewrite andb_true_iff.
  rewrite (list_eqb_eq String.eqb String.eqb_eq).
  rewrite (list_eqb_eq (list_eqb value_eqb) (list_eqb_eq value_eqb value_eqb_eq)).
  tauto.
Qed.

(** C3, as stated, fails: the columns (or the row identities) may agree as
    sets while the classifier sends the pair to the row alignment. *)
Lemma classifier_order_counterexample :
  (spec_same_shape table_ab table_ba /\
   same_shape (fillna table_ab) (fillna table_ba) = false /\
   compare_frames (T := Py.ascii_text) [] "v1" "v2" "S" Yaml.none table_ab table_ba
   = Ok NoDifferencesShapeMismatch) /\
  (spec_same_shape keyed_12 keyed_21 /\
   same_shape (fillna keyed_12) (fillna keyed_21) = false).
Proof.
  repeat split; try reflexivity;
    intros x Hx; simpl in *; intuition (subst; auto).
Qed.

(** C3, amended.  The pair goes to the cell diff exactly when the column
    labels are the same sequence and the row index is the same sequence
    (two missing index values counting as equal); every other pair,
    including one that differs by order only, goes to the row alignment.
    Pairs sent to the cell diff are same-shape in the order-independent
    sense as well. *)
Theorem shape_classifier_dispatch {T : Py.Text} :
  forall (book : list out_sheet) (name1 name2 sheet : string)
         (index_col : Yaml.value) (df1 df2 a b : DataFrame),
    install_index index_col df1 df2 = Ok (inr (a, b)) ->
    (same_shape (fillna a) (fillna b) = true <->
     columns a = columns b /\ index a = index b) /\
    (same_shape (fillna a) (fillna b) = true ->
     spec_same_shape a b /\
     compare_frames book name1 name2 sheet index_col df1 df2
     = cell_diff book name1 name2 sheet (fillna a) (fillna b)) /\
    (same_shape (fillna a) (fillna b) = false ->
     compare_frames book name1 name2 sheet index_col df1 df2
     = row_alignment book name1 name2 sheet index_col (fillna a) (fillna b)).
Proof.
  intros book name1 name2 sheet index_col df1 df2 a b Hi.
  assert (Heq : same_shape (fillna a) (fillna b) = true <->
                columns a = columns b /\ index a = index b).
  { rewrite same_shape_eq, !index_fillna. reflexivity. }
  split; [exact Heq|]. split.
  - intros Hs. split.
    + apply Heq in Hs. destruct Hs as [Hc Hx]. unfold spec_same_shape.
      rewrite Hc, Hx. split; apply same_set_refl.
    + unfold compare_frames. rewrite Hi. simpl. rewrite Hs. reflexivity.
  - intros Hs. unfold compare_frames. rewrite Hi. simpl. rewrite Hs. reflexivity.
Qed.

(** The two tables with permuted columns go to the row alignment. *)
Lemma shape_classifier_dispatch_witness :
  install_index Yaml.none table_ab table_ba = Ok (inr (table_ab, table_ba)) /\
  (same_shape (fillna table_ab) (fillna table_ba) = false ->
   compare_frames (T := Py.ascii_text) [] "v1" "v2" "S" Yaml.none table_ab table_ba
   = row_alignment (T := Py.ascii_text) [] "v1" "v2" "S" Yaml.none
                   (fillna table_ab) (fillna table_ba)).
Proof.
  split; [reflexivity|].
  apply (shape_classifier_dispatch (T := Py.ascii_text) [] "v1" "v2" "S" Yaml.none
                                   table_ab table_ba table_ab table_ba eq_refl).
Defined.

(** ** Missing values *)




Lemma select_none {A : Type} (mask : list bool) (l : list A) :
  Forall (fun b => b = false) mask -> select mask l = [].
Proof.
  revert l. induction mask as [|b mask IH]; intros [|x l] H;
    try (rewrite select_nil; reflexivity); [reflexivity|].
  inversion H; subst. rewrite select_cons. apply IH. assumption.
Qed.

Lemma same_shape_refl (df : DataFrame) : same_shape df df = true.
Proof. apply same_shape_eq. split; reflexivity. Qed.

Lemma rmask_self (df : DataFrame) :
  Forall (fun b => b = false) (rmask (ne_mask df df)).
Proof.
  unfold rmask, ne_mask. apply Forall_forall. intros b Hb.
  apply in_map_iff in Hb. destruct Hb as [m [<- Hm]].
  apply in_map_iff in Hm. destruct Hm as [[[k1 r1] [k2 r2]] [<- Hp]]. simpl.
  assert (Heq : r1 = r2).
  { clear - Hp. induction (rows df) as [|x l IH]; simpl in Hp; [contradiction|].
    destruct Hp as [Hp|Hp]; [congruence | auto]. }
  subst r2. clear. induction r1 as [|v r1 IH]; simpl; [reflexivity|].
  rewrite value_eqb_refl. simpl. exact IH.
Qed.

(** A frame compared with itself has no difference to report. *)
Lemma cell_diff_self {T : Py.Text} (book : list out_sheet)
      (name1 name2 sheet : string) (df : DataFrame) :
  cell_diff book name1 name2 sheet df df = Ok NoDifferencesSameShape.
Proof.
  unfold cell_diff, compare. fold (same_shape df df). rewrite same_shape_refl.
  simpl. unfold empty. simpl.
  rewrite (select_none _ _ (rmask_self df)). simpl.
  destruct (flat_map _ _); reflexivity.
Qed.



(** ** The cell diff *)

Lemma ne_mask_row_mask (df1 df2 : DataFrame) :
  ne_mask df1 df2 = map row_mask (combine (rows df1) (rows df2)).
Proof. reflexivity. Qed.

Lemma same_shape_length (df1 df2 : DataFrame) :
  same_shape df1 df2 = true -> length (rows df1) = length (rows df2).
Proof.
  intros H. apply same_shape_eq in H. destruct H as [_ H]. unfold index in H.
  rewrite <- (length_map fst (rows df1)), H, length_map. reflexivity.
Qed.

(** [compare] on two frames with the same labels, written over the pairs
    of rows. *)
Lemma compare_pairs (name1 name2 : string) (df1 df2 : DataFrame) :
  same_shape df1 df2 = true ->
  let P := combine (rows df1) (rows df2) in
  let cm := cmask (map row_mask P) (length (columns df1)) in
  compare name1 name2 df1 df2
  = Ok (mkFrame (index_names df1)
                (flat_map (fun c => [(c, name1); (c, name2)])
                          (select cm (columns df1)))
                (map (fun p => (fst (fst p),
                                interleave
                                  (select cm (where_row (row_mask p) (snd (fst p))))
                                  (select cm (where_row (row_mask p) (snd (snd p))))))
                     (filter (fun p => existsb (fun b => b) (row_mask p)) P))).
Proof.
  intros Hs P cm. unfold compare. fold (same_shape df1 df2). rewrite Hs.
  pose proof (same_shape_length df1 df2 Hs) as Hlen.
  assert (E1 : rows df1 = map fst P) by (symmetry; apply combine_fst; exact Hlen).
  assert (E2 : rows df2 = map snd P) by (symmetry; apply combine_snd; exact Hlen).
  rewrite ne_mask_row_mask. fold P. fold cm.
  unfold loc, frame_where, rmask. simpl. f_equal. f_equal.
  clearbody P. rewrite E1, E2. clear E1 E2.
  rewrite !combine_mapped, !map_map, !select_mapped, !map_map, combine_mapped, map_map.
  reflexivity.
Qed.

Lemma cmask_covers (mask : list (list bool)) (pre m : list bool) :
  In (pre ++ m) mask ->
  Forall2 (fun b c => b = true -> c = true) m
          (map (fun j => existsb (fun r => nth j r false) mask)
               (seq (length pre) (length m))).
Proof.
  revert pre. induction m as [|b m IH]; intros pre Hin; simpl; constructor.
  - intros ->. apply existsb_exists. exists (pre ++ true :: m).
    split; [assumption|]. rewrite app_nth2, Nat.sub_diag; auto.
  - specialize (IH (pre ++ [b])). rewrite <- app_assoc, length_app in IH.
    simpl in IH. rewrite Nat.add_1_r in IH. apply IH. assumption.
Qed.

Section RowRecords.

Variables (name1 name2 : string) (idx : list value).

Let ne (vv : value * value) : bool := negb (value_eqb (fst vv) (snd vv)).



Lemma row_differs (r1 r2 : list value) :
  length r1 = length r2 ->
  existsb (fun b => b) (map ne (combine r1 r2))
  = negb (list_eqb value_eqb r1 r2).
Proof.
  unfold ne. revert r2. induction r1 as [|v1 r1 IH]; intros [|v2 r2] H;
    try discriminate; simpl; [reflexivity|].
  injection H as H. rewrite (IH r2 H).
  destruct (value_eqb v1 v2); reflexivity.
Qed.

End RowRecords.


Lemma flat_map_nil {A B : Type} (f : A -> list B) (l : list A) :
  flat_map f l = [] <-> forall x, In x l -> f x = [].
Proof.
  induction l as [|x l IH]; simpl; [tauto|]. split.
  - intros H. apply app_eq_nil in H. destruct H as [Hx Hl].
    intros y [<-|Hy]; [assumption | apply IH; assumption].
  - intros H. rewrite (H x (or_introl eq_refl)). apply IH.
    intros y Hy. apply H. right. assumption.
Qed.

Lemma well_formed_pairs (df1 df2 : DataFrame) p :
  well_formed df1 -> well_formed df2 -> columns df1 = columns df2 ->
  In p (combine (rows df1) (rows df2)) ->
  length (snd (fst p)) = length (columns df1) /\
  length (snd (snd p)) = length (columns df1).
Proof.
  unfold well_formed. rewrite !Forall_forall. intros W1 W2 Hc Hp.
  destruct p as [a b]. simpl. split.
  - apply W1. eapply in_combine_l. eassumption.
  - rewrite Hc. apply W2. eapply in_combine_r. eassumption.
Qed.



Lemma select_In {A : Type} (mask : list bool) (l : list A) (x : A) :
  In x (select mask l) -> In x l.
Proof.
  unfold select. intros H. apply in_map_iff in H.
  destruct H as [[b y] [<- Hin]]. apply filter_In in Hin.
  destruct Hin as [Hin _]. eapply in_combine_r. eassumption.
Qed.

Lemma filter_none {A : Type} (h : A -> bool) (l : list A) :
  (forall x, In x l -> h x = false) -> filter h l = [].
Proof.
  induction l as [|x l IH]; intros H; simpl; [reflexivity|].
  rewrite (H x (or_introl eq_refl)). apply IH.
  intros y Hy. apply H. right. assumption.
Qed.


Lemma nth_row_mask (j : nat) (r1 r2 : list value) :
  length r1 = length r2 ->
  nth j (map (fun vv => negb (value_eqb (fst vv) (snd vv))) (combine r1 r2)) false
  = negb (value_eqb (nth j r1 NaN) (nth j r2 NaN)).
Proof.
  revert j r2. induction r1 as [|v1 r1 IH]; intros j [|v2 r2] Hl; try discriminate.
  - destruct j; reflexivity.
  - injection Hl as Hl. destruct j as [|j]; [reflexivity|]. simpl. apply IH. exact Hl.
Qed.

(** The column mask of [compare] read off the cells: a column stays when
    some row differs in it. *)
Lemma cmask_differs (df1 df2 : DataFrame) :
  well_formed df1 -> well_formed df2 -> columns df1 = columns df2 ->
  cmask (map row_mask (combine (rows df1) (rows df2))) (length (columns df1))
  = map (differs_in df1 df2) (seq 0 (length (columns df1))).
Proof.
  intros W1 W2 Hc. unfold cmask, differs_in. apply map_ext. intros j.
  generalize (well_formed_pairs df1 df2).
  generalize (combine (rows df1) (rows df2)). intros P HP.
  induction P as [|p P IH]; [reflexivity|]. cbn [map existsb]. f_equal.
  - destruct (HP p W1 W2 Hc (or_introl eq_refl)) as [L1 L2].
    unfold row_mask. apply nth_row_mask. congruence.
  - apply IH. intros q Q1 Q2 Q3 Hq. apply HP; try assumption. right. exact Hq.
Qed.





(** ** Failures inside the loop body *)



(** ** The row alignment *)

Lemma suffixed_not_merge (c : string) (x : ascii) :
  (c ++ String "_" (String x EmptyString))%string <> "_merge".
Proof.
  destruct c as [|a1 [|a2 [|a3 [|a4 [|a5 [|a6 [|a7 c]]]]]]];
    simpl; intros H; discriminate H.
Qed.

Lemma rename_not_merge (on other : list string) (x : ascii) (c : string) :
  c <> "_merge" -> rename on other (String "_" (String x EmptyString)) c <> "_merge".
Proof.
  unfold rename. intros Hc.
  destruct (andb _ _); [apply suffixed_not_merge | exact Hc].
Qed.

Lemma text_labels_YStr (l : list string) : text_labels (map Yaml.YStr l) = Some l.
Proof. induction l as [|x l IH]; simpl; [reflexivity|]. rewrite IH. reflexivity. Qed.

Lemma cell_last (cols : list string) (vals : list value) (c : string) (x : value) :
  ~ In c cols -> length vals = length cols ->
  cell (cols ++ [c]) (vals ++ [x]) c = x.
Proof.
  revert vals. induction cols as [|k cols IH]; intros [|v vals] Hn Hl;
    try discriminate; simpl.
  - rewrite String.eqb_refl. reflexivity.
  - destruct (String.eqb_spec k c) as [->|Hne].
    + exfalso. apply Hn. left. reflexivity.
    + apply IH; [|simpl in Hl; congruence].
      intros Hin. apply Hn. right. assumption.
Qed.

Lemma set_cell_absent (cols : list string) (row : list value) (c : string) (v : value) :
  ~ In c cols -> set_cell cols row c v = row ++ [v].
Proof.
  revert row. induction cols as [|k cols IH]; intros [|x row] Hn; simpl;
    try reflexivity.
  destruct (String.eqb_spec k c) as [->|Hne].
  - exfalso. apply Hn. left. reflexivity.
  - f_equal. apply IH. intros Hin. apply Hn. right. assumption.
Qed.

Lemma data_filter_combine {A B : Type} (P : B -> bool) (idx : list A) (rws : list B) :
  length idx = length rws ->
  map snd (filter (fun r => P (snd r)) (combine idx rws)) = filter P rws.
Proof.
  revert rws. induction idx as [|i idx IH]; intros [|r rws] H;
    try discriminate; simpl; [reflexivity|].
  injection H as H. destruct (P r); simpl; rewrite IH; auto.
Qed.

Lemma select_length {A B : Type} (mask : list bool) (l : list A) (l' : list B) :
  length l = length l' -> length (select mask l) = length (select mask l').
Proof.
  revert l l'. induction mask as [|b mask IH]; intros [|x l] [|y l'] H;
    try discriminate; try reflexivity.
  injection H as H. rewrite !select_cons. destruct b; simpl; auto.
Qed.

Lemma range_index_length (n : nat) : length (range_index n) = n.
Proof. unfold range_index. rewrite length_map, length_seq. reflexivity. Qed.

Lemma existsb_filter_nil {A : Type} (p : A -> bool) (l : list A) :
  filter p l = [] <-> existsb p l = false.
Proof.
  induction l as [|x l IH]; simpl; [tauto|].
  destruct (p x); simpl; [split; discriminate | exact IH].
Qed.

(** *** The order of the merged rows *)

Lemma insert_keyed_perm (x : list value * list value)
      (l : list (list value * list value)) :
  Permutation (insert_keyed x l) (x :: l).
Proof.
  induction l as [|y l IH]; simpl; [apply Permutation_refl|].
  destruct (key_leb (fst y) (fst x)); [|apply Permutation_refl].
  eapply Permutation_trans; [apply perm_skip; exact IH | apply perm_swap].
Qed.

Lemma sort_keyed_perm (l : list (list value * list value)) :
  Permutation (sort_keyed l) l.
Proof.
  unfold sort_keyed.
  assert (H : forall acc, Permutation (fold_left (fun acc x => insert_keyed x acc) l acc)
                                      (acc ++ l)).
  { induction l as [|x l IH]; intros acc; simpl.
    - rewrite app_nil_r. apply Permutation_refl.
    - eapply Permutation_trans; [apply IH|].
      eapply Permutation_trans;
        [apply Permutation_app_tail; apply insert_keyed_perm|].
      simpl. apply Permutation_middle. }
  apply (H []).
Qed.

Lemma filter_perm {A : Type} (p : A -> bool) (l l' : list A) :
  Permutation l l' -> Permutation (filter p l) (filter p l').
Proof.
  induction 1 as [|x l l' _ IH|x y l|l l' l'' _ IH1 _ IH2]; simpl.
  - apply Permutation_refl.
  - destruct (p x); [apply perm_skip|]; exact IH.
  - destruct (p x), (p y); try apply Permutation_refl. apply perm_swap.
  - eapply Permutation_trans; eassumption.
Qed.

(** The rows of the join as they are built, before they are ordered. *)
Lemma joined_rows_snd (lcols rcols on : list string) (ldata rdata : list (list value)) :
  map snd (joined_rows lcols rcols on ldata rdata)
  = (let rkeep := map (fun c => negb (Py.mem c on)) rcols in
     let rextra := length (select rkeep rcols) in
     flat_map (fun l =>
                 match filter (key_match lcols rcols on l) rdata with
                 | [] => [left_only_row rextra l]
                 | ms => map (both_row rkeep l) ms
                 end) ldata
     ++ map (right_only_row lcols rcols on rkeep)
            (filter (fun r => negb (existsb (fun l => key_match lcols rcols on l r) ldata))
                    rdata)).
Proof.
  unfold joined_rows. cbn zeta. rewrite map_app, map_map. cbn [snd]. f_equal.
  induction ldata as [|l ldata IH]; [reflexivity|].
  cbn [flat_map]. rewrite map_app, IH, map_map. cbn [snd]. rewrite map_id.
  reflexivity.
Qed.

Lemma merge_rows_perm (lcols rcols on : list string) (ldata rdata : list (list value)) :
  Permutation (merge_rows lcols rcols on ldata rdata)
              (map snd (joined_rows lcols rcols on ldata rdata)).
Proof. unfold merge_rows. apply Permutation_map, sort_keyed_perm. Qed.

Section Merge.

Context {T : Py.Text}.
Variables (left right : DataFrame) (on : list string).
Hypothesis WL : well_formed left.
Hypothesis WR : well_formed right.
Hypothesis NML : ~ In "_merge" (columns left).
Hypothesis NMR : ~ In "_merge" (columns right).

Let mcols := merged_labels left right on.
Let rkeep := non_key right on.
Let rextra := length (select rkeep (columns right)).
Let keep (row : list value) : bool :=
  negb (value_eqb (cell (mcols ++ ["_merge"]) row "_merge") (VStr "both")).

Lemma merged_labels_no_merge : ~ In "_merge" mcols.
Proof.
  unfold mcols, merged_labels. intros H. apply in_app_or in H.
  destruct H as [H|H]; apply in_map_iff in H; destruct H as [c [Hc Hin]].
  - revert Hc. apply rename_not_merge. intros ->. contradiction.
  - revert Hc. apply rename_not_merge. intros ->. apply select_In in Hin.
    contradiction.
Qed.

Lemma left_row_length (l : list value) :
  In l (data left) -> length l = length (columns left).
Proof.
  unfold data. intros H. apply in_map_iff in H. destruct H as [r [<- Hr]].
  unfold well_formed in WL. rewrite Forall_forall in WL. auto.
Qed.

Lemma right_row_length (r : list value) :
  In r (data right) -> length r = length (columns right).
Proof.
  unfold data. intros H. apply in_map_iff in H. destruct H as [x [<- Hx]].
  unfold well_formed in WR. rewrite Forall_forall in WR. auto.
Qed.

Lemma merged_labels_length :
  length mcols = length (columns left) + rextra.
Proof.
  unfold mcols, merged_labels, rextra, rkeep.
  rewrite length_app, !length_map. reflexivity.
Qed.

Lemma indicator_left_only (l : list value) :
  In l (data left) ->
  cell (mcols ++ ["_merge"]) (left_only_row rextra l) "_merge" = VStr "left_only".
Proof.
  intros Hl. unfold left_only_row. rewrite app_assoc.
  apply cell_last; [apply merged_labels_no_merge|].
  rewrite length_app, repeat_length, merged_labels_length, (left_row_length l Hl).
  reflexivity.
Qed.

Lemma indicator_both (l r : list value) :
  In l (data left) -> In r (data right) ->
  cell (mcols ++ ["_merge"]) (both_row rkeep l r) "_merge" = VStr "both".
Proof.
  intros Hl Hr. unfold both_row. rewrite app_assoc.
  apply cell_last; [apply merged_labels_no_merge|].
  rewrite length_app, merged_labels_length, (left_row_length l Hl).
  f_equal. unfold rextra. apply select_length. apply right_row_length. assumption.
Qed.

Lemma indicator_right_only (r : list value) :
  In r (data right) ->
  cell (mcols ++ ["_merge"])
       (right_only_row (columns left) (columns right) on rkeep r) "_merge"
  = VStr "right_only".
Proof.
  intros Hr. unfold right_only_row. rewrite app_assoc.
  apply cell_last; [apply merged_labels_no_merge|].
  rewrite length_app, length_map, merged_labels_length.
  f_equal. unfold rextra. apply select_length. apply right_row_length. assumption.
Qed.

Lemma filter_left_rows (ls : list (list value)) :
  incl ls (data left) ->
  filter keep
         (flat_map (fun l =>
                      match filter (key_match (columns left) (columns right) on l)
                                   (data right) with
                      | [] => [left_only_row rextra l]
                      | ms => map (both_row rkeep l) ms
                      end) ls)
  = map (left_only_row rextra)
        (filter (fun l => negb (existsb (key_match (columns left) (columns right) on l)
                                        (data right))) ls).
Proof.
  set (F := fun l => match filter (key_match (columns left) (columns right) on l)
                                  (data right) with
                     | [] => [left_only_row rextra l]
                     | ms => map (both_row rkeep l) ms
                     end).
  set (U := fun l => negb (existsb (key_match (columns left) (columns right) on l)
                                   (data right))).
  induction ls as [|l ls IH]; intros Hsub; [reflexivity|].
  assert (Hl : In l (data left)) by (apply Hsub; left; reflexivity).
  assert (Hls : incl ls (data left))
    by (intros x Hx; apply Hsub; right; assumption).
  change (flat_map F (l :: ls)) with (F l ++ flat_map F ls).
  change (filter U (l :: ls)) with (if U l then l :: filter U ls else filter U ls).
  rewrite filter_app, (IH Hls).
  change (U l) with (negb (existsb (key_match (columns left) (columns right) on l)
                                   (data right))).
  unfold F at 1.
  destruct (filter (key_match (columns left) (columns right) on l) (data right))
    as [|m ms] eqn:Hf.
  - apply existsb_filter_nil in Hf. rewrite Hf. simpl.
    unfold keep at 1. rewrite (indicator_left_only l Hl). reflexivity.
  - assert (He : existsb (key_match (columns left) (columns right) on l)
                         (data right) = true).
    { destruct (existsb _ (data right)) eqn:He; [reflexivity|].
      apply existsb_filter_nil in He. congruence. }
    rewrite He, filter_none; [reflexivity|].
    intros row Hrow. apply in_map_iff in Hrow. destruct Hrow as [r [<- Hr]].
    assert (Hr' : In r (data right)).
    { rewrite <- Hf in Hr. apply filter_In in Hr. tauto. }
    unfold keep. rewrite (indicator_both l r Hl Hr'). reflexivity.
Qed.

Lemma filter_right_rows (rs : list (list value)) :
  incl rs (data right) ->
  filter keep (map (right_only_row (columns left) (columns right) on rkeep) rs)
  = map (right_only_row (columns left) (columns right) on rkeep) rs.
Proof.
  induction rs as [|r rs IH]; intros Hsub; simpl; [reflexivity|].
  unfold keep at 1.
  rewrite (indicator_right_only r (Hsub r (or_introl eq_refl))). simpl.
  f_equal. apply IH. intros x Hx. apply Hsub. right. assumption.
Qed.

(** Of the rows of the outer join, the ones whose indicator is not
    [both] are the unmatched rows of either frame, in the order of their
    join keys. *)
Lemma merge_rows_unmatched :
  Permutation
    (filter keep (merge_rows (columns left) (columns right) on (data left) (data right)))
    (map (left_only_row rextra) (unmatched_left left right on)
         ++ map (right_only_row (columns left) (columns right) on rkeep)
                (unmatched_right left right on)).
Proof.
  eapply Permutation_trans; [apply filter_perm, merge_rows_perm|].
  assert (E : filter keep (map snd (joined_rows (columns left) (columns right) on
                                                (data left) (data right)))
              = map (left_only_row rextra) (unmatched_left left right on)
                    ++ map (right_only_row (columns left) (columns right) on rkeep)
                           (unmatched_right left right on)).
  { rewrite joined_rows_snd. cbn zeta. rewrite filter_app. f_equal.
    - apply filter_left_rows. apply incl_refl.
    - apply filter_right_rows. intros x Hx. apply filter_In in Hx. tauto. }
  rewrite E. apply Permutation_refl.
Qed.

Lemma merge_rows_from (row : list value) :
  In row (merge_rows (columns left) (columns right) on (data left) (data right)) ->
  keep row = true ->
  (exists l, In l (data left) /\ row = left_only_row rextra l) \/
  (exists r, In r (data right) /\
             row = right_only_row (columns left) (columns right) on rkeep r).
Proof.
  intros Hin Hk.
  assert (H : In row (filter keep (merge_rows (columns left) (columns right) on
                                              (data left) (data right))))
    by (apply filter_In; split; assumption).
  apply (Permutation_in _ merge_rows_unmatched) in H. apply in_app_or in H.
  destruct H as [H|H]; apply in_map_iff in H; destruct H as [x [<- Hx]];
    apply filter_In in Hx; destruct Hx as [Hx _]; [left | right]; eauto.
Qed.

Variables (book : list out_sheet) (name1 name2 sheet : string).
Hypothesis ND : ~ In "Different" mcols.

Let cols := mcols ++ ["_merge"].
Let drop_mask := map (fun k => negb (String.eqb k "_merge")) (cols ++ ["Different"]).

(** What lines 138-142 make of one row that was kept. *)
Let final_row (row : list value) : list value :=
  select drop_mask
         (set_cell cols row "Different" (different name1 name2 (cell cols row "_merge"))).

Lemma drop_indicator (labels : list string) (vals : list value) (ind v : value) :
  ~ In "_merge" labels -> length vals = length labels ->
  select (map (fun k => negb (String.eqb k "_merge"))
              ((labels ++ ["_merge"]) ++ ["Different"]))
         ((vals ++ [ind]) ++ [v])
  = vals ++ [v].
Proof.
  revert vals. induction labels as [|k labels IH]; intros [|x vals] Hn Hl;
    try discriminate; [reflexivity|].
  simpl. rewrite select_cons.
  destruct (String.eqb_spec k "_merge") as [->|Hne].
  - exfalso. apply Hn. left. reflexivity.
  - simpl. f_equal. apply IH; [|simpl in Hl; congruence].
    intros Hin. apply Hn. right. assumption.
Qed.

Lemma different_not_in_cols : ~ In "Different" cols.
Proof.
  unfold cols. intros H. apply in_app_or in H. destruct H as [H|[H|[]]];
    [contradiction | discriminate].
Qed.

Lemma final_row_of (vals : list value) (ind : value) :
  length vals = length mcols ->
  final_row (vals ++ [ind]) = vals ++ [different name1 name2 ind].
Proof.
  intros Hl. unfold final_row.
  rewrite (set_cell_absent _ _ _ _ different_not_in_cols).
  unfold cols. rewrite (cell_last _ _ _ _ merged_labels_no_merge Hl).
  unfold drop_mask, cols. apply drop_indicator; [apply merged_labels_no_merge | exact Hl].
Qed.

Lemma final_left_row (l : list value) :
  In l (data left) ->
  final_row (left_only_row rextra l) = left_reported name1 right on l.
Proof.
  intros Hl. unfold left_only_row, left_reported. rewrite app_assoc, final_row_of.
  - rewrite <- app_assoc. reflexivity.
  - rewrite length_app, repeat_length, merged_labels_length, (left_row_length l Hl).
    reflexivity.
Qed.

Lemma final_right_row (r : list value) :
  In r (data right) ->
  final_row (right_only_row (columns left) (columns right) on rkeep r)
  = right_reported name2 left right on r.
Proof.
  intros Hr. unfold right_only_row, right_reported. rewrite app_assoc, final_row_of.
  - rewrite <- app_assoc. reflexivity.
  - rewrite length_app, length_map, merged_labels_length. f_equal.
    unfold rextra. apply select_length. apply right_row_length. assumption.
Qed.

Lemma map_ext_In {A B : Type} (f g : A -> B) (l : list A) :
  (forall x, In x l -> f x = g x) -> map f l = map g l.
Proof.
  induction l as [|x l IH]; intros H; simpl; [reflexivity|].
  rewrite (H x (or_introl eq_refl)), IH; [reflexivity|].
  intros y Hy. apply H. right. assumption.
Qed.

Lemma filter_not_merge :
  filter (fun k => negb (String.eqb k "_merge")) ((mcols ++ ["_merge"]) ++ ["Different"])
  = mcols ++ ["Different"].
Proof.
  rewrite !filter_app.
  rewrite (forallb_filter_id (fun k => negb (String.eqb k "_merge")) mcols).
  - change (filter (fun k => negb (String.eqb k "_merge")) ["_merge"])
      with (@nil string).
    change (filter (fun k => negb (String.eqb k "_merge")) ["Different"])
      with ["Different"].
    rewrite app_nil_r. reflexivity.
  - apply forallb_forall. intros k Hk. apply negb_true_iff, String.eqb_neq.
    intros ->. apply merged_labels_no_merge. exact Hk.
Qed.

(** Lines 138-144 on a frame with the columns of the merged frame. *)
Lemma labelled_frame (names : option (list string))
      (kept : list (list value * list value)) :
  let df := drop_column "_merge"
              (assign_mapped "Different" "_merge" (different name1 name2)
                             (mkFrame names cols kept)) in
  columns df = mcols ++ ["Different"] /\
  data df = map final_row (map snd kept).
Proof.
  assert (Hmem : Py.mem "Different" cols = false)
    by (apply mem_false, different_not_in_cols).
  unfold drop_column, assign_mapped, loc_columns, data.
  cbn [columns rows index_names]. rewrite Hmem. split.
  - rewrite select_map_filter. unfold cols. apply filter_not_merge.
  - rewrite !map_map. apply map_ext. intros [k row]. reflexivity.
Qed.

Lemma empty_rows {L : Type} (df : Frame L) :
  columns df <> [] ->
  empty df = match rows df with [] => true | _ :: _ => false end.
Proof. unfold empty. destruct (columns df); [congruence | reflexivity]. Qed.

(** Lines 134-145 on the frame the merge returned: the unmatched rows of
    either frame, each as it is reported, go to the writer in the order
    of the merged frame. *)
Lemma report_unmatched_rows (mrows : list (list value)) :
  mrows = merge_rows (columns left) (columns right) on (data left) (data right) ->
  exists out,
    Permutation out
                (map (left_reported name1 right on) (unmatched_left left right on)
                     ++ map (right_reported name2 left right on)
                            (unmatched_right left right on)) /\
    report_unmatched book name1 name2 sheet
                     (mkFrame None cols (combine (range_index (length mrows)) mrows))
    = reported book sheet (mcols ++ ["Different"]) out.
Proof.
  intros Hm. unfold report_unmatched, rows_where_ne. cbn [columns rows index_names].
  set (kept := filter _ (combine (range_index (length mrows)) mrows)).
  assert (Hdata : map snd kept = filter keep mrows).
  { unfold kept.
    apply (data_filter_combine
             (fun row => negb (value_eqb (cell cols row "_merge") (VStr "both")))).
    apply range_index_length. }
  assert (Hperm : Permutation
                    (map final_row (map snd kept))
                    (map (left_reported name1 right on) (unmatched_left left right on)
                         ++ map (right_reported name2 left right on)
                                (unmatched_right left right on))).
  { rewrite Hdata, Hm.
    eapply Permutation_trans; [apply Permutation_map, merge_rows_unmatched|].
    rewrite map_app, !map_map.
    rewrite (map_ext_In (fun x => final_row (left_only_row rextra x))
                        (left_reported name1 right on)).
    - rewrite (map_ext_In
                 (fun x => final_row (right_only_row (columns left) (columns right)
                                                     on rkeep x))
                 (right_reported name2 left right on)); [apply Permutation_refl|].
      intros x Hx. apply final_right_row.
      unfold unmatched_right in Hx. apply filter_In in Hx. tauto.
    - intros x Hx. apply final_left_row.
      unfold unmatched_left in Hx. apply filter_In in Hx. tauto. }
  exists (map final_row (map snd kept)). split; [exact Hperm|].
  destruct (labelled_frame None kept) as [Hc Hd]. cbn zeta in Hc, Hd.
  rewrite empty_rows by (cbn [columns]; unfold cols; destruct mcols; discriminate).
  cbn [rows]. unfold reported.
  destruct kept as [|k0 kept']; [reflexivity|].
  cbn [map]. f_equal.
  apply to_excel_data.
  - rewrite Hc. reflexivity.
  - rewrite Hd. unfold data. cbn [rows map]. symmetry.
    apply (combine_snd (range_index (length (final_row (snd k0)
                                               :: map final_row (map snd kept'))))).
    apply range_index_length.
Qed.

End Merge.

(** The rows the row alignment is left with are written when they fit a
    sheet and the name fits the writer. *)
Lemma reported_written {T : Py.Text} (book : list out_sheet) (sheet : string)
      (cols : list string) (out : list (list value)) :
  out <> [] ->
  fits_sheet (length out) (length cols) ->
  name_free book (sheet ++ "_diff") ->
  reported book sheet cols out
  = Ok (WroteDiff (mk_out_sheet (sheet ++ "_diff") cols out)).
Proof.
  intros Hne Hf Hn. unfold reported. destruct out as [|r out]; [congruence|].
  rewrite to_excel_ok.
  - cbn [bind columns]. unfold data. cbn [rows].
    rewrite combine_snd by apply range_index_length. reflexivity.
  - cbn [rows columns]. rewrite length_combine, range_index_length, Nat.min_id.
    exact Hf.
  - exact Hn.
Qed.

Lemma merge_inv (left right merged : DataFrame) (keys : list Yaml.scalar) :
  merge left right keys = Ok merged ->
  exists on,
    text_labels keys = Some on /\
    ~ In "_merge" (columns left) /\
    ~ In "_merge" (columns right) /\
    merged
    = let mrows := merge_rows (columns left) (columns right) on
                              (data left) (data right) in
      mkFrame None (merged_labels left right on ++ ["_merge"])
              (combine (range_index (length mrows)) mrows).
Proof.
  unfold merge. destruct (text_labels keys) as [[|k ks]|]; try discriminate.
  destruct (negb (forallb _ (k :: ks))); [discriminate|].
  destruct (negb (forallb _ (k :: ks))); [discriminate|].
  destruct (Py.mem "_merge" (columns left)) eqn:H1; [discriminate|].
  destruct (Py.mem "_merge" (columns right)) eqn:H2; [discriminate|].
  cbn [orb].
  destruct (negb (andb _ _)); [discriminate|].
  intros H. inversion H; subst merged. clear H.
  exists (k :: ks). repeat split.
  - apply mem_false. assumption.
  - apply mem_false. assumption.
  - cbn zeta. f_equal. unfold merged_labels, non_key. rewrite <- app_assoc.
    reflexivity.
Qed.

(** The row alignment reports the rows of either frame whose join key is
    the key of no row of the other frame, each with its label. *)
Lemma row_alignment_reported {T : Py.Text} (book : list out_sheet)
      (name1 name2 sheet : string) (index_col : Yaml.value)
      (df1 df2 df1r df2r merged : DataFrame) (on : list string) :
  reset_index df1 = Ok df1r ->
  reset_index df2 = Ok df2r ->
  text_labels (on_keys index_col df1r df2r) = Some on ->
  merge df1r df2r (on_keys index_col df1r df2r) = Ok merged ->
  well_formed df1r -> well_formed df2r ->
  ~ In "Different" (merged_labels df1r df2r on) ->
  exists out,
    Permutation out
                (map (left_reported name1 df2r on) (unmatched_left df1r df2r on)
                     ++ map (right_reported name2 df1r df2r on)
                            (unmatched_right df1r df2r on)) /\
    row_alignment book name1 name2 sheet index_col df1 df2
    = reported book sheet (merged_labels df1r df2r on ++ ["Different"]) out.
Proof.
  intros H1 H2 Hon Hm W1 W2 Hd. unfold row_alignment. rewrite H1, H2.
  cbn [bind]. rewrite Hm.
  apply merge_inv in Hm. destruct Hm as (on' & Hon' & N1 & N2 & ->).
  rewrite Hon in Hon'. inversion Hon'; subst on'. cbn zeta.
  apply report_unmatched_rows; auto.
Qed.

Lemma unmatched_all (left right : DataFrame) (on : list string) :
  (forall l r, In l (data left) -> In r (data right) ->
               key_match (columns left) (columns right) on l r = false) ->
  unmatched_left left right on = data left /\
  unmatched_right left right on = data right.
Proof.
  intros H. unfold unmatched_left, unmatched_right. split.
  - apply forallb_filter_id, forallb_forall. intros l Hl.
    apply negb_true_iff. destruct (existsb _ (data right)) eqn:He; [|reflexivity].
    apply existsb_exists in He. destruct He as [r [Hr Hk]].
    rewrite (H l r Hl Hr) in Hk. discriminate.
  - apply forallb_filter_id, forallb_forall. intros r Hr.
    apply negb_true_iff. destruct (existsb _ (data left)) eqn:He; [|reflexivity].
    apply existsb_exists in He. destruct He as [l [Hl Hk]].
    rewrite (H l r Hl Hr) in Hk. discriminate.
Qed.

Lemma reset_index_data (df dfr : DataFrame) :
  reset_index df = Ok dfr -> length (data dfr) = length (rows df).
Proof.
  unfold reset_index. destruct (andb _ _); [|discriminate].
  intros H. inversion H; subst. unfold data. cbn [rows].
  rewrite length_map, length_combine, range_index_length, length_map.
  apply Nat.min_id.
Qed.

(** *** One more row at the end of an unkeyed table *)

Lemma map_cell_id (cols : list string) (r : list value) :
  NoDup cols -> length r = length cols -> map (cell cols r) cols = r.
Proof.
  revert r. induction cols as [|k cols IH]; intros [|v r] Hnd Hl;
    try discriminate; [reflexivity|].
  inversion Hnd as [|? ? Hk Hnd']; subst. injection Hl as Hl.
  cbn [map]. f_equal.
  - simpl. rewrite String.eqb_refl. reflexivity.
  - rewrite <- (IH r Hnd' Hl) at 2. apply map_ext_In. intros c Hc. simpl.
    destruct (String.eqb_spec k c) as [->|_]; [contradiction | reflexivity].
Qed.

Lemma key_match_same_columns (cols on : list string) (l r : list value) :
  NoDup cols -> incl cols on ->
  length l = length cols -> length r = length cols ->
  (key_match cols cols on l r = true <-> l = r).
Proof.
  intros Hnd Hincl Hl Hr. unfold key_match, key_of.
  rewrite (list_eqb_eq value_eqb value_eqb_eq). split.
  - intros H. rewrite <- (map_cell_id cols l Hnd Hl), <- (map_cell_id cols r Hnd Hr).
    apply map_ext_In. intros c Hc.
    apply (proj1 map_ext_in_iff H). apply Hincl. assumption.
  - intros ->. reflexivity.
Qed.

Lemma distinctb_NoDup (l : list string) : NoDup l -> distinctb String.eqb l = true.
Proof.
  induction 1 as [|x l Hx _ IH]; simpl; [reflexivity|].
  rewrite IH, andb_true_r. apply negb_true_iff.
  change (memb String.eqb x l) with (Py.mem x l). apply mem_false. assumption.
Qed.

Lemma str_lt_irrefl (a : string) : ~ str_lt a a.
Proof.
  unfold str_lt. intros H.
  assert (He : String.compare a a = Eq).
  { clear H. induction a as [|c a IH]; simpl; [reflexivity|].
    unfold Ascii.compare. rewrite N.compare_refl. exact IH. }
  congruence.
Qed.

Lemma sorted_NoDup (s : list string) : NoDup (Py.sorted s).
Proof.
  pose proof (sorted_sorted s) as H.
  induction H as [|x l _ IH Hall]; constructor; [|exact IH].
  intros Hin. rewrite Forall_forall in Hall.
  apply (str_lt_irrefl x). apply Hall. assumption.
Qed.

Lemma merge_ok (left right : DataFrame) (on : list string) :
  on <> [] ->
  incl on (columns left) -> incl on (columns right) ->
  ~ In "_merge" (columns left) -> ~ In "_merge" (columns right) ->
  NoDup (map (rename on (columns right) "_x") (columns left)) ->
  NoDup (on ++ map (rename on (columns left) "_y")
                   (select (non_key right on) (columns right))) ->
  forallb (fun k => compatible (column_cells (columns left) k (data left))
                               (column_cells (columns right) k (data right))) on
  = true ->
  merge left right (map Yaml.YStr on)
  = Ok (let mrows := merge_rows (columns left) (columns right) on
                                (data left) (data right) in
        mkFrame None (merged_labels left right on ++ ["_merge"])
                (combine (range_index (length mrows)) mrows)).
Proof.
  intros Hne Hl Hr N1 N2 D1 D2 Hk. unfold merge. rewrite text_labels_YStr.
  destruct on as [|k ks]; [congruence|].
  assert (Hall : forallb (fun k0 => andb (Py.mem k0 (columns left))
                                         (Py.mem k0 (columns right))) (k :: ks) = true).
  { apply forallb_forall. intros c Hc. apply andb_true_iff.
    split; apply mem_In; [apply Hl | apply Hr]; assumption. }
  rewrite Hall, Hk. cbn [negb].
  rewrite (proj2 (mem_false _ _) N1), (proj2 (mem_false _ _) N2). cbn [orb].
  rewrite (distinctb_NoDup _ D1). fold (non_key right (k :: ks)).
  rewrite (distinctb_NoDup _ D2). cbn [andb negb]. cbn zeta. f_equal. f_equal.
  unfold merged_labels. rewrite <- app_assoc. reflexivity.
Qed.

Lemma combine_map_l {A B C : Type} (f : A -> B) (l1 : list A) (l2 : list C) :
  combine (map f l1) l2 = map (fun p => (f (fst p), snd p)) (combine l1 l2).
Proof.
  revert l2. induction l1 as [|x l1 IH]; intros [|y l2]; simpl; try reflexivity.
  f_equal. apply IH.
Qed.

Lemma combine_snoc {A B : Type} (l1 : list A) (l2 : list B) (x : A) (y : B) :
  length l1 = length l2 ->
  combine (l1 ++ [x]) (l2 ++ [y]) = combine l1 l2 ++ [(x, y)].
Proof.
  revert l2. induction l1 as [|a l1 IH]; intros [|b l2] H; try discriminate;
    simpl; [reflexivity|].
  f_equal. apply IH. simpl in H. congruence.
Qed.

Lemma numbered_snoc (body : list (list value)) (extra : list value) :
  numbered (body ++ [extra])
  = numbered body ++ [VNum (Z.of_nat (length body)) :: extra].
Proof.
  unfold numbered. rewrite length_app, seq_app.
  change (seq (0 + length body) (length [extra])) with [length body].
  rewrite combine_snoc, map_app; [reflexivity|].
  apply length_seq.
Qed.

Lemma numbered_In (body : list (list value)) (l : list value) :
  In l (numbered body) ->
  exists i r, l = VNum (Z.of_nat i) :: r /\ i < length body /\ In r body.
Proof.
  unfold numbered. intros H. apply in_map_iff in H.
  destruct H as [[i r] [<- Hin]]. exists i, r. split; [reflexivity|].
  split.
  - apply in_combine_l in Hin. apply in_seq in Hin. simpl in Hin. lia.
  - apply in_combine_r in Hin. assumption.
Qed.

Lemma numbered_length (body : list (list value)) :
  length (numbered body) = length body.
Proof.
  unfold numbered. rewrite length_map, length_combine, length_seq.
  apply Nat.min_id.
Qed.

Lemma reset_index_table (hdr : list string) (body : list (list value)) :
  ~ In (position_label hdr) hdr ->
  reset_index (frame_of_table (mkTable hdr body))
  = Ok (mkFrame None (position_label hdr :: hdr)
                (combine (range_index (length body)) (numbered body))).
Proof.
  intros Hp. unfold reset_index, frame_of_table.
  cbn [index_names columns rows header Pandas.body default_index_names].
  fold (position_label hdr).
  cbn [distinctb forallb memb existsb negb andb].
  rewrite (proj2 (mem_false _ _) Hp). cbn [negb andb].
  assert (E1 : length (combine (range_index (length body)) body) = length body)
    by (rewrite length_combine, range_index_length; apply Nat.min_id).
  assert (E2 : map (fun r : list value * list value => fst r ++ snd r)
                   (combine (range_index (length body)) body)
               = numbered body)
    by (unfold range_index, numbered; rewrite combine_map_l, map_map; reflexivity).
  rewrite E1, E2. reflexivity.
Qed.

Lemma column_cells_numbered (pos c : string) (hdr : list string)
      (body : list (list value)) :
  c <> pos -> column_cells (pos :: hdr) c (numbered body) = column_cells hdr c body.
Proof.
  intros Hc. unfold column_cells, numbered. rewrite map_map.
  rewrite (map_ext _ (fun p : nat * list value => cell hdr (snd p) c)).
  - rewrite <- (map_map snd (fun row => cell hdr row c)), combine_snd;
      [reflexivity | apply length_seq].
  - intros p. cbn [cell]. rewrite (proj2 (String.eqb_neq pos c)) by congruence.
    reflexivity.
Qed.

Lemma position_cells_numbered (pos : string) (hdr : list string)
      (body : list (list value)) :
  forallb is_number (column_cells (pos :: hdr) pos (numbered body)) = true.
Proof.
  unfold column_cells, numbered. rewrite map_map. apply forallb_forall.
  intros v Hv. apply in_map_iff in Hv. destruct Hv as [[i r] [<- _]].
  cbn [fst snd cell]. rewrite String.eqb_refl. reflexivity.
Qed.

Lemma kind_of_numbers (cells : list value) :
  forallb is_number cells = true -> kind_of cells = Numeric.
Proof.
  intros H. unfold kind_of.
  assert (Ht : existsb is_text cells = false).
  { induction cells as [|v cells IH]; [reflexivity|]. simpl in *.
    apply andb_true_iff in H. destruct H as [Hv Hc].
    rewrite (IH Hc). destruct v; try discriminate. reflexivity. }
  rewrite Ht. reflexivity.
Qed.

Lemma compatible_numbers (lk rk : list value) :
  forallb is_number lk = true -> forallb is_number rk = true ->
  compatible lk rk = true.
Proof.
  intros Hl Hr. unfold compatible.
  rewrite (kind_of_numbers lk Hl), (kind_of_numbers rk Hr).
  destruct lk; [reflexivity|]. destruct rk; reflexivity.
Qed.

Section Appended.

Context {T : Py.Text}.
Variables (book : list out_sheet) (name1 name2 sheet : string).
Variable index_col : Yaml.value.
Variables (hdr : list string) (body : list (list value)) (extra : list value).

Hypothesis Hfalsy : Yaml.truthy index_col = false.
Hypothesis Hnd : NoDup hdr.
Hypothesis Hbody : Forall (fun r => length r = length hdr) body.
Hypothesis Hextra : length extra = length hdr.
Hypothesis Hpos : ~ In (position_label hdr) hdr.
Hypothesis Hmerge : ~ In "_merge" hdr.
Hypothesis Hdiff : ~ In "Different" hdr.
Hypothesis Hkinds :
  Forall (fun c => compatible (column_cells hdr c body)
                              (column_cells hdr c (body ++ [extra])) = true) hdr.

Let cols := position_label hdr :: hdr.
Let on := Py.sorted (Py.set_and cols cols).
Let last_row := VNum (Z.of_nat (length body)) :: extra.
Let left := mkFrame None cols (combine (range_index (length body)) (numbered body)).
Let right := mkFrame None cols
                     (combine (range_index (length (body ++ [extra])))
                              (numbered (body ++ [extra]))).

Lemma appended_on : forall c, In c on <-> In c cols.
Proof.
  intros c. unfold on, Py.set_and. rewrite In_sorted, filter_In, mem_In. tauto.
Qed.

Lemma appended_cols_NoDup : NoDup cols.
Proof. unfold cols. constructor; assumption. Qed.

Lemma appended_data_left : data left = numbered body.
Proof.
  unfold data, left. cbn [rows]. apply combine_snd.
  rewrite range_index_length, numbered_length. reflexivity.
Qed.

Lemma appended_data_right : data right = numbered body ++ [last_row].
Proof.
  unfold data, right. cbn [rows]. rewrite combine_snd.
  - apply numbered_snoc.
  - rewrite range_index_length, numbered_length. reflexivity.
Qed.

Lemma appended_row_length (l : list value) :
  In l (numbered body ++ [last_row]) -> length l = length cols.
Proof.
  intros H. apply in_app_or in H. destruct H as [H|[<-|[]]].
  - apply numbered_In in H. destruct H as (i & r & -> & _ & Hr).
    rewrite Forall_forall in Hbody. simpl. f_equal. apply Hbody. assumption.
  - simpl. f_equal. assumption.
Qed.

Lemma appended_well_formed : well_formed left /\ well_formed right.
Proof.
  unfold well_formed. split; apply Forall_forall; intros [k r] Hr;
    cbn [snd columns left right]; apply appended_row_length.
  - apply in_or_app. left. rewrite <- appended_data_left.
    unfold data. apply in_map_iff. exists (k, r). auto.
  - rewrite <- appended_data_right.
    unfold data. apply in_map_iff. exists (k, r). auto.
Qed.

Lemma appended_key_match (l r : list value) :
  In l (numbered body ++ [last_row]) -> In r (numbered body ++ [last_row]) ->
  (key_match cols cols on l r = true <-> l = r).
Proof.
  intros Hl Hr. apply key_match_same_columns.
  - apply appended_cols_NoDup.
  - intros c Hc. apply appended_on. assumption.
  - apply appended_row_length. assumption.
  - apply appended_row_length. assumption.
Qed.

Lemma appended_last_row_new : ~ In last_row (numbered body).
Proof.
  intros H. apply numbered_In in H. destruct H as (i & r & He & Hi & _).
  unfold last_row in He. inversion He. lia.
Qed.

Lemma appended_unmatched_left : unmatched_left left right on = [].
Proof.
  unfold unmatched_left. apply filter_none. intros l Hl.
  apply negb_false_iff, existsb_exists. exists l.
  cbn [columns left right]. rewrite appended_data_left in Hl.
  rewrite appended_data_right. split.
  - apply in_or_app. left. assumption.
  - apply appended_key_match; [apply in_or_app; left; assumption ..|reflexivity].
Qed.

Lemma appended_unmatched_right : unmatched_right left right on = [last_row].
Proof.
  unfold unmatched_right. rewrite appended_data_right, appended_data_left.
  cbn [columns left right]. rewrite filter_app. cbn [filter].
  rewrite filter_none.
  - assert (Hnew : existsb (fun l => key_match cols cols on l last_row)
                           (numbered body) = false).
    { destruct (existsb _ (numbered body)) eqn:He; [|reflexivity].
      apply existsb_exists in He. destruct He as [l [Hl Hk]].
      apply appended_key_match in Hk.
      - subst l. exfalso. apply appended_last_row_new. assumption.
      - apply in_or_app. left. assumption.
      - apply in_or_app. right. left. reflexivity. }
    rewrite Hnew. reflexivity.
  - intros r Hr. apply negb_false_iff, existsb_exists. exists r.
    split; [assumption|].
    apply appended_key_match; [apply in_or_app; left; assumption ..|reflexivity].
Qed.

Lemma appended_rename (sfx c : string) : In c cols -> rename on cols sfx c = c.
Proof.
  intros Hc. unfold rename.
  rewrite (proj2 (mem_In c on) (proj2 (appended_on c) Hc)). reflexivity.
Qed.

Lemma appended_non_key : Forall (fun b => b = false) (non_key right on).
Proof.
  unfold non_key. cbn [columns right]. apply Forall_forall. intros b Hb.
  apply in_map_iff in Hb. destruct Hb as [c [<- Hc]].
  apply negb_false_iff, mem_In, appended_on. assumption.
Qed.

Lemma appended_labels : merged_labels left right on = cols.
Proof.
  unfold merged_labels. rewrite (select_none _ _ appended_non_key).
  cbn [columns left right map]. rewrite app_nil_r.
  rewrite <- (map_id cols) at 3. apply map_ext_In. intros c Hc.
  apply appended_rename. assumption.
Qed.

Lemma appended_position_label :
  position_label hdr <> "_merge" /\ position_label hdr <> "Different".
Proof. unfold position_label. destruct (Py.mem "index" hdr); split; discriminate. Qed.

Lemma appended_merge :
  merge left right (on_keys index_col left right)
  = Ok (let mrows := merge_rows cols cols on (data left) (data right) in
        mkFrame None (merged_labels left right on ++ ["_merge"])
                (combine (range_index (length mrows)) mrows)).
Proof.
  unfold on_keys. rewrite Hfalsy. cbn [columns left right]. fold on.
  assert (N : ~ In "_merge" cols).
  { unfold cols. intros [H|H]; [|contradiction].
    apply (proj1 appended_position_label). assumption. }
  apply (merge_ok left right on).
  - intros He. assert (Hin : In (position_label hdr) on)
      by (apply appended_on; left; reflexivity).
    rewrite He in Hin. contradiction.
  - intros c Hc. apply appended_on. assumption.
  - intros c Hc. apply appended_on. assumption.
  - exact N.
  - exact N.
  - cbn [columns left right].
    rewrite (map_ext_In _ (fun c => c)); [rewrite map_id; apply appended_cols_NoDup|].
    intros c Hc. apply appended_rename. assumption.
  - rewrite (select_none _ _ appended_non_key). cbn [map]. rewrite app_nil_r.
    apply sorted_NoDup.
  - apply forallb_forall. intros c Hc. apply appended_on in Hc.
    rewrite appended_data_left. unfold data, right. cbn [rows columns].
    rewrite combine_snd
      by (rewrite range_index_length, numbered_length; reflexivity).
    destruct Hc as [<-|Hc].
    + apply compatible_numbers; apply position_cells_numbered.
    + assert (Hne : c <> position_label hdr) by (intros ->; contradiction).
      change (columns left) with (position_label hdr :: hdr).
      change cols with (position_label hdr :: hdr).
      rewrite !column_cells_numbered by exact Hne.
      rewrite Forall_forall in Hkinds. apply Hkinds. exact Hc.
Qed.

(** With no key and one more row at the end of the second table, the row
    alignment reports that row and no other. *)
Lemma appended_row_reported :
  row_alignment book name1 name2 sheet index_col
                (frame_of_table (mkTable hdr body))
                (frame_of_table (mkTable hdr (body ++ [extra])))
  = reported book sheet (cols ++ ["Different"])
             [last_row ++ [VStr (name2 ++ " only")]].
Proof.
  destruct appended_well_formed as [W1 W2].
  assert (Hon : text_labels (on_keys index_col left right) = Some on).
  { unfold on_keys. rewrite Hfalsy. cbn [columns left right]. fold on.
    apply text_labels_YStr. }
  assert (HD : ~ In "Different" (merged_labels left right on)).
  { rewrite appended_labels. unfold cols. intros [H|H]; [|contradiction].
    apply (proj2 appended_position_label). assumption. }
  destruct (row_alignment_reported book name1 name2 sheet index_col _ _ left right _ on
              (reset_index_table hdr body Hpos)
              (reset_index_table hdr (body ++ [extra]) Hpos)
              Hon appended_merge W1 W2 HD) as (out & Hperm & ->).
  rewrite appended_unmatched_left, appended_unmatched_right in Hperm.
  cbn [map app] in Hperm. apply Permutation_sym, Permutation_length_1_inv in Hperm.
  subst out. rewrite appended_labels. do 2 f_equal.
  unfold right_reported. cbn [columns left right].
  rewrite (select_none _ _ appended_non_key). cbn [app].
  rewrite (map_ext_In _ (cell cols last_row)).
  - rewrite map_cell_id; [reflexivity | apply appended_cols_NoDup |].
    apply appended_row_length. apply in_or_app. right. left. reflexivity.
  - intros c Hc. rewrite (proj2 (mem_In c on) (proj2 (appended_on c) Hc)).
    reflexivity.
Qed.

End Appended.

Lemma reported_label_left (name : string) (right : DataFrame) (on : list string)
      (l : list value) :
  last (left_reported name right on l) NaN = VStr (name ++ " only").
Proof. unfold left_reported. rewrite app_assoc. apply last_last. Qed.

Lemma reported_label_right (name : string) (left right : DataFrame)
      (on : list string) (r : list value) :
  last (right_reported name left right on r) NaN = VStr (name ++ " only").
Proof. unfold right_reported. rewrite app_assoc. apply last_last. Qed.

(** C2, as stated, fails: without a key the position of a row is part of
    its join key, so one more row in front of the second table leaves no
    row matched; and with a key, one more row under a key that is already
    there is matched and not reported. *)
Lemma extra_row_counterexample :
  (same_shape (fillna (frame_of_table two_rows)) (fillna (frame_of_table row_in_front))
   = false /\
   compare_frames (T := Py.ascii_text) [] "v1" "v2" "S" Yaml.none
                  (frame_of_table two_rows) (frame_of_table row_in_front)
   = Ok (WroteDiff
           (mk_out_sheet "S_diff" ["index"; "a"; "Different"]
                         [[VNum 0; VNum 0; VStr "v2 only"];
                          [VNum 0; VNum 1; VStr "v1 only"];
                          [VNum 1; VNum 1; VStr "v2 only"];
                          [VNum 1; VNum 2; VStr "v1 only"];
                          [VNum 2; VNum 2; VStr "v2 only"]]))) /\
  compare_frames (T := Py.ascii_text) [] "v1" "v2" "S" (Yaml.YScalar (Yaml.YStr "id"))
                 (frame_of_table keyed_once) (frame_of_table keyed_twice)
  = Ok NoDifferencesShapeMismatch.
Proof. repeat split. Qed.

(** C2, amended.  For two tables that are not same-shape the row index is
    first put back among the columns (the key columns, or the position of
    the row when no key is configured); the tables are then joined on the
    key columns or, without a key, on the sorted column names common to
    both re-indexed tables, the position column among them.  When the
    merge succeeds on two rectangular tables and no merged column is named
    [Different], the rows whose join key occurs on both sides are dropped
    and every other row goes to the writer once, labelled with the name of
    its workbook followed by [only]; when no join key occurs on both
    sides, these are all rows of both tables.  When no key is configured
    and the second table is the first one with one more row at the end,
    the column names being distinct, not both [index] and [level_0] among
    them and none of them [_merge] or [Different], and the cells of the
    new row fitting the dtype of their columns, that row alone goes to the
    writer, labelled as of the second workbook.  The rows that go to the
    writer are written when they fit a sheet and the sheet name fits the
    writer. *)
Theorem row_alignment_engine {T : Py.Text} :
  forall (book : list out_sheet) (name1 name2 sheet : string)
         (index_col : Yaml.value),
    (forall df1r df2r,
        on_keys index_col df1r df2r
        = if Yaml.truthy index_col then labels_of index_col
          else map Yaml.YStr (Py.sorted (Py.set_and (columns df1r) (columns df2r)))) /\
    (forall hdr body,
        ~ In (position_label hdr) hdr ->
        exists dfr,
          reset_index (frame_of_table (mkTable hdr body)) = Ok dfr /\
          columns dfr = position_label hdr :: hdr /\
          data dfr = numbered body) /\
    (forall df1 df2 df1r df2r merged on,
        reset_index df1 = Ok df1r ->
        reset_index df2 = Ok df2r ->
        text_labels (on_keys index_col df1r df2r) = Some on ->
        merge df1r df2r (on_keys index_col df1r df2r) = Ok merged ->
        well_formed df1r -> well_formed df2r ->
        ~ In "Different" (merged_labels df1r df2r on) ->
        let unmatched :=
          map (left_reported name1 df2r on) (unmatched_left df1r df2r on)
              ++ map (right_reported name2 df1r df2r on)
                     (unmatched_right df1r df2r on) in
        exists out,
          Permutation out unmatched /\
          row_alignment book name1 name2 sheet index_col df1 df2
          = reported book sheet (merged_labels df1r df2r on ++ ["Different"]) out /\
          (forall row, In row out ->
                       last row NaN = VStr (name1 ++ " only") \/
                       last row NaN = VStr (name2 ++ " only")) /\
          ((forall l r, In l (data df1r) -> In r (data df2r) ->
                        key_match (columns df1r) (columns df2r) on l r = false) ->
           length out = length (rows df1) + length (rows df2))) /\
    (forall cols, reported book sheet cols [] = Ok NoDifferencesShapeMismatch) /\
    (forall cols out,
        out <> [] ->
        fits_sheet (length out) (length cols) ->
        name_free book (sheet ++ "_diff") ->
        reported book sheet cols out
        = Ok (WroteDiff (mk_out_sheet (sheet ++ "_diff") cols out))) /\
    (forall hdr body extra,
        Yaml.truthy index_col = false ->
        NoDup hdr ->
        Forall (fun r => length r = length hdr) body ->
        length extra = length hdr ->
        ~ In (position_label hdr) hdr ->
        ~ In "_merge" hdr ->
        ~ In "Different" hdr ->
        Forall (fun c => compatible (column_cells hdr c body)
                                    (column_cells hdr c (body ++ [extra])) = true)
               hdr ->
        row_alignment book name1 name2 sheet index_col
                      (frame_of_table (mkTable hdr body))
                      (frame_of_table (mkTable hdr (body ++ [extra])))
        = reported book sheet (position_label hdr :: hdr ++ ["Different"])
                   [VNum (Z.of_nat (length body)) :: extra
                         ++ [VStr (name2 ++ " only")]]).
Proof.
  intros book name1 name2 sheet index_col.
  split; [reflexivity|]. split; [|split; [|split; [|split]]].
  - intros hdr body Hp. eexists. split; [apply reset_index_table; exact Hp|].
    split; [reflexivity|]. unfold data. cbn [rows]. apply combine_snd.
    rewrite range_index_length, numbered_length. reflexivity.
  - intros df1 df2 df1r df2r merged on H1 H2 Hon Hm W1 W2 HD unmatched.
    destruct (row_alignment_reported book name1 name2 sheet index_col
                                     df1 df2 df1r df2r merged on
                                     H1 H2 Hon Hm W1 W2 HD) as (out & Hperm & Hrow).
    fold unmatched in Hperm.
    exists out. split; [exact Hperm|]. split; [exact Hrow|]. split.
    + intros row Hin. apply (Permutation_in _ Hperm) in Hin.
      unfold unmatched in Hin. apply in_app_or in Hin.
      destruct Hin as [Hin|Hin]; apply in_map_iff in Hin;
        destruct Hin as [x [<- _]].
      * left. apply reported_label_left.
      * right. apply reported_label_right.
    + intros Hno. rewrite (Permutation_length Hperm). unfold unmatched.
      destruct (unmatched_all df1r df2r on Hno) as [-> ->].
      rewrite length_app, !length_map.
      rewrite (reset_index_data df1 df1r H1), (reset_index_data df2 df2r H2).
      reflexivity.
  - reflexivity.
  - intros cols out. apply reported_written.
  - intros hdr body extra Hf Hnd Hb He Hp Hm Hd Hk.
    apply appended_row_reported; assumption.
Qed.

(** One more row at the end of an unkeyed table with the column [a]. *)
Lemma row_alignment_engine_witness :
  row_alignment (T := Py.ascii_text) [] "v1" "v2" "S" Yaml.none
                (frame_of_table two_rows) (frame_of_table row_at_end)
  = Ok (WroteDiff
          (mk_out_sheet "S_diff" ["index"; "a"; "Different"]
                        [[VNum 2; VNum 0; VStr "v2 only"]])).
Proof.
  eapply eq_trans;
    [apply (proj2 (proj2 (proj2 (proj2 (proj2
              (row_alignment_engine (T := Py.ascii_text) [] "v1" "v2" "S" Yaml.none)))))
              ["a"] [[VNum 1]; [VNum 2]] [VNum 0])
    | reflexivity].
  - reflexivity.
  - repeat constructor. simpl. tauto.
  - repeat constructor.
  - reflexivity.
  - simpl. intuition discriminate.
  - simpl. intuition discriminate.
  - simpl. intuition discriminate.
  - repeat constructor.
Defined.

(** * Further properties of the source *)

(** ** [_is_missing] *)

Lemma lstrip_cases (s : string) :
  (Py.lstrip s = "" /\ all_space s = true) \/
  (exists c t, Py.lstrip s = String c t /\ Py.isspace c = false /\ all_space s = false).
Proof.
  induction s as [|c s IH]; simpl.
  - left. split; reflexivity.
  - destruct (Py.isspace c) eqn:Hc; simpl.
    + exact IH.
    + right. exists c, s. repeat split. assumption.
Qed.

Lemma rstrip_keeps_head (c : ascii) (t : string) :
  Py.isspace c = false -> Py.rstrip (String c t) <> "".
Proof.
  intros Hc. simpl. destruct (Py.rstrip t); [rewrite Hc|]; discriminate.
Qed.

(** X1.  [_is_missing] holds of [None] and of no number or truth value;
    of a text that is ASCII it holds exactly when the text is made of
    whitespace only (the empty text among them). *)
Theorem is_missing_blank {T : Py.Text} :
  forall col : Yaml.scalar,
    (forall s, col = Yaml.YStr s -> Py.isascii s = true) ->
    (_is_missing col = true <->
     col = Yaml.YNull \/ exists s, col = Yaml.YStr s /\ all_space s = true).
Proof.
  intros col Hascii. destruct col as [|s|z|b]; simpl.
  - split; [left; reflexivity | reflexivity].
  - rewrite (Py.strip_ascii_text s (Hascii s eq_refl)). unfold Py.ascii_strip. split.
    + intros H. right. exists s. split; [reflexivity|].
      destruct (lstrip_cases s) as [[_ Ha]|(c & t & Hl & Hc & _)]; [exact Ha|].
      rewrite Hl in H. apply String.eqb_eq in H.
      exfalso. revert H. apply rstrip_keeps_head. exact Hc.
    + intros [H|(s' & Hs & Ha)]; [discriminate|]. inversion Hs; subst s'.
      destruct (lstrip_cases s) as [[Hl _]|(c & t & _ & _ & Hn)]; [|congruence].
      rewrite Hl. reflexivity.
  - split; [discriminate|]. intros [H|(s & H & _)]; discriminate.
  - split; [discriminate|]. intros [H|(s & H & _)]; discriminate.
Qed.

(** A text of two spaces. *)
Lemma is_missing_blank_witness :
  (forall s, Yaml.YStr "  " = Yaml.YStr s -> Py.isascii s = true) /\
  _is_missing (T := Py.ascii_text) (Yaml.YStr "  ") = true.
Proof.
  assert (H : forall s, Yaml.YStr "  " = Yaml.YStr s -> Py.isascii s = true)
    by (intros s Hs; inversion Hs; reflexivity).
  split; [exact H|].
  apply (proj2 (is_missing_blank (T := Py.ascii_text) (Yaml.YStr "  ") H)).
  right. exists "  ". split; reflexivity.
Defined.

(** ** The name of the output workbook *)

Lemma str_length_app (a b : string) :
  String.length (a ++ b) = String.length a + String.length b.
Proof. induction a as [|c a IH]; simpl; [reflexivity|]. rewrite IH. reflexivity. Qed.

Lemma all_digits_app (a b : string) :
  all_digits (a ++ b) = andb (all_digits a) (all_digits b).
Proof.
  induction a as [|c a IH]; simpl; [reflexivity|].
  rewrite IH, andb_assoc. reflexivity.
Qed.

Lemma two_digits_spec (n : nat) :
  n < 100 ->
  String.length (two_digits n) = 2 /\ all_digits (two_digits n) = true.
Proof.
  intros Hn.
  assert (Hall : forallb (fun k => andb (Nat.eqb (String.length (two_digits k)) 2)
                                        (all_digits (two_digits k)))
                         (seq 0 100) = true) by (vm_compute; reflexivity).
  rewrite forallb_forall in Hall.
  specialize (Hall n (proj2 (in_seq _ _ _) (conj (Nat.le_0_l n) Hn))).
  apply andb_true_iff in Hall. destruct Hall as [Hl Hd].
  apply Nat.eqb_eq in Hl. split; assumption.
Qed.

(** X2.  For every date the stamp in front of the output name has six
    characters, all of them digits (year, month and day are each written
    in two digits), and the output name is that stamp, the two labels and
    the fixed ending, joined by underscores. *)
Theorem outname_stamp :
  forall (today : date) (name1 name2 : string),
    month today <= 12 -> day today <= 31 ->
    String.length (yymmdd today) = 6 /\
    all_digits (yymmdd today) = true /\
    String.length (outname today name1 name2)
    = 28 + String.length name1 + String.length name2 /\
    String.prefix (yymmdd today ++ "_" ++ name1 ++ "_" ++ name2) (outname today name1 name2)
    = true.
Proof.
  intros today name1 name2 Hm Hd.
  destruct (two_digits_spec (year today mod 100)) as [L1 D1];
    [apply Nat.mod_upper_bound; discriminate|].
  destruct (two_digits_spec (month today)) as [L2 D2]; [lia|].
  destruct (two_digits_spec (day today)) as [L3 D3]; [lia|].
  assert (L : String.length (yymmdd today) = 6).
  { unfold yymmdd. rewrite !str_length_app, L1, L2, L3. reflexivity. }
  split; [exact L|]. split; [|split].
  - unfold yymmdd. rewrite !all_digits_app, D1, D2, D3. reflexivity.
  - unfold outname. rewrite !str_length_app, L. simpl. lia.
  - unfold outname.
    generalize (yymmdd today). intros s.
    induction s as [|c s IH]; simpl.
    + induction name1 as [|c n IH1]; simpl.
      * destruct (ascii_dec "_" "_"); [|congruence].
        induction name2 as [|c n IH2]; simpl; [reflexivity|].
        destruct (ascii_dec c c); [exact IH2 | congruence].
      * destruct (ascii_dec "_" "_"); [|congruence].
        simpl in IH1. destruct (ascii_dec "_" "_"); [|congruence].
        destruct (ascii_dec c c); [exact IH1 | congruence].
    + destruct (ascii_dec c c); [exact IH | congruence].
Qed.

(** The fourth of November 2026 with the labels [v1] and [v2]. *)
Lemma outname_stamp_witness :
  month (mk_date 2026 11 4) <= 12 /\
  String.length (yymmdd (mk_date 2026 11 4)) = 6.
Proof.
  split; [simpl; lia|].
  apply (outname_stamp (mk_date 2026 11 4) "v1" "v2"); simpl; lia.
Defined.

(** ** Configured names and key labels that are not texts *)

Lemma lower_uint (u : Decimal.uint) :
  Py.ascii_lower (NilEmpty.string_of_uint u) = NilEmpty.string_of_uint u.
Proof. induction u; simpl; try rewrite IHu; reflexivity. Qed.

Lemma isascii_uint (u : Decimal.uint) :
  Py.isascii (NilEmpty.string_of_uint u) = true.
Proof. induction u; simpl; try rewrite IHu; reflexivity. Qed.

(** The decimal text of an integer is ASCII and has no letter to lower. *)
Lemma str_int_plain (z : Z) :
  Py.isascii (Py.str_int z) = true /\ Py.ascii_lower (Py.str_int z) = Py.str_int z.
Proof.
  unfold Py.str_int, NilZero.string_of_int, NilZero.string_of_uint.
  destruct (Z.to_int z) as [u|u]; destruct u; simpl;
    rewrite ?lower_uint, ?isascii_uint; split; reflexivity.
Qed.

Lemma lower_str_int {T : Py.Text} (z : Z) : Py.lower (Py.str_int z) = Py.str_int z.
Proof.
  destruct (str_int_plain z) as [Ha Hl].
  rewrite (Py.lower_ascii_text _ Ha). exact Hl.
Qed.

(** X3.  A sheet name given as a number in the configuration is found for
    the sheet whose name is the decimal text of that number: the exact
    lookup cannot find it, the lower-cased map is keyed by [str(k)]. *)
Theorem numeric_name_resolves {T : Py.Text} :
  forall (data : Yaml.dict Yaml.scalar) (z : Z) (v : Yaml.value),
    In (Yaml.YInt z, v) data ->
    (forall k' v', In (k', v') data ->
                   Py.lower (Yaml.str k') = Py.str_int z -> v' = v) ->
    index_col_of (load_index_map (Some data)) (Py.str_int z) = v.
Proof.
  intros data z v Hin Huniq. unfold index_col_of, load_index_map, raw_map, lower_map.
  cbn [_raw _lower]. rewrite lower_str_int.
  assert (Hlow : Yaml.get (lowered data) (Py.str_int z) = v).
  { unfold lowered. apply lowered_unique with (k' := Yaml.YInt z).
    - exact Hin.
    - apply lower_str_int.
    - exact Huniq. }
  destruct (Yaml.is_none (Yaml.get_raw data (Py.str_int z))) eqn:Hn.
  - exact Hlow.
  - apply (Huniq (Yaml.YStr (Py.str_int z))).
    + apply get_raw_In. exact Hn.
    + apply lower_str_int.
Qed.

(** The configuration [2024: id]. *)
Lemma numeric_name_resolves_witness :
  In (Yaml.YInt 2024, Yaml.YScalar (Yaml.YStr "id"))
     [(Yaml.YInt 2024, Yaml.YScalar (Yaml.YStr "id"))] /\
  index_col_of (T := Py.ascii_text)
               (load_index_map (T := Py.ascii_text)
                               (Some [(Yaml.YInt 2024, Yaml.YScalar (Yaml.YStr "id"))]))
               "2024"
  = Yaml.YScalar (Yaml.YStr "id").
Proof.
  split; [left; reflexivity|].
  apply (numeric_name_resolves (T := Py.ascii_text)
           [(Yaml.YInt 2024, Yaml.YScalar (Yaml.YStr "id"))] 2024).
  - left. reflexivity.
  - intros k' v' [H|[]] _. inversion H. reflexivity.
Defined.

(** X4.  A configured key label that is not a text passes the test for
    missing columns when its text is a column of both tables, and is then
    no column for [set_index]: the KeyError is not caught and ends the
    run. *)
Theorem non_text_key_aborts {T : Py.Text} :
  forall (index_col : Yaml.value) (df1 df2 : DataFrame),
    Yaml.truthy index_col = true ->
    missing_cols index_col df1 df2 = [] ->
    text_labels (labels_of index_col) = None ->
    (forall book name1 name2 sheet,
        compare_frames book name1 name2 sheet index_col df1 df2 = Raise KeyError) /\
    (forall xls1 xls2 name1 name2 skiprows im sheet rest st t1 t2,
        read_excel xls1 sheet skiprows = Some t1 ->
        read_excel xls2 sheet skiprows = Some t2 ->
        index_col_of im sheet = index_col ->
        df1 = _drop_unnamed (frame_of_table t1) ->
        df2 = _drop_unnamed (frame_of_table t2) ->
        sheet_loop xls1 xls2 name1 name2 skiprows im (sheet :: rest) st
        = Raise KeyError).
Proof.
  intros index_col df1 df2 Ht Hm Hl.
  assert (Hc : forall book name1 name2 sheet,
             compare_frames book name1 name2 sheet index_col df1 df2 = Raise KeyError).
  { intros. unfold compare_frames, install_index. rewrite Ht, Hm.
    unfold set_index. rewrite Hl. reflexivity. }
  split; [exact Hc|].
  intros xls1 xls2 name1 name2 skiprows im sheet rest st t1 t2 H1 H2 Hi Hd1 Hd2.
  apply sheet_loop_raise. unfold process_sheet.
  rewrite H1, H2, Hi, <- Hd1, <- Hd2. apply Hc.
Qed.

(** The key [5], a number, on two tables with the column ["5"]. *)
Lemma non_text_key_aborts_witness :
  Yaml.truthy (Yaml.YScalar (Yaml.YInt 5)) = true /\
  compare_frames (T := Py.ascii_text) [] "v1" "v2" "S" (Yaml.YScalar (Yaml.YInt 5))
                 (frame_of_table (mkTable ["5"] [[VNum 1]]))
                 (frame_of_table (mkTable ["5"] [[VNum 2]]))
  = Raise KeyError.
Proof.
  split; [reflexivity|].
  apply (non_text_key_aborts (T := Py.ascii_text) (Yaml.YScalar (Yaml.YInt 5))
                             (frame_of_table (mkTable ["5"] [[VNum 1]]))
                             (frame_of_table (mkTable ["5"] [[VNum 2]]))
                             eq_refl eq_refl eq_refl).
Defined.

(** ** [_drop_unnamed] on a table with rows *)

Lemma cell_select (p : string -> bool) (cols : list string) (row : list value)
      (c : string) :
  p c = true -> length row = length cols ->
  cell (filter p cols) (select (map p cols) row) c = cell cols row c.
Proof.
  intros Hc. revert row. induction cols as [|k cols IH]; intros [|v row] Hl;
    try discriminate; [reflexivity|].
  injection Hl as Hl. cbn [map filter]. rewrite select_cons.
  destruct (p k) eqn:Hk.
  - simpl. destruct (String.eqb k c); [reflexivity | apply IH; exact Hl].
  - simpl. destruct (String.eqb_spec k c) as [->|_]; [congruence|].
    apply IH. exact Hl.
Qed.

Lemma Forall2_map_r {A B : Type} (R : A -> B -> Prop) (f : A -> B) (l : list A) :
  (forall x, In x l -> R x (f x)) -> Forall2 R l (map f l).
Proof.
  induction l as [|x l IH]; intros H; simpl; constructor.
  - apply H. left. reflexivity.
  - apply IH. intros y Hy. apply H. right. assumption.
Qed.

Lemma index_drop_unnamed (df : DataFrame) : index (_drop_unnamed df) = index df.
Proof.
  unfold _drop_unnamed. destruct (empty df); [reflexivity|].
  unfold index, loc_columns. cbn [rows]. rewrite map_map. reflexivity.
Qed.

(** X5.  On a table whose column labels are all texts and that has rows
    and columns, [_drop_unnamed] keeps the columns whose name does not
    start with [Unnamed], in their order, and nothing else changes: the
    index and the number of rows stay, every row still has one cell per
    column, and under each column that is kept every row holds the cell it
    held before. *)
Theorem drop_unnamed_keeps_named :
  forall df : DataFrame,
    empty df = false -> well_formed df ->
    let named := fun c => negb (Py.startswith c "Unnamed") in
    columns (_drop_unnamed df) = filter named (columns df) /\
    index_names (_drop_unnamed df) = index_names df /\
    index (_drop_unnamed df) = index df /\
    well_formed (_drop_unnamed df) /\
    Forall2 (fun r r' => forall c, named c = true ->
                                   cell (columns (_drop_unnamed df)) r' c
                                   = cell (columns df) r c)
            (data df) (data (_drop_unnamed df)).
Proof.
  intros df He W named.
  assert (Hm : map negb (str_contains_unnamed df) = map named (columns df)).
  { unfold str_contains_unnamed. rewrite map_map. reflexivity. }
  assert (Hd : _drop_unnamed df = loc_columns (map named (columns df)) df).
  { unfold _drop_unnamed. rewrite He, Hm. reflexivity. }
  assert (Hc : columns (_drop_unnamed df) = filter named (columns df)).
  { rewrite Hd. unfold loc_columns. cbn [columns]. apply select_map_filter. }
  unfold well_formed in *. rewrite Forall_forall in W.
  split; [exact Hc|]. split; [rewrite Hd; reflexivity|].
  split; [apply index_drop_unnamed|]. split.
  - rewrite Hc. rewrite Hd. unfold loc_columns. cbn [rows].
    apply Forall_forall. intros r' Hr'. apply in_map_iff in Hr'.
    destruct Hr' as [r [<- Hr]]. cbn [snd].
    rewrite <- (select_map_filter named (columns df)).
    apply select_length. apply W. exact Hr.
  - rewrite Hc. rewrite Hd. unfold data, loc_columns. cbn [rows].
    rewrite map_map. cbn [snd].
    rewrite <- (map_map snd (select (map named (columns df)))).
    apply Forall2_map_r. intros r Hr c Hn.
    apply cell_select; [exact Hn|].
    apply in_map_iff in Hr. destruct Hr as [x [<- Hx]]. apply W. exact Hx.
Qed.

(** A table with one placeholder column between two named ones. *)
Lemma drop_unnamed_keeps_named_witness :
  empty padded = false /\ columns (_drop_unnamed padded) = ["id"; "qty"].
Proof.
  split; [reflexivity|].
  apply (drop_unnamed_keeps_named padded eq_refl). repeat constructor.
Defined.

(** ** Which pairs of tables are compared cell by cell *)

Lemma index_frame_of_table (t : Table) :
  length (index (frame_of_table t)) = length (body t).
Proof.
  unfold index, frame_of_table. cbn [rows].
  rewrite length_map, length_combine, range_index_length. apply Nat.min_id.
Qed.

Lemma index_frame_of_table_eq (t : Table) :
  index (frame_of_table t) = range_index (length (body t)).
Proof.
  unfold index, frame_of_table. cbn [rows]. apply combine_fst.
  apply range_index_length.
Qed.

(** X6.  Without a key, two sheets pass the same-shape test exactly when,
    once the placeholder columns are gone, they have the same column names
    in the same order and the same number of rows; the cells play no part
    in the test. *)
Theorem unkeyed_same_shape {T : Py.Text} :
  forall t1 t2 : Table,
    let df1 := _drop_unnamed (frame_of_table t1) in
    let df2 := _drop_unnamed (frame_of_table t2) in
    (same_shape (fillna df1) (fillna df2) = true <->
     columns df1 = columns df2 /\ length (body t1) = length (body t2)) /\
    (forall book name1 name2 sheet index_col,
        Yaml.truthy index_col = false ->
        columns df1 = columns df2 -> length (body t1) = length (body t2) ->
        compare_frames book name1 name2 sheet index_col df1 df2
        = cell_diff book name1 name2 sheet (fillna df1) (fillna df2)) /\
    (forall book name1 name2 sheet index_col,
        Yaml.truthy index_col = false ->
        length (body t1) <> length (body t2) ->
        compare_frames book name1 name2 sheet index_col df1 df2
        = row_alignment book name1 name2 sheet index_col (fillna df1) (fillna df2)).
Proof.
  intros t1 t2 df1 df2.
  assert (Hiff : same_shape (fillna df1) (fillna df2) = true <->
                 columns df1 = columns df2 /\ length (body t1) = length (body t2)).
  { rewrite same_shape_eq, !index_fillna. unfold df1, df2.
    rewrite !index_drop_unnamed, !index_frame_of_table_eq. cbn [fillna columns].
    split; intros [Hc Hi]; (split; [exact Hc|]).
    - rewrite <- (range_index_length (length (body t1))), Hi.
      apply range_index_length.
    - rewrite Hi. reflexivity. }
  split; [exact Hiff|]. split.
  - intros book name1 name2 sheet index_col Hf Hc Hl.
    unfold compare_frames, install_index. rewrite Hf. cbn [bind].
    rewrite (proj2 Hiff (conj Hc Hl)). reflexivity.
  - intros book name1 name2 sheet index_col Hf Hl.
    unfold compare_frames, install_index. rewrite Hf. cbn [bind].
    assert (Hs : same_shape (fillna df1) (fillna df2) = false).
    { apply not_true_is_false. intros Hs. apply Hiff in Hs. tauto. }
    rewrite Hs. reflexivity.
Qed.

(** ** When the cell diff has nothing to report *)

Lemma pairs_equal_data {A B : Type} (l1 l2 : list (A * B)) :
  length l1 = length l2 ->
  ((forall p, In p (combine l1 l2) -> snd (fst p) = snd (snd p)) <->
   map snd l1 = map snd l2).
Proof.
  revert l2. induction l1 as [|x l1 IH]; intros [|y l2] Hl; try discriminate.
  - simpl. tauto.
  - injection Hl as Hl. specialize (IH l2 Hl). cbn [combine map]. split.
    + intros H. f_equal.
      * apply (H (x, y)). left. reflexivity.
      * apply IH. intros p Hp. apply H. right. assumption.
    + intros H p [<-|Hp]; [simpl; congruence|].
      injection H as _ H. apply IH; assumption.
Qed.

Lemma select_nil_mask {A : Type} (mask : list bool) (l : list A) :
  length mask = length l -> select mask l = [] ->
  Forall (fun b => b = false) mask.
Proof.
  revert l. induction mask as [|b mask IH]; intros [|x l] Hl Hs;
    try discriminate; constructor.
  - rewrite select_cons in Hs. destruct b; [discriminate | reflexivity].
  - rewrite select_cons in Hs. destruct b; [discriminate|].
    apply (IH l); [simpl in Hl; congruence | exact Hs].
Qed.

Lemma covered_by_false (m cm : list bool) :
  Forall2 (fun b c => b = true -> c = true) m cm ->
  Forall (fun b => b = false) cm ->
  existsb (fun b => b) m = false.
Proof.
  induction 1 as [|b c m cm Hbc _ IH]; intros Hf; [reflexivity|].
  inversion Hf; subst. simpl. rewrite IH by assumption.
  destruct b; [|reflexivity]. specialize (Hbc eq_refl). discriminate.
Qed.

(** X7.  For two well-formed tables that pass the same-shape test, the
    body ends with "no differences (same shape)" exactly when the two
    tables hold the same cells; with one differing cell it goes on to
    write a sheet. *)
Theorem no_differences_iff_equal {T : Py.Text} :
  forall (book : list out_sheet) (name1 name2 sheet : string) (df1 df2 : DataFrame),
    same_shape df1 df2 = true -> well_formed df1 -> well_formed df2 ->
    (cell_diff book name1 name2 sheet df1 df2 = Ok NoDifferencesSameShape <->
     data df1 = data df2).
Proof.
  intros book name1 name2 sheet df1 df2 Hs W1 W2.
  pose proof (compare_pairs name1 name2 df1 df2 Hs) as Hcmp. cbn zeta in Hcmp.
  pose proof (same_shape_length df1 df2 Hs) as Hlen.
  pose proof (proj1 (proj1 (same_shape_eq df1 df2) Hs)) as Hcols.
  set (P := combine (rows df1) (rows df2)) in *.
  set (cm := cmask (map row_mask P) (length (columns df1))) in *.
  assert (Hwf : forall p, In p P ->
                          length (snd (fst p)) = length (columns df1) /\
                          length (snd (snd p)) = length (columns df1)).
  { intros p Hp. apply well_formed_pairs with (df2 := df2); assumption. }
  assert (Hrow : forall p, In p P ->
             (existsb (fun b => b) (row_mask p) = false <->
              snd (fst p) = snd (snd p))).
  { intros p Hp. destruct (Hwf p Hp) as [L1 L2]. unfold row_mask.
    rewrite row_differs by congruence.
    rewrite negb_false_iff. apply (list_eqb_eq value_eqb value_eqb_eq). }
  assert (Hdata : (forall p, In p P -> existsb (fun b => b) (row_mask p) = false) <->
                  data df1 = data df2).
  { unfold data. rewrite <- (pairs_equal_data _ _ Hlen). fold P.
    split; intros H p Hp; apply Hrow; auto. }
  unfold cell_diff. rewrite Hcmp. cbn [bind].
  set (diff := mkFrame _ _ _).
  assert (Hempty : empty diff = true <->
                   forall p, In p P -> existsb (fun b => b) (row_mask p) = false).
  { split.
    - intros He p Hp. unfold empty, diff in He. cbn [columns rows] in He.
      destruct (flat_map _ (select cm (columns df1))) as [|c0 cs] eqn:Hc.
      + assert (Hsel : select cm (columns df1) = []).
        { destruct (select cm (columns df1)); [reflexivity | discriminate]. }
        assert (Hcm : Forall (fun b => b = false) cm).
        { apply (select_nil_mask cm (columns df1)); [|exact Hsel].
          unfold cm, cmask. rewrite length_map, length_seq. reflexivity. }
        destruct (Hwf p Hp) as [L1 L2].
        apply (covered_by_false (row_mask p) cm); [|exact Hcm].
        unfold cm, cmask.
        replace (length (columns df1)) with (length (row_mask p)).
        * change (Forall2 (fun b c : bool => b = true -> c = true) (row_mask p)
                          (map (fun j => existsb (fun r => nth j r false) (map row_mask P))
                               (seq (length (@nil bool)) (length (row_mask p))))).
          apply cmask_covers. simpl. apply in_map. assumption.
        * unfold row_mask. rewrite length_map, length_combine, L1, L2.
          apply Nat.min_id.
      + destruct (map _ (filter _ P)) eqn:Hr; [|discriminate].
        apply map_eq_nil in Hr.
        destruct (existsb (fun b => b) (row_mask p)) eqn:Hb; [|reflexivity].
        assert (Hin : In p (filter (fun p => existsb (fun b => b) (row_mask p)) P))
          by (apply filter_In; split; assumption).
        rewrite Hr in Hin. contradiction.
    - intros H. unfold empty, diff. cbn [columns rows].
      rewrite (filter_none _ P H). cbn [map].
      destruct (flat_map _ _); reflexivity. }
  rewrite <- Hdata, <- Hempty. split.
  - destruct (empty diff); [reflexivity|].
    destruct (reset_index_multi diff) as [d|]; cbn [bind]; [|discriminate].
    destruct (to_excel book _ _); cbn [bind]; discriminate.
  - intros ->. reflexivity.
Qed.

(** The scenario: the tables differ in one cell. *)
Lemma no_differences_iff_equal_witness :
  same_shape keyed_12 keyed_12_changed = true /\
  (cell_diff (T := Py.ascii_text) [] "v1" "v2" "Items" keyed_12 keyed_12_changed
   = Ok NoDifferencesSameShape <->
   data keyed_12 = data keyed_12_changed).
Proof.
  split; [reflexivity|].
  apply (no_differences_iff_equal (T := Py.ascii_text) [] "v1" "v2" "Items"
                                  keyed_12 keyed_12_changed eq_refl);
    repeat constructor.
Defined.

(** ** A workbook compared with itself *)

Lemma compare_frames_self {T : Py.Text} (book : list out_sheet)
      (name1 name2 sheet : string) (index_col : Yaml.value)
      (df : DataFrame) (o : outcome) :
  compare_frames book name1 name2 sheet index_col df df = Ok o ->
  o = NoDifferencesSameShape \/ exists missing, o = SkipMissingIndexCols missing.
Proof.
  unfold compare_frames, install_index.
  destruct (Yaml.truthy index_col).
  - destruct (missing_cols index_col df df) as [|m ms].
    + destruct (set_index index_col df) as [a|e]; cbn [bind]; [|discriminate].
      rewrite same_shape_refl, cell_diff_self. intros H. left. congruence.
    + cbn [bind]. intros H. right. exists (m :: ms). congruence.
  - cbn [bind]. rewrite same_shape_refl, cell_diff_self. intros H. left. congruence.
Qed.

Lemma Forall2_combine_In {A B : Type} (R : A -> B -> Prop) (l1 : list A) (l2 : list B) :
  Forall2 R l1 l2 -> forall a b, In (a, b) (combine l1 l2) -> R a b.
Proof.
  induction 1 as [|x y l1 l2 Hxy _ IH]; intros a b Hin; [contradiction|].
  destruct Hin as [Heq|Hin]; [inversion Heq; subst; exact Hxy | auto].
Qed.

Lemma Forall2_In_r {A B : Type} (R : A -> B -> Prop) (l1 : list A) (l2 : list B) :
  Forall2 R l1 l2 -> forall b, In b l2 -> exists a, In a l1 /\ R a b.
Proof.
  induction 1 as [|x y l1 l2 Hxy _ IH]; intros b Hin; [contradiction|].
  destruct Hin as [<-|Hin].
  - exists x. split; [left; reflexivity | exact Hxy].
  - destruct (IH b Hin) as [a [Ha Hr]]. exists a. split; [right|]; assumption.
Qed.

Lemma set_sub_self (a : list string) : Py.set_sub a a = [].
Proof.
  unfold Py.set_sub. apply filter_none. intros x Hx.
  apply negb_false_iff, mem_In. exact Hx.
Qed.

(** X8.  A run on twice the same workbook that ends normally writes no
    sheet and lists no unpaired sheet: every sheet ends with a read error,
    with the skip for missing key columns, or with "no differences (same
    shape)"; the row alignment is never reached. *)
Theorem self_comparison_writes_nothing {T : Py.Text} :
  forall (xls : ExcelFile) (name1 name2 : string) (skiprows : Z)
         (doc_prefix : option string) (im : index_map) (r : run),
    compare_excels xls xls name1 name2 skiprows doc_prefix im = Ok r ->
    written r = [] /\ only1 r = [] /\ only2 r = [] /\
    forall sheet o, In (sheet, o) (console r) ->
                    o = ReadError \/ o = NoDifferencesSameShape \/
                    exists missing, o = SkipMissingIndexCols missing.
Proof.
  intros xls name1 name2 skiprows doc_prefix im r Hr. unfold compare_excels in Hr.
  apply sheet_loop_log in Hr. cbn [only1 only2 console written app] in Hr.
  destruct Hr as (H1 & H2 & _ & os & Hl & Hf & Hc & Hw).
  assert (Hbody : forall book s o,
             process_sheet book xls xls name1 name2 skiprows im s = Ok o ->
             o = ReadError \/ o = NoDifferencesSameShape \/
             exists missing, o = SkipMissingIndexCols missing).
  { intros book s o. unfold process_sheet.
    destruct (read_excel xls s skiprows) as [t|].
    - intros H. right. eapply compare_frames_self. exact H.
    - intros H. left. congruence. }
  split; [|split; [|split]].
  - rewrite Hw. apply flat_map_nil. intros o Ho.
    destruct (Forall2_In_r _ _ _ Hf o Ho) as [s [_ [book Hs]]].
    destruct (Hbody book s o Hs) as [->|[->|[m ->]]]; reflexivity.
  - rewrite H1. unfold only1_sheets. rewrite set_sub_self. reflexivity.
  - rewrite H2. unfold only2_sheets. rewrite set_sub_self. reflexivity.
  - intros sheet o Hin. rewrite Hc in Hin.
    destruct (Forall2_combine_In _ _ _ Hf _ _ Hin) as [book Hb].
    apply (Hbody book sheet). exact Hb.
Qed.

(** The scenario workbook against itself. *)
Lemma self_comparison_writes_nothing_witness :
  exists r,
    compare_excels (T := Py.ascii_text)
                   (workbook [("Items", items_v1)]) (workbook [("Items", items_v1)])
                   "v1" "v2" 3 (Some "(DOC)") (items_key (T := Py.ascii_text)) = Ok r /\
    written r = [].
Proof.
  eexists. split; [reflexivity|].
  apply (self_comparison_writes_nothing (T := Py.ascii_text)
           (workbook [("Items", items_v1)]) "v1" "v2" 3 (Some "(DOC)")
           (items_key (T := Py.ascii_text)) _ eq_refl).
Defined.

(** ** The sheet lists do not depend on the order of the sheets *)

Lemma sorted_unique (l1 l2 : list string) :
  StronglySorted str_lt l1 -> StronglySorted str_lt l2 ->
  (forall x, In x l1 <-> In x l2) -> l1 = l2.
Proof.
  intros S1. revert l2. induction S1 as [|x l1 S1 IH A1]; intros l2 S2 Hin.
  - destruct l2 as [|y l2]; [reflexivity|].
    exfalso. apply (Hin y). left. reflexivity.
  - destruct S2 as [|y l2 S2 A2].
    + exfalso. apply (Hin x). left. reflexivity.
    + rewrite Forall_forall in A1, A2.
      assert (Hxy : x = y).
      { destruct (proj1 (Hin x) (or_introl eq_refl)) as [Hy|Hx]; [congruence|].
        destruct (proj2 (Hin y) (or_introl eq_refl)) as [Hy'|Hy']; [exact Hy'|].
        exfalso. apply (str_lt_irrefl x).
        eapply str_lt_trans; [apply A1; exact Hy' | apply A2; exact Hx]. }
      subst y. f_equal. apply IH; [exact S2|].
      intros z. split; intros Hz.
      * destruct (proj1 (Hin z) (or_intror Hz)) as [<-|H]; [|exact H].
        exfalso. apply (str_lt_irrefl x). apply A1. exact Hz.
      * destruct (proj2 (Hin z) (or_intror Hz)) as [<-|H]; [|exact H].
        exfalso. apply (str_lt_irrefl x). apply A2. exact Hz.
Qed.

Lemma sorted_same_elements (a b : list string) :
  (forall x, In x a <-> In x b) -> Py.sorted a = Py.sorted b.
Proof.
  intros H. apply sorted_unique; try apply sorted_sorted.
  intros x. rewrite !In_sorted. apply H.
Qed.

(** X9.  The three sheet lists depend only on which sheet names each
    workbook has, not on their order in the workbook; and exchanging the
    two workbooks leaves the list of sheets to compare as it is. *)
Theorem sheet_lists_canonical :
  forall (doc_prefix : option string) (n1 n2 n1' n2' : list string),
    (forall s, In s n1 <-> In s n1') ->
    (forall s, In s n2 <-> In s n2') ->
    common_sheets doc_prefix n1 n2 = common_sheets doc_prefix n1' n2' /\
    only1_sheets doc_prefix n1 n2 = only1_sheets doc_prefix n1' n2' /\
    only2_sheets doc_prefix n1 n2 = only2_sheets doc_prefix n1' n2' /\
    common_sheets doc_prefix n1 n2 = common_sheets doc_prefix n2 n1.
Proof.
  intros doc_prefix n1 n2 n1' n2' H1 H2.
  unfold common_sheets, only1_sheets, only2_sheets, Py.set_and, Py.set_sub.
  repeat split; apply sorted_same_elements; intros x;
    rewrite !filter_In, ?negb_true_iff, ?mem_In, ?mem_false, !In_filter_sheets,
      ?H1, ?H2; tauto.
Qed.

(** The same two sheets in either order. *)
Lemma sheet_lists_canonical_witness :
  (forall s, In s ["b"; "a"] <-> In s ["a"; "b"]) /\
  common_sheets None ["b"; "a"] ["a"; "c"] = common_sheets None ["a"; "b"] ["c"; "a"].
Proof.
  assert (H1 : forall s, In s ["b"; "a"] <-> In s ["a"; "b"]) by (simpl; tauto).
  assert (H2 : forall s, In s ["a"; "c"] <-> In s ["c"; "a"]) by (simpl; tauto).
  split; [exact H1|].
  apply (sheet_lists_canonical None ["b"; "a"] ["a"; "c"] ["a"; "b"] ["c"; "a"] H1 H2).
Defined.

(** ** The names of the written sheets *)

Lemma append_inj_suffix (s s' t t' : string) :
  String.length t = String.length t' ->
  (s ++ t)%string = (s' ++ t')%string -> s = s' /\ t = t'.
Proof.
  revert s'. induction s as [|c s IH]; intros [|c' s'] Hl H; simpl in H.
  - split; [reflexivity | exact H].
  - exfalso. rewrite H in Hl. simpl in Hl. rewrite str_length_app in Hl. lia.
  - exfalso. rewrite <- H in Hl. simpl in Hl. rewrite str_length_app in Hl. lia.
  - injection H as Hc H. destruct (IH s' Hl H) as [-> ->]. subst. split; reflexivity.
Qed.

Section WrittenNames.

Context {T : Py.Text}.
Variables (xls1 xls2 : ExcelFile) (name1 name2 : string).
Variables (skiprows : Z) (im : index_map).

Let body (book : list out_sheet) :=
  process_sheet book xls1 xls2 name1 name2 skiprows im.

Let from (ss : list string) (nm : string) : Prop :=
  exists s, In s ss /\ (nm = (s ++ "_same")%string \/ nm = (s ++ "_diff")%string).

Lemma written_names (ss : list string) (os : list outcome) :
  NoDup ss -> Forall2 (fun s o => exists book, body book s = Ok o) ss os ->
  NoDup (map out_name (flat_map written_by os)) /\
  forall nm, In nm (map out_name (flat_map written_by os)) -> from ss nm.
Proof.
  intros Hnd Hf. induction Hf as [|s o ss os Hb Hf IH]; [split; [constructor | contradiction]|].
  destruct Hb as [book Hb].
  inversion Hnd as [|? ? Hs Hnd']; subst. destruct (IH Hnd') as [IHn IHf].
  assert (Hhead : forall w, In w (written_by o) -> from (s :: ss) (out_name w)).
  { intros w Hw. exists s. split; [left; reflexivity|].
    eapply written_by_name; eassumption. }
  assert (Htail : forall nm, In nm (map out_name (flat_map written_by os)) ->
                             from (s :: ss) nm).
  { intros nm Hnm. destruct (IHf nm Hnm) as [s' [Hs' Hn]].
    exists s'. split; [right|]; assumption. }
  cbn [flat_map]. rewrite map_app. split.
  - destruct o; cbn [written_by map app]; try exact IHn.
    + constructor; [|exact IHn]. intros Hin.
      destruct (Hhead s0 (or_introl eq_refl)) as [a [_ Ha]].
      destruct (IHf _ Hin) as [s' [Hs' Hn]]. apply Hs.
      assert (Hsa : forall x, In x (written_by (WroteSame s0)) ->
                              out_name x = (s ++ "_same")%string \/
                              out_name x = (s ++ "_diff")%string)
        by (intros x Hx; eapply written_by_name; eassumption).
      specialize (Hsa s0 (or_introl eq_refl)).
      destruct Hsa as [E1|E1]; destruct Hn as [E2|E2]; rewrite E1 in E2;
        apply append_inj_suffix in E2; try reflexivity;
        destruct E2 as [E2 E3]; try discriminate E3; congruence.
    + constructor; [|exact IHn]. intros Hin.
      destruct (IHf _ Hin) as [s' [Hs' Hn]]. apply Hs.
      assert (Hsa : forall x, In x (written_by (WroteDiff s0)) ->
                              out_name x = (s ++ "_same")%string \/
                              out_name x = (s ++ "_diff")%string)
        by (intros x Hx; eapply written_by_name; eassumption).
      specialize (Hsa s0 (or_introl eq_refl)).
      destruct Hsa as [E1|E1]; destruct Hn as [E2|E2]; rewrite E1 in E2;
        apply append_inj_suffix in E2; try reflexivity;
        destruct E2 as [E2 E3]; try discriminate E3; congruence.
  - intros nm Hnm. apply in_app_or in Hnm. destruct Hnm as [Hnm|Hnm]; [|auto].
    apply in_map_iff in Hnm. destruct Hnm as [w [<- Hw]]. auto.
Qed.

End WrittenNames.

(** X10.  In a run that ends normally no two written sheets have the same
    name: each compared sheet writes at most one sheet, named after it
    with the ending [_same] or [_diff]. *)
Theorem written_names_distinct {T : Py.Text} :
  forall (xls1 xls2 : ExcelFile) (name1 name2 : string) (skiprows : Z)
         (doc_prefix : option string) (im : index_map) (r : run),
    compare_excels xls1 xls2 name1 name2 skiprows doc_prefix im = Ok r ->
    NoDup (map out_name (written r)) /\
    length (written r) <= length (console r).
Proof.
  intros xls1 xls2 name1 name2 skiprows doc_prefix im r Hr.
  unfold compare_excels in Hr. apply sheet_loop_log in Hr.
  cbn [only1 only2 console written app] in Hr.
  destruct Hr as (_ & _ & _ & os & Hl & Hf & Hc & Hw). split.
  - rewrite Hw.
    apply (written_names xls1 xls2 name1 name2 skiprows im
                         (common_sheets doc_prefix (sheet_names xls1) (sheet_names xls2))
                         os (sorted_NoDup _) Hf).
  - rewrite Hw, Hc, length_combine, <- Hl, Nat.min_id.
    clear. induction os as [|o os IH]; [reflexivity|].
    cbn [flat_map]. rewrite length_app. destruct o; simpl; lia.
Qed.

(** The scenario: one sheet compared, one sheet written. *)
Lemma written_names_distinct_witness :
  exists r,
    compare_excels (T := Py.ascii_text)
                   (workbook [("Items", items_v1)]) (workbook [("Items", items_v2)])
                   "v1" "v2" 3 (Some "(DOC)") (items_key (T := Py.ascii_text)) = Ok r /\
    NoDup (map out_name (written r)).
Proof.
  eexists. split; [reflexivity|].
  apply (written_names_distinct (T := Py.ascii_text)
           (workbook [("Items", items_v1)]) (workbook [("Items", items_v2)])
           "v1" "v2" 3 (Some "(DOC)") (items_key (T := Py.ascii_text)) _ eq_refl).
Defined.

(** ** The key as index and back among the columns *)

Lemma cell_map_self (f : string -> value) (ks : list string) (c : string) :
  In c ks -> cell ks (map f ks) c = f c.
Proof.
  induction ks as [|k ks IH]; intros Hin; [contradiction|]. simpl.
  destruct (String.eqb_spec k c) as [->|Hne]; [reflexivity|].
  destruct Hin as [Heq|Hin]; [congruence | auto].
Qed.

Lemma cell_app_l (ks rest : list string) (kv rv : list value) (c : string) :
  In c ks -> length kv = length ks ->
  cell (ks ++ rest) (kv ++ rv) c = cell ks kv c.
Proof.
  revert kv. induction ks as [|k ks IH]; intros [|v kv] Hin Hl;
    try discriminate; [contradiction|]. simpl.
  destruct (String.eqb_spec k c) as [->|Hne]; [reflexivity|].
  destruct Hin as [Heq|Hin]; [congruence|].
  apply IH; [exact Hin | simpl in Hl; congruence].
Qed.

Lemma cell_app_r (ks rest : list string) (kv rv : list value) (c : string) :
  ~ In c ks -> length kv = length ks ->
  cell (ks ++ rest) (kv ++ rv) c = cell rest rv c.
Proof.
  revert kv. induction ks as [|k ks IH]; intros [|v kv] Hn Hl;
    try discriminate; [reflexivity|]. simpl.
  destruct (String.eqb_spec k c) as [->|Hne].
  - exfalso. apply Hn. left. reflexivity.
  - apply IH; [|simpl in Hl; congruence]. intros H. apply Hn. right. exact H.
Qed.

(** X11.  When the key columns become the index (line 103), the missing
    values are replaced (line 107) and the index is put back among the
    columns (line 124), no cell is lost: the key columns come first, the
    other columns follow in their order, every row is still there, each
    key cell is the cell as it was read, and each other cell is the cell
    as it was read with a missing value replaced by the empty text. *)
Theorem key_round_trip :
  forall (index_col : Yaml.value) (df a : DataFrame),
    well_formed df ->
    NoDup (map Yaml.str (labels_of index_col)) ->
    set_index index_col df = Ok a ->
    let ks := map Yaml.str (labels_of index_col) in
    exists b,
      reset_index (fillna a) = Ok b /\
      columns b = ks ++ filter (fun c => negb (Py.mem c ks)) (columns df) /\
      length (rows b) = length (rows df) /\
      Forall2 (fun r rb =>
                 forall c,
                   (In c ks -> cell (columns b) rb c = cell (columns df) r c) /\
                   (~ In c ks ->
                    cell (columns b) rb c = cell (columns df) (map fill r) c))
              (data df) (data b).
Proof.
  intros index_col df a W Hnd Hs ks.
  unfold set_index in Hs.
  destruct (text_labels (labels_of index_col)) as [ks'|] eqn:Hk; [|discriminate].
  apply text_labels_str in Hk. fold ks in Hk. subst ks'.
  destruct (forallb _ ks); [|discriminate]. inversion Hs; subst a. clear Hs.
  set (p := fun c => negb (Py.mem c ks)).
  assert (Hsel : select (map p (columns df)) (columns df) = filter p (columns df))
    by apply select_map_filter.
  unfold reset_index, fillna. cbn [index_names columns rows default_index_names].
  fold p. rewrite Hsel.
  assert (Hok : andb (distinctb String.eqb ks)
                     (forallb (fun n => negb (Py.mem n (filter p (columns df)))) ks)
                = true).
  { rewrite (distinctb_NoDup ks Hnd). apply forallb_forall. intros n Hn.
    apply negb_true_iff, mem_false. intros Hin. apply filter_In in Hin.
    destruct Hin as [_ Hp]. unfold p in Hp. apply negb_true_iff, mem_false in Hp.
    contradiction. }
  rewrite Hok. eexists. split; [reflexivity|]. cbn [columns rows].
  split; [reflexivity|]. split.
  - rewrite length_combine, range_index_length, !length_map. apply Nat.min_id.
  - unfold data. cbn [rows]. rewrite combine_snd
      by (rewrite range_index_length, !length_map; reflexivity).
    rewrite !map_map. cbn [fst snd].
    rewrite <- (map_map snd (fun r => map (cell (columns df) r) ks
                                          ++ map fill (select (map p (columns df)) r))).
    apply Forall2_map_r. intros r Hr c.
    assert (Hl : length r = length (columns df)).
    { apply in_map_iff in Hr. destruct Hr as [x [<- Hx]].
      unfold well_formed in W. rewrite Forall_forall in W. apply W. exact Hx. }
    split; intros Hc.
    + rewrite cell_app_l; [apply cell_map_self; exact Hc | exact Hc |].
      apply length_map.
    + rewrite cell_app_r; [| exact Hc | apply length_map].
      rewrite <- select_map. apply cell_select.
      * unfold p. apply negb_true_iff, mem_false. exact Hc.
      * rewrite length_map. exact Hl.
Qed.

(** The first table of the scenario and its key [id]. *)
Lemma key_round_trip_witness :
  exists a b,
    set_index (Yaml.YScalar (Yaml.YStr "id")) (frame_of_table items_v1) = Ok a /\
    reset_index (fillna a) = Ok b /\
    columns b = ["id"; "qty"].
Proof.
  eexists.
  destruct (key_round_trip (Yaml.YScalar (Yaml.YStr "id")) (frame_of_table items_v1) _
                           ltac:(repeat constructor)
                           ltac:(repeat constructor; simpl; tauto)
                           eq_refl)
    as (b & Hb & Hc & _).
  exists b. split; [reflexivity|]. split; [exact Hb | exact Hc].
Defined.

(** ** What the row alignment leaves out, and the shape of what it writes *)

(** X12.  The row alignment looks at the join keys only.  When every join
    key of either table is a join key of the other, the body ends with "no
    differences (shape mismatch)", whatever the other cells hold: with a
    key configured, a changed cell in a table whose rows were also
    reordered goes unreported. *)
Theorem alignment_ignores_other_cells {T : Py.Text} :
  forall (book : list out_sheet) (name1 name2 sheet : string)
         (index_col : Yaml.value)
         (df1 df2 df1r df2r merged : DataFrame) (on : list string),
    reset_index df1 = Ok df1r ->
    reset_index df2 = Ok df2r ->
    text_labels (on_keys index_col df1r df2r) = Some on ->
    merge df1r df2r (on_keys index_col df1r df2r) = Ok merged ->
    well_formed df1r -> well_formed df2r ->
    ~ In "Different" (merged_labels df1r df2r on) ->
    (forall l, In l (data df1r) ->
               exists r, In r (data df2r) /\
                         key_of (columns df1r) on l = key_of (columns df2r) on r) ->
    (forall r, In r (data df2r) ->
               exists l, In l (data df1r) /\
                         key_of (columns df1r) on l = key_of (columns df2r) on r) ->
    row_alignment book name1 name2 sheet index_col df1 df2
    = Ok NoDifferencesShapeMismatch.
Proof.
  intros book name1 name2 sheet index_col df1 df2 df1r df2r merged on
         H1 H2 Hon Hm W1 W2 HD HL HR.
  destruct (row_alignment_reported book name1 name2 sheet index_col df1 df2 df1r df2r
                                   merged on H1 H2 Hon Hm W1 W2 HD)
    as (out & Hperm & ->).
  assert (Hkm : forall l r, key_of (columns df1r) on l = key_of (columns df2r) on r ->
                            key_match (columns df1r) (columns df2r) on l r = true).
  { intros l r H. unfold key_match. rewrite H.
    apply (list_eqb_eq value_eqb value_eqb_eq). reflexivity. }
  assert (UL : unmatched_left df1r df2r on = []).
  { unfold unmatched_left. apply filter_none. intros l Hl.
    apply negb_false_iff, existsb_exists.
    destruct (HL l Hl) as [r [Hr Hk]]. exists r. split; [exact Hr | apply Hkm; exact Hk]. }
  assert (UR : unmatched_right df1r df2r on = []).
  { unfold unmatched_right. apply filter_none. intros r Hr.
    apply negb_false_iff, existsb_exists.
    destruct (HR r Hr) as [l [Hl Hk]]. exists l. split; [exact Hl | apply Hkm; exact Hk]. }
  rewrite UL, UR in Hperm. cbn [map app] in Hperm.
  apply Permutation_sym, Permutation_nil in Hperm. subst out. reflexivity.
Qed.

(** The same two keys in another order, and another quantity under key 1. *)
Lemma alignment_ignores_other_cells_witness :
  same_shape keyed_12 keyed_21_changed = false /\
  row_alignment (T := Py.ascii_text) [] "v1" "v2" "Items" (Yaml.YScalar (Yaml.YStr "id"))
                keyed_12 keyed_21_changed
  = Ok NoDifferencesShapeMismatch.
Proof.
  split; [reflexivity|].
  eapply (alignment_ignores_other_cells (T := Py.ascii_text)
            [] "v1" "v2" "Items" (Yaml.YScalar (Yaml.YStr "id")) keyed_12 keyed_21_changed).
  - reflexivity.
  - reflexivity.
  - reflexivity.
  - reflexivity.
  - repeat constructor.
  - repeat constructor.
  - simpl. intuition discriminate.
  - intros l [<-|[<-|[]]].
    + exists [VNum 1; VNum 9]. split; [right; left; reflexivity | reflexivity].
    + exists [VNum 2; VNum 3]. split; [left; reflexivity | reflexivity].
  - intros r [<-|[<-|[]]].
    + exists [VNum 2; VNum 3]. split; [right; left; reflexivity | reflexivity].
    + exists [VNum 1; VNum 5]. split; [left; reflexivity | reflexivity].
Defined.

(** [df[c] = ...] on one row: the row has one cell per column afterwards,
    and the cell under [c] is the new one, whether [c] was a column
    before or not. *)
Lemma set_cell_spec (cols : list string) (row : list value) (c : string) (v : value) :
  length row = length cols ->
  let cols' := if Py.mem c cols then cols else cols ++ [c] in
  length (set_cell cols row c v) = length cols' /\
  cell cols' (set_cell cols row c v) c = v.
Proof.
  revert row. induction cols as [|k cols IH]; intros [|x row] Hl; try discriminate.
  - cbn. rewrite String.eqb_refl. split; reflexivity.
  - injection Hl as Hl. specialize (IH row Hl). cbn zeta in IH.
    cbn [set_cell]. unfold Py.mem in *. cbn [existsb]. rewrite (String.eqb_sym c k).
    destruct (String.eqb_spec k c) as [->|Hne]; cbn [orb].
    + cbn [length cell]. rewrite String.eqb_refl. split; [congruence | reflexivity].
    + destruct IH as [IH1 IH2].
      destruct (existsb (String.eqb c) cols); cbn [length cell app];
        rewrite (proj2 (String.eqb_neq k c) Hne); split; congruence.
Qed.

Lemma filter_no_merge (labels : list string) :
  ~ In "_merge" labels ->
  filter (fun k => negb (String.eqb k "_merge")) labels = labels.
Proof.
  intros H. apply forallb_filter_id, forallb_forall. intros k Hk.
  apply negb_true_iff, String.eqb_neq. intros ->. contradiction.
Qed.

(** X13.  A sheet written by the row alignment is named after the
    compared sheet with the ending [_diff] and has at least one row and at
    most as many rows as the two tables together.  [Different] is one of
    its columns: the last one when no merged column has that name, else
    the merged column of that name, written over.  Every row has one cell
    per column, and its cell under [Different] is one of the two labels. *)
Theorem alignment_sheet_shape {T : Py.Text} :
  forall (book : list out_sheet) (name1 name2 sheet : string)
         (index_col : Yaml.value)
         (df1 df2 df1r df2r merged : DataFrame) (on : list string) (w : out_sheet),
    reset_index df1 = Ok df1r ->
    reset_index df2 = Ok df2r ->
    text_labels (on_keys index_col df1r df2r) = Some on ->
    merge df1r df2r (on_keys index_col df1r df2r) = Ok merged ->
    well_formed df1r -> well_formed df2r ->
    row_alignment book name1 name2 sheet index_col df1 df2 = Ok (WroteDiff w) ->
    let mcols := merged_labels df1r df2r on in
    out_name w = (sheet ++ "_diff")%string /\
    out_columns w = (if Py.mem "Different" mcols then mcols else mcols ++ ["Different"]) /\
    out_rows w <> [] /\
    length (out_rows w) <= length (rows df1) + length (rows df2) /\
    Forall (fun row =>
              length row = length (out_columns w) /\
              (cell (out_columns w) row "Different" = VStr (name1 ++ " only") \/
               cell (out_columns w) row "Different" = VStr (name2 ++ " only")))
           (out_rows w).
Proof.
  intros book name1 name2 sheet index_col df1 df2 df1r df2r merged on w
         H1 H2 Hon Hm W1 W2 Hw mcols.
  unfold row_alignment in Hw. rewrite H1, H2 in Hw. cbn [bind] in Hw.
  rewrite Hm in Hw.
  apply merge_inv in Hm. destruct Hm as (on' & Hon' & N1 & N2 & ->).
  rewrite Hon in Hon'. inversion Hon'; subst on'. clear Hon'. cbn zeta in Hw.
  fold mcols in Hw.
  set (mrows := merge_rows (columns df1r) (columns df2r) on (data df1r) (data df2r)) in *.
  set (cols := mcols ++ ["_merge"]) in *.
  set (keep := fun row : list value =>
                 negb (value_eqb (cell cols row "_merge") (VStr "both"))).
  pose proof (merged_labels_no_merge df1r df2r on N1 N2) as NM. fold mcols in NM.
  unfold report_unmatched, rows_where_ne in Hw. cbn [columns rows index_names] in Hw.
  set (kept := filter _ (combine (range_index (length mrows)) mrows)) in Hw.
  assert (Hdata : map snd kept = filter keep mrows).
  { unfold kept. apply (data_filter_combine keep). apply range_index_length. }
  destruct (empty (mkFrame None cols kept)) eqn:He; [discriminate|].
  destruct (to_excel book _ _) as [w'|] eqn:Hx; [|discriminate].
  cbn [bind] in Hw. inversion Hw; subst w'. clear Hw.
  apply to_excel_sheet in Hx. subst w. cbn [out_name out_columns out_rows].
  set (cols' := if Py.mem "Different" cols then cols else cols ++ ["Different"]).
  set (p := fun k => negb (String.eqb k "_merge")).
  assert (Hmem : Py.mem "Different" cols = Py.mem "Different" mcols).
  { unfold cols, Py.mem. rewrite existsb_app. cbn [existsb].
    change (String.eqb "Different" "_merge") with false. rewrite !orb_false_r.
    reflexivity. }
  assert (Hcols : columns (drop_column "_merge"
                             (assign_mapped "Different" "_merge" (different name1 name2)
                                            (mkFrame None cols kept)))
                  = if Py.mem "Different" mcols then mcols else mcols ++ ["Different"]).
  { unfold drop_column, assign_mapped, loc_columns. cbn [columns rows index_names].
    fold cols'. fold p. rewrite select_map_filter. unfold cols', p. rewrite Hmem.
    unfold cols. destruct (Py.mem "Different" mcols).
    - rewrite filter_app, (filter_no_merge mcols NM). cbn. apply app_nil_r.
    - rewrite !filter_app, (filter_no_merge mcols NM). cbn. rewrite app_nil_r.
      reflexivity. }
  assert (Hfilt : filter p cols'
                  = if Py.mem "Different" mcols then mcols else mcols ++ ["Different"]).
  { rewrite <- Hcols. unfold drop_column, assign_mapped, loc_columns.
    cbn [columns rows index_names]. fold cols'. fold p.
    symmetry. apply select_map_filter. }
  assert (Hrows : data (drop_column "_merge"
                          (assign_mapped "Different" "_merge" (different name1 name2)
                                         (mkFrame None cols kept)))
                  = map (fun row => select (map p cols')
                                           (set_cell cols row "Different"
                                                     (different name1 name2
                                                                (cell cols row "_merge"))))
                        (filter keep mrows)).
  { unfold drop_column, assign_mapped, loc_columns, data.
    cbn [columns rows index_names]. fold cols'. fold p.
    rewrite <- Hdata, !map_map. apply map_ext. intros [k row]. reflexivity. }
  rewrite Hcols, Hrows.
  assert (Hperm := merge_rows_unmatched df1r df2r on W1 W2 N1 N2).
  cbn zeta in Hperm. fold mcols in Hperm. fold cols in Hperm. fold mrows in Hperm.
  change (Permutation (filter keep mrows)
            (map (left_only_row (length (select (non_key df2r on) (columns df2r))))
                 (unmatched_left df1r df2r on)
             ++ map (right_only_row (columns df1r) (columns df2r) on (non_key df2r on))
                    (unmatched_right df1r df2r on))) in Hperm.
  split; [reflexivity|]. split; [reflexivity|]. split; [|split].
  - intros Hnil. apply map_eq_nil in Hnil.
    unfold empty in He. cbn [columns rows] in He.
    destruct cols eqn:Hc; [unfold cols in Hc; destruct mcols; discriminate|].
    destruct kept; [discriminate|]. rewrite <- Hdata in Hnil. discriminate.
  - rewrite length_map, (Permutation_length Hperm), length_app, !length_map.
    rewrite <- (reset_index_data df1 df1r H1), <- (reset_index_data df2 df2r H2).
    unfold unmatched_left, unmatched_right.
    pose proof (filter_length_le
                  (fun l => negb (existsb (key_match (columns df1r) (columns df2r) on l)
                                          (data df2r))) (data df1r)).
    pose proof (filter_length_le
                  (fun r => negb (existsb (fun l => key_match (columns df1r) (columns df2r) on l r)
                                          (data df1r))) (data df2r)).
    lia.
  - apply Forall_forall. intros fr Hfr. apply in_map_iff in Hfr.
    destruct Hfr as [row [<- Hrow]]. rewrite <- Hfilt.
    assert (Hlab : length row = length cols /\
                   (cell cols row "_merge" = VStr "left_only" \/
                    cell cols row "_merge" = VStr "right_only")).
    { apply (Permutation_in _ Hperm) in Hrow. apply in_app_or in Hrow.
      destruct Hrow as [Hrow|Hrow]; apply in_map_iff in Hrow;
        destruct Hrow as [x [<- Hx]]; apply filter_In in Hx; destruct Hx as [Hx _].
      - split; [|left; apply (indicator_left_only df1r df2r on W1 N1 N2); exact Hx].
        unfold left_only_row, cols. rewrite !length_app, repeat_length.
        unfold mcols. rewrite (merged_labels_length df1r df2r on).
        rewrite (left_row_length df1r W1 x Hx). cbn [length]. lia.
      - split; [|right; apply (indicator_right_only df1r df2r on W2 N1 N2); exact Hx].
        unfold right_only_row, cols. rewrite !length_app, length_map.
        unfold mcols. rewrite (merged_labels_length df1r df2r on).
        rewrite (select_length (non_key df2r on) x (columns df2r)
                               (right_row_length df2r W2 x Hx)).
        cbn [length]. lia. }
    destruct Hlab as [Hlen Hind].
    destruct (set_cell_spec cols row "Different"
                            (different name1 name2 (cell cols row "_merge")) Hlen)
      as [Hl Hc]. fold cols' in Hl, Hc.
    split.
    + rewrite <- (select_map_filter p cols'). apply select_length. exact Hl.
    + rewrite (cell_select p cols' _ "Different" eq_refl Hl), Hc.
      destruct Hind as [-> | ->]; [left | right]; reflexivity.
Qed.

(** One more row at the end of an unkeyed table with the column [a]. *)
Lemma alignment_sheet_shape_witness :
  exists w,
    row_alignment (T := Py.ascii_text) [] "v1" "v2" "S" Yaml.none
                  (frame_of_table two_rows) (frame_of_table row_at_end)
    = Ok (WroteDiff w) /\
    out_name w = "S_diff".
Proof.
  eexists. split; [reflexivity|].
  refine (proj1 (alignment_sheet_shape (T := Py.ascii_text)
                   [] "v1" "v2" "S" Yaml.none
                   (frame_of_table two_rows) (frame_of_table row_at_end)
                   _ _ _ _ _ eq_refl eq_refl eq_refl eq_refl _ _ eq_refl)).
  - repeat constructor.
  - repeat constructor.
Defined.

(** ** The sheet the cell diff writes *)

Lemma mem_first_level (x name1 name2 : string) (l : list string) :
  Py.mem x (map fst (flat_map (fun c => [(c, name1); (c, name2)]) l)) = Py.mem x l.
Proof.
  unfold Py.mem. induction l as [|c l IH]; simpl; [reflexivity|].
  rewrite IH. destruct (String.eqb x c); reflexivity.
Qed.

Lemma flatten_pairs (name1 name2 : string) (l : list string) :
  map flatten_label (flat_map (fun c => [(c, name1); (c, name2)]) l)
  = flat_map (fun c => [flatten_label (c, name1); flatten_label (c, name2)]) l.
Proof. induction l as [|c l IH]; simpl; [reflexivity|]. rewrite IH. reflexivity. Qed.

Lemma flatten_label_both (c n : string) :
  c <> "" -> n <> "" -> flatten_label (c, n) = (c ++ "_" ++ n)%string.
Proof.
  intros Hc Hn. unfold flatten_label, Py.join. cbn [fst snd filter].
  destruct c; [congruence|]. destruct n; [congruence|]. reflexivity.
Qed.

Lemma flatten_label_single (c : string) : c <> "" -> flatten_label (c, "") = c.
Proof.
  intros Hc. unfold flatten_label, Py.join. cbn [fst snd filter].
  destruct c; [congruence|]. reflexivity.
Qed.

(** X14.  A sheet written by the cell diff of two rectangular tables is
    named after the compared sheet with the ending [_same] and has at
    least one row and at most as many rows as the table.  Its header is
    the names of the index levels (the key columns, or [index] for the
    default index) followed, for each column in which some row differs and
    for no other column, by the two columns named after that column and
    the label of either workbook, joined by an underscore. *)
Theorem cell_diff_sheet_layout {T : Py.Text} :
  forall (book : list out_sheet) (name1 name2 sheet : string)
         (df1 df2 : DataFrame) (w : out_sheet),
    same_shape df1 df2 = true -> well_formed df1 -> well_formed df2 ->
    cell_diff book name1 name2 sheet df1 df2 = Ok (WroteSame w) ->
    let changed := changed_columns df1 df2 in
    (changed <> [] /\
     out_columns w
     = map (fun n => flatten_label (n, ""))
           (default_index_names (index_names df1) changed)
           ++ flat_map (fun c => [flatten_label (c, name1); flatten_label (c, name2)])
                       changed) /\
    out_name w = (sheet ++ "_same")%string /\
    out_rows w <> [] /\
    length (out_rows w) <= length (rows df1) /\
    (forall c n, c <> "" -> n <> "" -> flatten_label (c, n) = (c ++ "_" ++ n)%string) /\
    (forall c, c <> "" -> flatten_label (c, "") = c).
Proof.
  intros book name1 name2 sheet df1 df2 w Hs W1 W2 Hw.
  pose proof (compare_pairs name1 name2 df1 df2 Hs) as Hcmp. cbn zeta in Hcmp.
  pose proof (proj1 (proj1 (same_shape_eq df1 df2) Hs)) as Hsame.
  rewrite (cmask_differs df1 df2 W1 W2 Hsame) in Hcmp.
  fold (changed_columns df1 df2) in Hcmp.
  set (P := combine (rows df1) (rows df2)) in *.
  set (changed := changed_columns df1 df2) in *.
  unfold cell_diff in Hw. rewrite Hcmp in Hw. cbn [bind] in Hw.
  set (diff := mkFrame _ _ _) in Hw.
  destruct (empty diff) eqn:He; [discriminate|].
  unfold reset_index_multi in Hw. destruct (andb _ _); [|discriminate].
  cbn [bind] in Hw.
  destruct (to_excel book _ _) as [w'|] eqn:Hx; [|discriminate].
  cbn [bind] in Hw. inversion Hw; subst w'. clear Hw.
  apply to_excel_sheet in Hx. subst w.
  unfold data. cbn [out_name out_columns out_rows index_names columns rows].
  assert (Hnames : default_index_names (index_names diff) (map fst (columns diff))
                   = default_index_names (index_names df1) changed).
  { unfold diff. cbn [index_names columns]. unfold default_index_names.
    destruct (index_names df1); [reflexivity|]. rewrite mem_first_level. reflexivity. }
  assert (Hrows : rows diff <> []).
  { unfold empty in He. destruct (columns diff); [discriminate|].
    destruct (rows diff); [discriminate | discriminate]. }
  assert (Hcols : changed <> []).
  { unfold empty in He. unfold diff in He. cbn [columns] in He.
    intros Hc. rewrite Hc in He. discriminate. }
  split; [|split; [reflexivity|split; [|split; [|split]]]].
  - split; [exact Hcols|].
    rewrite map_app, Hnames, map_map. unfold diff. cbn [columns].
    rewrite flatten_pairs. reflexivity.
  - rewrite combine_snd by (rewrite range_index_length, !length_map; reflexivity).
    intros H. apply map_eq_nil in H. contradiction.
  - rewrite combine_snd by (rewrite range_index_length, !length_map; reflexivity).
    rewrite !length_map.
    pose proof (filter_length_le (fun p => existsb (fun b => b) (row_mask p)) P) as Hf.
    assert (HP : length P <= length (rows df1)).
    { unfold P. rewrite length_combine. apply Nat.le_min_l. }
    unfold diff. cbn [rows]. rewrite length_map. lia.
  - apply flatten_label_both.
  - apply flatten_label_single.
Qed.

(** The scenario, once the key [id] is the index. *)
Lemma cell_diff_sheet_layout_witness :
  exists w,
    cell_diff (T := Py.ascii_text) [] "v1" "v2" "Items" keyed_12 keyed_12_changed
    = Ok (WroteSame w) /\
    out_name w = "Items_same".
Proof.
  eexists. split; [reflexivity|].
  refine (proj1 (proj2 (cell_diff_sheet_layout (T := Py.ascii_text)
                          [] "v1" "v2" "Items" keyed_12 keyed_12_changed _
                          eq_refl _ _ eq_refl))); repeat constructor.
Defined.

(** ** The lower-cased map of [load_index_map] *)

Lemma lower_ascii_idem (c : ascii) :
  Py.lower_ascii (Py.lower_ascii c) = Py.lower_ascii c.
Proof. destruct c as [[] [] [] [] [] [] [] []]; reflexivity. Qed.

Lemma lower_idem (s : string) : Py.ascii_lower (Py.ascii_lower s) = Py.ascii_lower s.
Proof.
  induction s as [|c s IH]; simpl; [reflexivity|].
  rewrite lower_ascii_idem, IH. reflexivity.
Qed.

Lemma set_length (d : Yaml.dict string) (k : string) (v : Yaml.value) :
  length (Yaml.set d k v) <= S (length d).
Proof.
  induction d as [|[k0 v0] d IH]; simpl; [lia|].
  destruct (String.eqb k0 k); simpl; lia.
Qed.

Lemma lowered_length {T : Py.Text} (data : Yaml.dict Yaml.scalar) :
  length (lowered data) <= length data.
Proof.
  unfold lowered.
  assert (H : forall acc,
             length (fold_left (fun acc kv =>
                                  Yaml.set acc (Py.lower (Yaml.str (fst kv))) (snd kv))
                               data acc)
             <= length acc + length data).
  { induction data as [|kv data IH]; intros acc; cbn [fold_left length]; [lia|].
    specialize (IH (Yaml.set acc (Py.lower (Yaml.str (fst kv))) (snd kv))).
    pose proof (set_length acc (Py.lower (Yaml.str (fst kv))) (snd kv)). lia. }
  apply (H []).
Qed.

Lemma set_keys (d : Yaml.dict string) (k : string) (v : Yaml.value) :
  map fst (Yaml.set d k v)
  = if Py.mem k (map fst d) then map fst d else map fst d ++ [k].
Proof.
  unfold Py.mem. induction d as [|[k0 v0] d IH]; simpl; [reflexivity|].
  rewrite (String.eqb_sym k k0).
  destruct (String.eqb k0 k); simpl; [reflexivity|].
  rewrite IH. destruct (existsb (String.eqb k) (map fst d)); reflexivity.
Qed.

Lemma get_absent (d : Yaml.dict string) (k : string) :
  ~ In k (map fst d) -> Yaml.get d k = Yaml.none.
Proof.
  induction d as [|[k0 v0] d IH]; simpl; intros H; [reflexivity|].
  destruct (String.eqb_spec k0 k) as [->|_]; [exfalso; auto | auto].
Qed.

Lemma lowered_keys {T : Py.Text} (data : Yaml.dict Yaml.scalar)
      (acc : Yaml.dict string) :
  NoDup (map fst acc) ->
  let d := fold_left (fun acc kv => Yaml.set acc (Py.lower (Yaml.str (fst kv))) (snd kv))
                     data acc in
  NoDup (map fst d) /\
  forall k', In k' (map fst d) <->
             In k' (map fst acc) \/
             exists k v, In (k, v) data /\ k' = Py.lower (Yaml.str k).
Proof.
  revert acc. induction data as [|[k0 v0] data IH]; intros acc Hnd; cbn [fold_left].
  - split; [exact Hnd|]. intros k'. split; [auto|].
    intros [H|(k & v & [] & _)]. exact H.
  - set (acc' := Yaml.set acc (Py.lower (Yaml.str (fst (k0, v0)))) (snd (k0, v0))).
    assert (Hk : forall k', In k' (map fst acc') <->
                            In k' (map fst acc) \/ k' = Py.lower (Yaml.str k0)).
    { intros k'. unfold acc'. rewrite set_keys. cbn [fst snd].
      destruct (Py.mem (Py.lower (Yaml.str k0)) (map fst acc)) eqn:Hm.
      - apply mem_In in Hm. split; [auto|]. intros [H| ->]; assumption.
      - rewrite in_app_iff. simpl. intuition. }
    assert (Hnd' : NoDup (map fst acc')).
    { unfold acc'. rewrite set_keys. cbn [fst snd].
      destruct (Py.mem (Py.lower (Yaml.str k0)) (map fst acc)) eqn:Hm; [exact Hnd|].
      apply mem_false in Hm. apply NoDup_app; [exact Hnd | repeat constructor; auto |].
      intros x Hx [<-|[]]. contradiction. }
    destruct (IH acc' Hnd') as [IH1 IH2]. split; [exact IH1|].
    intros k'. rewrite IH2, Hk. split.
    + intros [[H| ->]|(k & v & Hin & ->)].
      * left. exact H.
      * right. exists k0, v0. split; [left; reflexivity | reflexivity].
      * right. exists k, v. split; [right; exact Hin | reflexivity].
    + intros [H|(k & v & [Heq|Hin] & ->)].
      * left. left. exact H.
      * inversion Heq; subst. left. right. reflexivity.
      * right. exists k, v. split; [exact Hin | reflexivity].
Qed.

(** X15.  The raw map that [load_index_map] returns is the document
    unchanged.  The lower-cased map has one entry for each lower-cased
    configured name and no other, so no more entries than the document;
    when the configured names are ASCII, a name with an ASCII capital
    letter is never found in it as it stands. *)
Theorem load_index_map_lower_keys {T : Py.Text} :
  forall doc : option (Yaml.dict Yaml.scalar),
    let data := match doc with Some d => d | None => [] end in
    let im := load_index_map doc in
    raw_map im = data /\
    NoDup (map fst (lower_map im)) /\
    (forall k', In k' (map fst (lower_map im)) <->
                exists k v, In (k, v) data /\ k' = Py.lower (Yaml.str k)) /\
    length (lower_map im) <= length data /\
    ((forall k v, In (k, v) data -> Py.isascii (Yaml.str k) = true) ->
     forall name, Py.ascii_lower name <> name ->
                  Yaml.get (lower_map im) name = Yaml.none).
Proof.
  intros doc data im.
  assert (Hl : lower_map im = lowered data) by reflexivity.
  destruct (lowered_keys data [] (NoDup_nil _)) as [Hnd Hk]. cbn zeta in Hnd, Hk.
  fold (lowered data) in Hnd, Hk.
  assert (Hkeys : forall k', In k' (map fst (lowered data)) <->
                             exists k v, In (k, v) data /\ k' = Py.lower (Yaml.str k)).
  { intros k'. rewrite Hk. simpl. tauto. }
  rewrite Hl. split; [reflexivity|]. split; [exact Hnd|].
  split; [exact Hkeys|]. split; [apply lowered_length|].
  intros Hascii name Hne. apply get_absent. intros H. apply Hne.
  apply Hkeys in H. destruct H as (k & v & Hin & ->).
  rewrite (Py.lower_ascii_text _ (Hascii k v Hin)). apply lower_idem.
Qed.

(** ** Rectangular tables stay rectangular *)

Lemma default_names_length (names : option (list string)) (c1 c2 : list string) :
  length (default_index_names names c1) = length (default_index_names names c2).
Proof. destruct names; reflexivity. Qed.

Lemma frame_of_table_well_formed (t : Table) :
  rectangular t ->
  well_formed (frame_of_table t) /\ index_well_formed (frame_of_table t).
Proof.
  unfold rectangular, well_formed, index_well_formed, frame_of_table.
  cbn [rows columns index_names]. rewrite !Forall_forall. intros H.
  split; intros [i r] Hin; cbn [fst snd].
  - apply H. eapply in_combine_r. exact Hin.
  - apply in_combine_l in Hin. unfold range_index in Hin.
    apply in_map_iff in Hin. destruct Hin as [j [<- _]]. reflexivity.
Qed.

Lemma drop_unnamed_well_formed (df : DataFrame) :
  well_formed df -> index_well_formed df ->
  well_formed (_drop_unnamed df) /\ index_well_formed (_drop_unnamed df).
Proof.
  intros W I. unfold _drop_unnamed. destruct (empty df); [split; assumption|].
  unfold well_formed, index_well_formed, loc_columns in *.
  cbn [rows columns index_names]. rewrite !Forall_forall in *.
  split; intros r' Hr'; apply in_map_iff in Hr'; destruct Hr' as [r [<- Hr]];
    cbn [fst snd].
  - apply select_length. apply W. exact Hr.
  - rewrite (I r Hr). apply default_names_length.
Qed.

Lemma fillna_well_formed (df : DataFrame) :
  well_formed df -> index_well_formed df ->
  well_formed (fillna df) /\ index_well_formed (fillna df).
Proof.
  intros W I. unfold well_formed, index_well_formed, fillna in *.
  cbn [rows columns index_names]. rewrite !Forall_forall in *.
  split; intros r' Hr'; apply in_map_iff in Hr'; destruct Hr' as [r [<- Hr]];
    cbn [fst snd].
  - rewrite length_map. apply W. exact Hr.
  - apply I. exact Hr.
Qed.

Lemma set_index_well_formed (index_col : Yaml.value) (df a : DataFrame) :
  set_index index_col df = Ok a -> well_formed df ->
  well_formed a /\ index_well_formed a.
Proof.
  unfold set_index. destruct (text_labels (labels_of index_col)) as [ks|]; [|discriminate].
  destruct (forallb _ ks); [|discriminate]. intros H W. inversion H; subst a. clear H.
  unfold well_formed, index_well_formed in *.
  cbn [rows columns index_names default_index_names]. rewrite !Forall_forall in *.
  split; intros r' Hr'; apply in_map_iff in Hr'; destruct Hr' as [r [<- Hr]];
    cbn [fst snd].
  - apply select_length. apply W. exact Hr.
  - apply length_map.
Qed.

Lemma reset_index_well_formed (df b : DataFrame) :
  reset_index df = Ok b -> well_formed df -> index_well_formed df ->
  well_formed b.
Proof.
  unfold reset_index. destruct (andb _ _); [|discriminate].
  intros H W I. inversion H; subst b. clear H.
  unfold well_formed, index_well_formed in *. cbn [rows columns].
  rewrite !Forall_forall in *. intros [i r'] Hin. cbn [snd].
  apply in_combine_r in Hin. apply in_map_iff in Hin.
  destruct Hin as [r [<- Hr]]. rewrite !length_app, (W r Hr), (I r Hr). reflexivity.
Qed.

(** X16.  When the two tables read are rectangular, so is every frame the
    loop body works on: after the placeholder columns are dropped, after
    the key is installed and the missing values are replaced, and after
    the index is put back among the columns, every row has one cell per
    column. *)
Theorem frames_stay_rectangular :
  forall (index_col : Yaml.value) (t1 t2 : Table) (a b : DataFrame),
    rectangular t1 -> rectangular t2 ->
    install_index index_col (_drop_unnamed (frame_of_table t1))
                  (_drop_unnamed (frame_of_table t2))
    = Ok (inr (a, b)) ->
    well_formed (_drop_unnamed (frame_of_table t1)) /\
    well_formed (_drop_unnamed (frame_of_table t2)) /\
    well_formed (fillna a) /\ well_formed (fillna b) /\
    (forall ar, reset_index (fillna a) = Ok ar -> well_formed ar) /\
    (forall br, reset_index (fillna b) = Ok br -> well_formed br).
Proof.
  intros index_col t1 t2 a b R1 R2 Hi.
  destruct (frame_of_table_well_formed t1 R1) as [W1 I1].
  destruct (frame_of_table_well_formed t2 R2) as [W2 I2].
  destruct (drop_unnamed_well_formed _ W1 I1) as [W1' I1'].
  destruct (drop_unnamed_well_formed _ W2 I2) as [W2' I2'].
  assert (Hab : (well_formed a /\ index_well_formed a) /\
                (well_formed b /\ index_well_formed b)).
  { unfold install_index in Hi. destruct (Yaml.truthy index_col).
    - destruct (missing_cols _ _ _); [|discriminate]. unfold bind in Hi.
      destruct (set_index index_col (_drop_unnamed (frame_of_table t1))) as [a'|] eqn:Ha;
        [|discriminate].
      destruct (set_index index_col (_drop_unnamed (frame_of_table t2))) as [b'|] eqn:Hb;
        [|discriminate].
      inversion Hi; subst a' b'.
      split; eapply set_index_well_formed; eassumption.
    - inversion Hi; subst a b. split; split; assumption. }
  destruct Hab as [[Wa Ia] [Wb Ib]].
  destruct (fillna_well_formed a Wa Ia) as [Wfa Ifa].
  destruct (fillna_well_formed b Wb Ib) as [Wfb Ifb].
  repeat split; try assumption.
  - intros ar Har. eapply reset_index_well_formed; eassumption.
  - intros br Hbr. eapply reset_index_well_formed; eassumption.
Qed.

(** The two tables of the scenario under the key [id]. *)
Lemma frames_stay_rectangular_witness :
  rectangular items_v1 /\
  exists a b,
    install_index (Yaml.YScalar (Yaml.YStr "id"))
                  (_drop_unnamed (frame_of_table items_v1))
                  (_drop_unnamed (frame_of_table items_v2))
    = Ok (inr (a, b)) /\
    well_formed (fillna a).
Proof.
  assert (R1 : rectangular items_v1) by (repeat constructor).
  assert (R2 : rectangular items_v2) by (repeat constructor).
  split; [exact R1|]. do 2 eexists. split; [reflexivity|].
  refine (proj1 (proj2 (proj2 (frames_stay_rectangular
                                 (Yaml.YScalar (Yaml.YStr "id")) items_v1 items_v2
                                 _ _ R1 R2 eq_refl)))).
Defined.

(** ** A blank in a column of numbers *)

Lemma combine_map_r {A B C : Type} (f : B -> C) (l1 : list A) (l2 : list B) :
  map (fun p => (fst p, f (snd p))) (combine l1 l2) = combine l1 (map f l2).
Proof.
  revert l2. induction l1 as [|x l1 IH]; intros [|y l2]; simpl; try reflexivity.
  f_equal. apply IH.
Qed.

Lemma fillna_table (hdr : list string) (body : list (list value)) :
  fillna (frame_of_table (mkTable hdr body))
  = frame_of_table (mkTable hdr (map (map fill) body)).
Proof.
  unfold fillna, frame_of_table.
  cbn [index_names columns rows header Pandas.body].
  rewrite length_map, (combine_map_r (map fill)). reflexivity.
Qed.

Lemma cell_fill (hdr : list string) (row : list value) (c : string) :
  In c hdr -> length row = length hdr ->
  cell hdr (map fill row) c = fill (cell hdr row c).
Proof.
  revert row. induction hdr as [|k hdr IH]; intros [|v row] Hin Hl;
    try discriminate; [contradiction|]. simpl.
  destruct (String.eqb_spec k c) as [->|Hne]; [reflexivity|].
  apply IH; [destruct Hin; [congruence | assumption] | simpl in Hl; congruence].
Qed.

Lemma column_cells_fill (hdr : list string) (body : list (list value)) (c : string) :
  In c hdr -> Forall (fun r => length r = length hdr) body ->
  column_cells hdr c (map (map fill) body) = map fill (column_cells hdr c body).
Proof.
  intros Hin Hb. unfold column_cells. rewrite !map_map.
  apply map_ext_in. intros row Hrow. rewrite Forall_forall in Hb.
  apply cell_fill; auto.
Qed.

(** Numbers stay numbers under [fillna]; numbers with a blank become an
    object column without a text of its own. *)
Lemma kind_of_filled_numbers (cells : list value) :
  forallb is_number cells = true -> kind_of (map fill cells) = Numeric.
Proof.
  intros H. apply kind_of_numbers. rewrite forallb_forall in *.
  intros v Hv. apply in_map_iff in Hv. destruct Hv as [x [<- Hx]].
  specialize (H x Hx). destruct x; try discriminate. reflexivity.
Qed.

Lemma kind_of_filled_blank (cells : list value) :
  existsb is_text cells = false -> In NaN cells ->
  kind_of (map fill cells) = Textual.
Proof.
  intros Ht Hn. unfold kind_of.
  assert (H1 : existsb is_text (map fill cells) = true).
  { apply existsb_exists. exists (VStr ""). split; [|reflexivity].
    apply in_map_iff. exists NaN. split; [reflexivity | assumption]. }
  assert (H2 : existsb is_word (map fill cells) = false).
  { clear Hn H1. induction cells as [|v cells IH]; [reflexivity|].
    simpl in Ht. apply orb_false_iff in Ht. destruct Ht as [Hv Ht].
    simpl. rewrite (IH Ht). destruct v; try discriminate; reflexivity. }
  rewrite H1, H2, andb_false_r. reflexivity.
Qed.

Lemma blank_kinds (lk rk : list value) :
  lk <> [] -> forallb is_number lk = true ->
  existsb is_text rk = false -> In NaN rk ->
  compatible (map fill lk) (map fill rk) = false /\
  compatible (map fill rk) (map fill lk) = false.
Proof.
  intros Hne Hl Ht Hn.
  pose proof (kind_of_filled_numbers lk Hl) as K1.
  pose proof (kind_of_filled_blank rk Ht Hn) as K2.
  unfold compatible. rewrite K1, K2.
  destruct lk as [|x lk]; [congruence|]. destruct rk as [|y rk]; [contradiction|].
  split; reflexivity.
Qed.

(** A pair of key columns that fails the dtype test makes the merge
    raise. *)
Lemma merge_raises_incompatible (left right : DataFrame) (keys : list Yaml.scalar)
      (on : list string) (c : string) :
  text_labels keys = Some on -> In c on ->
  compatible (column_cells (columns left) c (data left))
             (column_cells (columns right) c (data right)) = false ->
  exists e, merge left right keys = Raise e.
Proof.
  intros Hon Hc Hk. unfold merge. rewrite Hon.
  destruct on as [|k ks]; [contradiction|].
  destruct (negb (forallb _ (k :: ks))); [eexists; reflexivity|].
  assert (Hf : forallb (fun k0 => compatible
                                    (column_cells (columns left) k0 (data left))
                                    (column_cells (columns right) k0 (data right)))
                       (k :: ks) = false).
  { apply not_true_is_false. intros Hall. rewrite forallb_forall in Hall.
    rewrite (Hall c Hc) in Hk. discriminate. }
  rewrite Hf. eexists. reflexivity.
Qed.

Section BlankInNumbers.

Context {T : Py.Text}.
Variables (book : list out_sheet) (name1 name2 sheet : string).
Variable index_col : Yaml.value.
Variables (hdr : list string) (body1 body2 : list (list value)).

Hypothesis Hfalsy : Yaml.truthy index_col = false.
Hypothesis Hpos : ~ In (position_label hdr) hdr.
Hypothesis Hlen : length body1 <> length body2.

Lemma unkeyed_tables_aligned :
  compare_frames book name1 name2 sheet index_col
                 (frame_of_table (mkTable hdr body1)) (frame_of_table (mkTable hdr body2))
  = row_alignment book name1 name2 sheet index_col
                  (frame_of_table (mkTable hdr (map (map fill) body1)))
                  (frame_of_table (mkTable hdr (map (map fill) body2))).
Proof.
  unfold compare_frames, install_index. rewrite Hfalsy. cbn [bind].
  assert (Hs : same_shape (fillna (frame_of_table (mkTable hdr body1)))
                          (fillna (frame_of_table (mkTable hdr body2))) = false).
  { apply not_true_is_false. intros Hs. apply same_shape_eq in Hs.
    destruct Hs as [_ Hi]. rewrite !index_fillna, !index_frame_of_table_eq in Hi.
    cbn [Pandas.body] in Hi. apply Hlen.
    rewrite <- (range_index_length (length body1)), Hi.
    apply range_index_length. }
  rewrite Hs, !fillna_table. reflexivity.
Qed.

Lemma incompatible_column_fails_merge (b1 b2 : list (list value)) (c : string) :
  In c hdr ->
  compatible (column_cells hdr c b1) (column_cells hdr c b2) = false ->
  row_alignment book name1 name2 sheet index_col
                (frame_of_table (mkTable hdr b1)) (frame_of_table (mkTable hdr b2))
  = Ok MergeFailed.
Proof.
  intros Hc Hk. unfold row_alignment.
  rewrite !(reset_index_table hdr _ Hpos). cbn [bind].
  match goal with
  | |- match merge ?l ?r ?keys with _ => _ end = _ =>
      destruct (merge_raises_incompatible l r keys
                  (Py.sorted (Py.set_and (position_label hdr :: hdr)
                                         (position_label hdr :: hdr))) c)
        as [e He]
  end.
  - unfold on_keys. rewrite Hfalsy. cbn [columns]. apply text_labels_YStr.
  - apply In_sorted. unfold Py.set_and. apply filter_In.
    split; [right; exact Hc | apply mem_In; right; exact Hc].
  - assert (Hne : c <> position_label hdr) by (intros ->; contradiction).
    unfold data. cbn [columns rows].
    rewrite !combine_snd by (rewrite range_index_length, numbered_length; reflexivity).
    rewrite !(column_cells_numbered _ _ _ _ Hne). exact Hk.
  - rewrite He. reflexivity.
Qed.

End BlankInNumbers.

(** X17.  Without a key, take two sheets with the same header and
    different numbers of rows, every row holding one cell per column.
    When some column holds numbers only in one sheet, and numbers and at
    least one blank but no text in the other, [fillna] turns the second
    column into an object column, [pandas.merge] refuses to join a numeric
    column with it, and the body prints the merge error: nothing is
    written for the sheet, whichever workbook has the blank. *)
Theorem blank_in_numeric_column_fails_merge {T : Py.Text} :
  forall (book : list out_sheet) (name1 name2 sheet : string) (index_col : Yaml.value)
         (hdr : list string) (body1 body2 : list (list value)) (c : string),
    Yaml.truthy index_col = false ->
    ~ In (position_label hdr) hdr ->
    Forall (fun r => length r = length hdr) body1 ->
    Forall (fun r => length r = length hdr) body2 ->
    length body1 <> length body2 ->
    In c hdr ->
    body1 <> [] ->
    forallb is_number (column_cells hdr c body1) = true ->
    existsb is_text (column_cells hdr c body2) = false ->
    In NaN (column_cells hdr c body2) ->
    compare_frames book name1 name2 sheet index_col
                   (frame_of_table (mkTable hdr body1))
                   (frame_of_table (mkTable hdr body2))
    = Ok MergeFailed /\
    compare_frames book name1 name2 sheet index_col
                   (frame_of_table (mkTable hdr body2))
                   (frame_of_table (mkTable hdr body1))
    = Ok MergeFailed.
Proof.
  intros book name1 name2 sheet index_col hdr body1 body2 c
         Hf Hp R1 R2 Hl Hc Hne Hnum Htxt Hnan.
  assert (Hcells : column_cells hdr c body1 <> []).
  { unfold column_cells. destruct body1; [congruence | discriminate]. }
  destruct (blank_kinds _ _ Hcells Hnum Htxt Hnan) as [K1 K2].
  rewrite <- !(column_cells_fill hdr _ c Hc) in K1, K2 by assumption.
  split.
  - rewrite (unkeyed_tables_aligned book name1 name2 sheet index_col hdr body1 body2
               Hf Hl).
    apply (incompatible_column_fails_merge book name1 name2 sheet index_col hdr
             Hf Hp _ _ c Hc K1).
  - rewrite (unkeyed_tables_aligned book name1 name2 sheet index_col hdr body2 body1
               Hf (fun E => Hl (eq_sym E))).
    apply (incompatible_column_fails_merge book name1 name2 sheet index_col hdr
             Hf Hp _ _ c Hc K2).
Qed.

(** The column [a] with the numbers 1 and 2, against the same column with
    one more cell that is blank. *)
Lemma blank_in_numeric_column_fails_merge_witness :
  compare_frames (T := Py.ascii_text) [] "v1" "v2" "S" Yaml.none
                 (frame_of_table two_rows) (frame_of_table blank_at_end)
  = Ok MergeFailed.
Proof.
  apply (proj1 (blank_in_numeric_column_fails_merge (T := Py.ascii_text)
                  [] "v1" "v2" "S" Yaml.none ["a"]
                  [[VNum 1]; [VNum 2]] [[VNum 1]; [VNum 2]; [NaN]] "a"
                  eq_refl
                  ltac:(simpl; intuition discriminate)
                  ltac:(repeat constructor) ltac:(repeat constructor)
                  ltac:(simpl; lia)
                  ltac:(left; reflexivity)
                  ltac:(discriminate)
                  eq_refl eq_refl
                  ltac:(simpl; tauto))).
Defined.

(** ** The names the writer accepts *)

(** A sheet is written under a name that passes the name test, given that
    the names of the sheets the writer holds did. *)
Lemma to_excel_valid {T : Py.Text} (book : list out_sheet) (name : string)
      (df : DataFrame) (w : out_sheet) :
  to_excel book name df = Ok w ->
  Forall (fun s => valid_sheet_name (out_name s) = true) book ->
  valid_sheet_name name = true.
Proof.
  unfold to_excel. destruct (orb _ _); [discriminate|].
  destruct (existsb _ book) eqn:E.
  - intros _ Hb. apply existsb_exists in E. destruct E as [s [Hs E]].
    apply String.eqb_eq in E. subst name. rewrite Forall_forall in Hb. auto.
  - destruct (valid_sheet_name name); [reflexivity | discriminate].
Qed.

Lemma written_by_valid {T : Py.Text} (book : list out_sheet) (xls1 xls2 : ExcelFile)
      (name1 name2 : string) (skiprows : Z) (im : index_map) (sheet : string)
      (o : outcome) (w : out_sheet) :
  process_sheet book xls1 xls2 name1 name2 skiprows im sheet = Ok o ->
  In w (written_by o) ->
  Forall (fun s => valid_sheet_name (out_name s) = true) book ->
  valid_sheet_name (out_name w) = true.
Proof.
  unfold process_sheet, compare_frames, cell_diff, row_alignment, report_unmatched, bind.
  intros H Hw Hb.
  repeat match type of H with
         | context [match ?x with _ => _ end] =>
             let E := fresh "E" in destruct x eqn:E; try discriminate
         end;
    inversion H; subst; simpl in Hw; try contradiction;
    destruct Hw as [<-|[]];
    match goal with
    | E : to_excel _ _ _ = Ok _ |- _ =>
        pose proof (to_excel_valid _ _ _ _ E Hb) as Hv;
        apply to_excel_sheet in E; subst; simpl; exact Hv
    end.
Qed.

Section ValidNames.

Context {T : Py.Text}.
Variables (xls1 xls2 : ExcelFile) (name1 name2 : string).
Variables (skiprows : Z) (im : index_map).

Let valid_sheets (l : list out_sheet) : Prop :=
  Forall (fun s => valid_sheet_name (out_name s) = true) l.

Let logged (st : run) : Prop :=
  forall sheet o w,
    In (sheet, o) (console st) -> In w (written_by o) ->
    valid_sheet_name (out_name w) = true /\
    (out_name w = (sheet ++ "_same")%string \/ out_name w = (sheet ++ "_diff")%string).

Lemma sheet_loop_valid (sheets : list string) (st st' : run) :
  sheet_loop xls1 xls2 name1 name2 skiprows im sheets st = Ok st' ->
  valid_sheets (written st) -> logged st ->
  valid_sheets (written st') /\ logged st'.
Proof.
  revert st. induction sheets as [|s sheets IH]; intros st H Hv Hl; simpl in H.
  - inversion H; subst. split; assumption.
  - destruct (process_sheet (written st) xls1 xls2 name1 name2 skiprows im s)
      as [o|e] eqn:Ho; [|discriminate].
    assert (Hnew : forall w, In w (written_by o) ->
                             valid_sheet_name (out_name w) = true).
    { intros w Hw. eapply written_by_valid; eassumption. }
    apply IH in H; [exact H | |].
    + unfold valid_sheets, record_outcome. cbn [written].
      apply Forall_app. split; [exact Hv|]. apply Forall_forall. exact Hnew.
    + unfold logged, record_outcome. cbn [console].
      intros sheet o' w Hin Hw. apply in_app_or in Hin.
      destruct Hin as [Hin|[Hin|[]]]; [eapply Hl; eassumption|].
      inversion Hin; subst sheet o'. split; [apply Hnew; exact Hw|].
      eapply written_by_name; eassumption.
Qed.

End ValidNames.

Lemma isascii_app (a b : string) :
  Py.isascii (a ++ b) = andb (Py.isascii a) (Py.isascii b).
Proof.
  induction a as [|c a IH]; simpl; [reflexivity|].
  rewrite IH, andb_assoc. reflexivity.
Qed.

(** X18.  In a run that ends normally every sheet of the output workbook
    has a name that passed the name test of xlsxwriter, so a name of at
    most 31 characters.  The name is that of the compared sheet with five
    more characters: a compared sheet whose name is ASCII and longer than
    26 characters has no sheet in the output of such a run.  With such a
    sheet, here one of 27 characters, and a difference to report the run
    ends with the exception of the writer. *)
Theorem written_names_valid {T : Py.Text} :
  (forall (xls1 xls2 : ExcelFile) (name1 name2 : string) (skiprows : Z)
          (doc_prefix : option string) (im : index_map) (r : run),
      compare_excels xls1 xls2 name1 name2 skiprows doc_prefix im = Ok r ->
      Forall (fun w => valid_sheet_name (out_name w) = true) (written r) /\
      (forall w, In w (written r) -> Py.len (out_name w) <= 31) /\
      (forall sheet o,
          In (sheet, o) (console r) ->
          Py.isascii sheet = true -> 26 < String.length sheet ->
          written_by o = [])) /\
  String.length long_name = 27 /\
  compare_excels (workbook [(long_name, items_v1)]) (workbook [(long_name, items_v2)])
                 "v1" "v2" 3 None (load_index_map None)
  = Raise InvalidWorksheetName.
Proof.
  split; [|split; [reflexivity|]].
  - intros xls1 xls2 name1 name2 skiprows doc_prefix im r Hr.
    unfold compare_excels in Hr. apply sheet_loop_valid in Hr.
    + destruct Hr as [Hv Hl]. split; [exact Hv|]. split.
      * intros w Hw. rewrite Forall_forall in Hv. specialize (Hv w Hw).
        unfold valid_sheet_name in Hv. apply andb_true_iff in Hv.
        destruct Hv as [Hv _]. apply Nat.leb_le. exact Hv.
      * intros sheet o Hin Ha Hlong.
        destruct (written_by o) as [|w ws] eqn:Hw; [reflexivity|]. exfalso.
        destruct (Hl sheet o w Hin) as [Hvw Hn]; [rewrite Hw; left; reflexivity|].
        unfold valid_sheet_name in Hvw. apply andb_true_iff in Hvw.
        destruct Hvw as [Hvw _]. apply Nat.leb_le in Hvw.
        assert (E : Py.len (out_name w) = String.length sheet + 5).
        { destruct Hn as [-> | ->];
            (rewrite Py.len_ascii_text, str_length_app;
             [reflexivity | rewrite isascii_app, Ha; reflexivity]). }
        lia.
    + constructor.
    + intros sheet o w [].
  - unfold compare_excels.
    change (common_sheets _ _ _) with [long_name].
    cbn zeta. apply sheet_loop_raise. cbn [written]. unfold process_sheet.
    change (read_excel (workbook [(long_name, items_v1)]) long_name 3)
      with (Some items_v1).
    change (read_excel (workbook [(long_name, items_v2)]) long_name 3)
      with (Some items_v2).
    cbn iota zeta.
    change (index_col_of (load_index_map None) long_name) with Yaml.none.
    unfold compare_frames.
    change (install_index _ _ _)
      with (Ok (@inr (list Yaml.scalar) _
                     (_drop_unnamed (frame_of_table items_v1),
                      _drop_unnamed (frame_of_table items_v2)))).
    cbn [bind].
    change (same_shape _ _) with true. cbn iota.
    unfold cell_diff.
    change (compare "v1" "v2" _ _)
      with (Ok (mkFrame None [("qty", "v1"); ("qty", "v2")]
                        [([VNum 1], [VNum 3; VNum 4])])).
    cbn [bind]. cbn [empty columns rows].
    change (reset_index_multi _)
      with (Ok (mkFrame None [("index", ""); ("qty", "v1"); ("qty", "v2")]
                        [([VNum 0], [VNum 1; VNum 3; VNum 4])])).
    cbn [bind columns rows index_names].
    unfold to_excel. cbn [rows columns length existsb orb].
    change (orb _ _) with false. cbn iota.
    unfold valid_sheet_name.
    rewrite (Py.len_ascii_text (long_name ++ "_same") eq_refl).
    reflexivity.
Qed.

(** The scenario: the one sheet written is named [Items_same]. *)
Lemma written_names_valid_witness :
  exists r,
    compare_excels (T := Py.ascii_text)
                   (workbook [("Items", items_v1)]) (workbook [("Items", items_v2)])
                   "v1" "v2" 3 (Some "(DOC)") (items_key (T := Py.ascii_text)) = Ok r /\
    map out_name (written r) = ["Items_same"] /\
    Forall (fun w => valid_sheet_name (T := Py.ascii_text) (out_name w) = true)
           (written r).
Proof.
  eexists. split; [reflexivity|]. split; [reflexivity|].
  apply (proj1 (proj1 (written_names_valid (T := Py.ascii_text))
                  (workbook [("Items", items_v1)]) (workbook [("Items", items_v2)])
                  "v1" "v2" 3%Z (Some "(DOC)") (items_key (T := Py.ascii_text))
                  _ eq_refl)).
Defined.
